(** * train.py: the training driver of the segmentation repository

    A shallow embedding of [src/train.py]: the [train] function (one epoch
    of optimisation), [main] (construction of model, data, loss and
    optimiser, the resume block and the epoch loop) and the [__main__]
    script (the dataset switch).

    Calls into the deep-learning framework and into the collaborator
    modules of the repository that are not part of the source at hand
    ([build_model], [predict_sliding], [EarlyStopping], ...) are the fields
    of the class [Framework].  Python exceptions are values of [exn];
    observable effects (prints, builder calls, log records, checkpoint
    writes) are collected in a trace of [event]s; the files on disk are a
    finite map from paths to checkpoints.  Python floats are modelled by
    exact rationals.  The calls into the framework are total functions,
    but for [model.cuda()] and [criteria.cuda()], which raise when there is
    no GPU to move the tensors to: what else can go wrong inside the
    framework is not part of this development. *)

From Stdlib Require Import QArith Ascii String Qpower.
From stdpp Require Import gmap strings list pretty.

Local Open Scope Z_scope.

(** ** Exceptions and results *)

Inductive exn : Type :=
| NotImplementedError (msg : string)
| ZeroDivisionError
| UnboundLocalError (name : string)
| AttributeError (attr : string)
| IndexError
| ValueError
| RuntimeError (msg : string)
| Exception (msg : string).

Inductive result (A : Type) : Type :=
| Ok (a : A)
| Err (e : exn).
Arguments Ok {A} a.
Arguments Err {A} e.

#[global] Instance exn_eq_dec : EqDecision exn.
Proof. solve_decision. Defined.

(** ** Command-line arguments *)

(** [--input_size] is declared with [type=str] and a tuple default: the
    attribute holds either the string given on the command line or a pair
    of integers. *)
Inductive size_arg : Type :=
| SizeStr (s : string)
| SizeTuple (h w : Z).

#[global] Instance size_arg_eq_dec : EqDecision size_arg.
Proof. solve_decision. Defined.

(** [--optim] has [choices=['sgd', 'adam']]. *)
Inductive optim_kind : Type := SGD | Adam.

(** The [argparse] namespace.  [classes], [gpu_nums] and [save_seg_dir] are
    attributes assigned after parsing; reading one that was never assigned
    raises [AttributeError]. *)
Record Args : Type := {
  args_model : string;
  args_dataset : string;
  args_input_size : size_arg;
  args_num_workers : Z;
  args_train_type : string;
  args_max_epochs : Z;
  args_batch_size : Z;
  args_val_epochs : Z;
  args_random_mirror : bool;
  args_random_scale : bool;
  args_lr : Q;
  args_optim : optim_kind;
  args_sliding : bool;
  args_loss : string;
  args_cuda : bool;
  args_gpus : string;
  args_resume : string;
  args_savedir : string;
  args_logFile : string;
  args_classes : option Z;
  args_gpu_nums : option Z;
  args_save_seg_dir : option string
}.

Definition set_dataset_attrs (classes : Z) (sz : size_arg) (a : Args) : Args :=
  {| args_model := args_model a; args_dataset := args_dataset a;
     args_input_size := sz; args_num_workers := args_num_workers a;
     args_train_type := args_train_type a; args_max_epochs := args_max_epochs a;
     args_batch_size := args_batch_size a; args_val_epochs := args_val_epochs a;
     args_random_mirror := args_random_mirror a;
     args_random_scale := args_random_scale a; args_lr := args_lr a;
     args_optim := args_optim a; args_sliding := args_sliding a;
     args_loss := args_loss a; args_cuda := args_cuda a;
     args_gpus := args_gpus a; args_resume := args_resume a;
     args_savedir := args_savedir a; args_logFile := args_logFile a;
     args_classes := Some classes; args_gpu_nums := args_gpu_nums a;
     args_save_seg_dir := args_save_seg_dir a |}.

Definition set_gpu_nums (n : Z) (a : Args) : Args :=
  {| args_model := args_model a; args_dataset := args_dataset a;
     args_input_size := args_input_size a; args_num_workers := args_num_workers a;
     args_train_type := args_train_type a; args_max_epochs := args_max_epochs a;
     args_batch_size := args_batch_size a; args_val_epochs := args_val_epochs a;
     args_random_mirror := args_random_mirror a;
     args_random_scale := args_random_scale a; args_lr := args_lr a;
     args_optim := args_optim a; args_sliding := args_sliding a;
     args_loss := args_loss a; args_cuda := args_cuda a;
     args_gpus := args_gpus a; args_resume := args_resume a;
     args_savedir := args_savedir a; args_logFile := args_logFile a;
     args_classes := args_classes a; args_gpu_nums := Some n;
     args_save_seg_dir := args_save_seg_dir a |}.

Definition set_savedir (d : string) (a : Args) : Args :=
  {| args_model := args_model a; args_dataset := args_dataset a;
     args_input_size := args_input_size a; args_num_workers := args_num_workers a;
     args_train_type := args_train_type a; args_max_epochs := args_max_epochs a;
     args_batch_size := args_batch_size a; args_val_epochs := args_val_epochs a;
     args_random_mirror := args_random_mirror a;
     args_random_scale := args_random_scale a; args_lr := args_lr a;
     args_optim := args_optim a; args_sliding := args_sliding a;
     args_loss := args_loss a; args_cuda := args_cuda a;
     args_gpus := args_gpus a; args_resume := args_resume a;
     args_savedir := d; args_logFile := args_logFile a;
     args_classes := args_classes a; args_gpu_nums := args_gpu_nums a;
     args_save_seg_dir := args_save_seg_dir a |}.

Definition set_save_seg_dir (d : string) (a : Args) : Args :=
  {| args_model := args_model a; args_dataset := args_dataset a;
     args_input_size := args_input_size a; args_num_workers := args_num_workers a;
     args_train_type := args_train_type a; args_max_epochs := args_max_epochs a;
     args_batch_size := args_batch_size a; args_val_epochs := args_val_epochs a;
     args_random_mirror := args_random_mirror a;
     args_random_scale := args_random_scale a; args_lr := args_lr a;
     args_optim := args_optim a; args_sliding := args_sliding a;
     args_loss := args_loss a; args_cuda := args_cuda a;
     args_gpus := args_gpus a; args_resume := args_resume a;
     args_savedir := args_savedir a; args_logFile := args_logFile a;
     args_classes := args_classes a; args_gpu_nums := args_gpu_nums a;
     args_save_seg_dir := Some d |}.

(** ** Values returned by validation *)

(** The seven values returned by [predict_sliding]. *)
Record val_result : Type := {
  v_loss : Q;
  v_FWIoU : Q;
  v_mIOU : Q;
  v_per_class_iu : list Q;
  v_pa : Q;
  v_cpa : list Q;
  v_mpa : Q
}.

(** The value a forward pass returns: a tensor or a tuple of tensors. *)
Inductive output (T : Type) : Type :=
| OTensor (t : T)
| OTuple (ts : list T).
Arguments OTensor {T} t.
Arguments OTuple {T} ts.

(** Modelled from the spec: utils/record_log.py is not among the sources.
    The spec describes the log as plain text with one line per epoch (epoch,
    lr, train loss, val loss, FWIoU, mIOU, per-class IoU).  A line is
    modelled by the values the recorder is handed: [record_trainVal_log]
    writes one line with all of them, [record_train_log] one line with
    epoch, learning rate and train loss. *)
Inductive log_line : Type :=
| LogTrainVal (epoch : Z) (lr lossTr val_loss FWIoU mIOU : Q)
              (per_class_iu : list Q) (pa mpa : Q) (cpa : list Q)
| LogTrain (epoch : Z) (lr lossTr : Q).

(** ** The framework and the collaborator modules *)

Class Framework : Type := {
  (** a model: architecture together with its parameter tensors *)
  weights : Type;
  tensor : Type;
  (** one element of the training loader: [images, labels, _, _] *)
  batch : Type;
  (** internal state of the optimiser (momentum, moment estimates) *)
  opt_state : Type;
  criterion : Type;
  test_loader : Type;
  dataset_info : Type;
  class_dict : Type;
  (** the [EarlyStopping] object *)
  stopper : Type;

  build_model : string -> Z -> weights;
  init_weight : weights -> weights;
  netParams : weights -> Z;
  build_dataset_train :
    string -> size_arg -> Z -> string -> bool -> bool -> Z ->
    dataset_info * list batch;
  build_dataset_test : string -> Z -> bool -> test_loader * class_dict;
  build_loss : Args -> Z -> criterion;
  optimizer_init : optim_kind -> weights -> opt_state;

  (** [model(images)] *)
  forward : weights -> batch -> output tensor;
  (** iteration over the first dimension of a tensor *)
  unbind : tensor -> list tensor;
  (** [criterion(output, labels).item()] *)
  loss_value : criterion -> tensor -> batch -> Q;
  (** [loss.backward(); optimizer.step()]; the flag tells whether the loss is
      the weighted sum of main and auxiliary loss *)
  backward_step :
    bool -> optim_kind -> Q -> opt_state -> weights -> criterion -> batch ->
    weights * opt_state;

  (** [torch.cuda.device_count()] and [torch.cuda.is_available()] once
      [CUDA_VISIBLE_DEVICES] is set to the given string *)
  device_count : string -> Z;
  is_available : string -> bool;
  (** [model.cuda()] and [criteria.cuda()] under the same setting: the call
      moves every tensor of the module to the GPU and raises when it cannot;
      with a GPU available it returns *)
  model_cuda : string -> weights -> result weights;
  DataParallel : weights -> weights;
  criterion_cuda : string -> criterion -> result criterion;
  model_cuda_usable :
    forall gpus m, is_available gpus = true ->
                   exists m', model_cuda gpus m = Ok m';
  criterion_cuda_usable :
    forall gpus c, is_available gpus = true ->
                   exists c', criterion_cuda gpus c = Ok c';

  predict_sliding :
    Args -> weights -> test_loader -> size_arg -> criterion -> val_result;
  (** [predict_whole()] is called without arguments *)
  predict_whole : result (Q * Q * Q * list Q);

  EarlyStopping : Z -> stopper;
  monitor : stopper -> Q -> stopper;
  early_stop : stopper -> bool;

  (** the builtin [float] on strings; [None] stands for [ValueError] *)
  py_float : string -> option Q
}.

(** ** Python helpers *)

(** [a % b] on integers: the result has the sign of the divisor, as
    [Z.modulo]; a zero divisor raises. *)
Definition py_mod (a b : Z) : result Z :=
  if b =? 0 then Err ZeroDivisionError else Ok (a mod b).

(** [sum(xs)]: a left fold starting from [0]. *)
Definition py_sum (xs : list Q) : Q := fold_left Qplus xs 0%Q.

(** [x / n] for a float [x] and an integer [n]. *)
Definition py_div (x : Q) (n : Z) : result Q :=
  if n =? 0 then Err ZeroDivisionError else Ok (x / inject_Z n)%Q.

(** Characters on which [str.split()] separates (for ASCII text). *)
Definition is_space (c : ascii) : bool :=
  let n := nat_of_ascii c in
  ((9 <=? n)%nat && (n <=? 13)%nat) || ((28 <=? n)%nat && (n <=? 32)%nat).

Definition flush_token (cur : list ascii) (acc : list string) : list string :=
  match cur with
  | [] => acc
  | _ => acc ++ [string_of_list_ascii (rev cur)]
  end.

Fixpoint split_go (s : string) (cur : list ascii) (acc : list string)
  : list string :=
  match s with
  | EmptyString => flush_token cur acc
  | String c s' =>
      if is_space c then split_go s' [] (flush_token cur acc)
      else split_go s' (c :: cur) acc
  end.

(** [line.strip().split()] *)
Definition strip_split (line : string) : list string := split_go line [] [].

Definition GLOBAL_SEED : Z := 88.

Section Train.
Context `{FW : Framework}.

(** ** Files, events and the effect monad *)

(** What [torch.save] writes: [{"epoch": epoch, "model": state_dict}]. *)
Record checkpoint : Type := {
  ck_epoch : Z;
  ck_model : weights
}.

(** The part of the file system the program touches: checkpoint files,
    directories, and the lines of the log file found at startup. *)
Record world : Type := {
  files : gmap string checkpoint;
  dirs : gset string;
  logfile : list string
}.

Definition write_file (p : string) (ck : checkpoint) (w : world) : world :=
  {| files := <[p := ck]> (files w); dirs := dirs w; logfile := logfile w |}.

Definition make_dir (p : string) (w : world) : world :=
  {| files := files w; dirs := {[p]} ∪ dirs w; logfile := logfile w |}.

Inductive event : Type :=
| EvPrint (s : string)
| EvPrintData (what : string)
| EvSetupSeed (seed : Z)
| EvBuildModel (name : string) (classes : Z)
| EvBuildTrainSet (dataset : string) (sz : size_arg) (batch_size : Z)
| EvBuildTestSet (dataset : string)
| EvBuildLoss
| EvBuildOptimizer (k : optim_kind)
| EvMakedirs (path : string)
| EvRecordArgs
| EvOpenLog (resume : bool)
| EvTrain (epoch : Z)
| EvPredictSliding (epoch : Z) (sz : size_arg)
| EvPredictWhole (epoch : Z)
| EvLog (epoch : Z) (line : log_line)
| EvLrStep (epoch : Z)
| EvDrawLog (epoch : Z)
| EvSave (epoch : Z) (path : string) (ck : checkpoint)
| EvMonitor (epoch : Z) (metric : Q) (stop : bool)
| EvCloseLog.

(** A computation reads and changes the world, emits events and either
    returns a value or raises.  Events and changes made before an exception
    are kept. *)
Definition M (A : Type) : Type := world -> list event * world * result A.

Definition ret {A} (a : A) : M A := fun w => ([], w, Ok a).

Definition raise {A} (e : exn) : M A := fun w => ([], w, Err e).

Definition bind {A B} (m : M A) (f : A -> M B) : M B := fun w =>
  match m w with
  | (t1, w1, Ok a) =>
      match f a w1 with (t2, w2, r) => (t1 ++ t2, w2, r) end
  | (t1, w1, Err e) => (t1, w1, Err e)
  end.

Notation "'let*' x ':=' m 'in' k" := (bind m (fun x => k))
  (at level 10, x binder, m at level 100, k at level 200).
Notation "m ';;' k" := (bind m (fun _ => k))
  (at level 100, k at level 200, right associativity).

Definition emit (ev : event) : M unit := fun w => ([ev], w, Ok tt).

Definition lift {A} (r : result A) : M A := fun w => ([], w, r).

Definition trace_of {A} (x : list event * world * result A) : list event :=
  fst (fst x).
Definition world_of {A} (x : list event * world * result A) : world :=
  snd (fst x).
Definition result_of {A} (x : list event * world * result A) : result A :=
  snd x.

(** [torch.save(state, path)] *)
Definition torch_save (epoch : Z) (ck : checkpoint) (p : string) : M unit :=
  fun w => ([EvSave epoch p ck], write_file p ck w, Ok tt).

(** [os.path.isfile(path)] *)
Definition isfile (p : string) : M bool :=
  fun w => ([], w, Ok (bool_decide (is_Some (files w !! p)))).

(** Whether a path names a file or a directory. *)
Definition on_disk (p : string) (w : world) : bool :=
  bool_decide (is_Some (files w !! p)) || bool_decide (p ∈ dirs w).

(** [os.path.exists(path)] *)
Definition path_exists (p : string) : M bool :=
  fun w => ([], w, Ok (on_disk p w)).

(** [torch.load(path)], called only after [isfile] answered yes. *)
Definition torch_load (p : string) : M checkpoint :=
  fun w => match files w !! p with
           | Some ck => ([], w, Ok ck)
           | None => ([], w, Err (Exception "torch.load: no such file"))
           end.

(** [if not os.path.exists(d): os.makedirs(d)] *)
Definition ensure_dir (d : string) : M unit :=
  let* ex := path_exists d in
  if ex then ret tt
  else fun w => ([EvMakedirs d], make_dir d w, Ok tt).

(** ** The optimiser and the learning-rate scheduler *)

Record optimizer : Type := {
  opt_kind : optim_kind;
  opt_lr : Q;
  opt_inner : opt_state
}.

(** [StepLR(optimizer, step_size=20, gamma=0.9).step()]: the counter of the
    scheduler advances and every twentieth step multiplies the learning
    rate by 0.9. *)
Definition StepLR_step (last_epoch : Z) (o : optimizer) : Z * optimizer :=
  let n := last_epoch + 1 in
  (n, if n mod 20 =? 0
      then {| opt_kind := opt_kind o; opt_lr := Qred (opt_lr o * (9 # 10));
              opt_inner := opt_inner o |}
      else o).

(** ** [train] *)

(** The loss of one batch (lines 45 to 54). *)
Definition batch_loss (args : Args) (model : weights) (crit : criterion)
    (b : batch) : result Q :=
  if String.eqb (args_model args) "PSPNet50" then
    let out := match forward model b with
               | OTensor t => unbind t
               | OTuple ts => ts
               end in
    match out with
    | [x; aux] =>
        Ok ((6 # 10) * loss_value crit x b + (4 # 10) * loss_value crit aux b)%Q
    | _ => Err ValueError
    end
  else
    match forward model b with
    | OTensor t => Ok (loss_value crit t b)
    | OTuple [] => Err IndexError
    | OTuple (t :: _) => Ok (loss_value crit t b)
    end.

(** The loop over the batches (lines 41 to 58): [epoch_loss] grows by one
    value per batch and the optimiser updates the model in place. *)
Fixpoint train_batches (args : Args) (crit : criterion) (loader : list batch)
    (model : weights) (o : optimizer) (epoch_loss : list Q)
  : result (list Q * weights * optimizer) :=
  match loader with
  | [] => Ok (epoch_loss, model, o)
  | b :: rest =>
      match batch_loss args model crit b with
      | Err e => Err e
      | Ok loss =>
          let '(model', inner') :=
            backward_step (String.eqb (args_model args) "PSPNet50")
              (opt_kind o) (opt_lr o) (opt_inner o) model crit b in
          train_batches args crit rest model'
            {| opt_kind := opt_kind o; opt_lr := opt_lr o;
               opt_inner := inner' |}
            (epoch_loss ++ [loss])
      end
  end.

(** [train(args, train_loader, model, criterion, optimizer, epoch)] returns
    the average loss and the learning rate; the updated model and optimiser
    are returned as well, since here they are values, not objects. *)
Definition train (args : Args) (train_loader : list batch) (model : weights)
    (crit : criterion) (o : optimizer) (epoch : Z)
  : M (Q * Q * weights * optimizer) :=
  emit (EvTrain epoch) ;;
  let lr := opt_lr o in
  let* '(epoch_loss, model', o') :=
    lift (train_batches args crit train_loader model o []) in
  let* average_epoch_loss_train :=
    lift (py_div (py_sum epoch_loss) (Z.of_nat (length epoch_loss))) in
  ret (average_epoch_loss_train, lr, model', o').

(** ** The state of the epoch loop *)

(** The local variables of [main] that live across iterations.  [pa], [cpa]
    and [mpa] are bound only by a call of [predict_sliding]; [metrics] holds
    them once bound. *)
Record loop_state : Type := {
  model : weights;
  optim : optimizer;
  lr_scheduler : Z;
  early_stopping : stopper;
  lossTr_list : list Q;
  mIOU_val_list : list Q;
  lossVal_list : list Q;
  mIOU_val : Q;
  metrics : option (Q * list Q * Q)
}.

(** [model.state_dict()] and [model.load_state_dict(d)]: a value of
    [weights] is the dictionary of parameter tensors itself. *)
Definition state_dict (m : weights) : weights := m.
Definition load_state_dict (m d : weights) : weights := d.

Definition attr {A} (name : string) (o : option A) : M A :=
  match o with Some a => ret a | None => raise (AttributeError name) end.

Definition local_var {A} (name : string) (o : option A) : M A :=
  match o with Some a => ret a | None => raise (UnboundLocalError name) end.

(** [args.savedir + '/model_' + str(epoch) + '.pth'] *)
Definition model_file_name (args : Args) (epoch : Z) : string :=
  (args_savedir args +:+ "/model_" +:+ pretty epoch +:+ ".pth")%string.

(** [epoch % args.val_epochs == 0 or epoch == 1 or epoch == args.max_epochs] *)
Definition validation_due (args : Args) (epoch : Z) : result bool :=
  match py_mod epoch (args_val_epochs args) with
  | Err e => Err e
  | Ok r => Ok ((r =? 0) || (epoch =? 1) || (epoch =? args_max_epochs args))
  end.

(** Lines 170 to 184: validation when due, and the record in the log. *)
Definition validation_step (args : Args) (testLoader : test_loader)
    (criteria : criterion) (epoch : Z) (lr lossTr : Q) (s : loop_state)
  : M loop_state :=
  let* due := lift (validation_due args epoch) in
  if due : bool then
    let* '(val_loss, FWIoU, mIOU, per_class_iu, bound) :=
      (if args_sliding args then
         emit (EvPredictSliding epoch (args_input_size args)) ;;
         let v := predict_sliding args (model s) testLoader
                    (args_input_size args) criteria in
         ret (v_loss v, v_FWIoU v, v_mIOU v, v_per_class_iu v,
              Some (v_pa v, v_cpa v, v_mpa v))
       else
         emit (EvPredictWhole epoch) ;;
         let* '(val_loss, FWIoU, mIOU, per_class_iu) := lift predict_whole in
         ret (val_loss, FWIoU, mIOU, per_class_iu, metrics s)) in
    let s' := {| model := model s; optim := optim s;
                 lr_scheduler := lr_scheduler s;
                 early_stopping := early_stopping s;
                 lossTr_list := lossTr_list s;
                 mIOU_val_list := mIOU_val_list s ++ [mIOU];
                 lossVal_list := lossVal_list s ++ [val_loss];
                 mIOU_val := mIOU; metrics := bound |} in
    let* '(pa, cpa, mpa) := local_var "pa" bound in
    emit (EvLog epoch (LogTrainVal epoch lr lossTr val_loss FWIoU mIOU
                         per_class_iu pa mpa cpa)) ;;
    ret s'
  else
    emit (EvLog epoch (LogTrain epoch lr lossTr)) ;;
    ret s.

(** [epoch > args.max_epochs - 10], else [epoch % 10 == 0] *)
Definition save_due (args : Args) (epoch : Z) : bool :=
  if epoch >? args_max_epochs args - 10 then true
  else if epoch mod 10 =? 0 then true
  else false.

(** Lines 193 to 198: the regular save. *)
Definition save_step (args : Args) (epoch : Z) (state : checkpoint) : M unit :=
  if epoch >? args_max_epochs args - 10 then
    torch_save epoch state (model_file_name args epoch)
  else if epoch mod 10 =? 0 then
    torch_save epoch state (model_file_name args epoch)
  else ret tt.

Inductive flow : Type := Continue | Break.

(** Lines 201 to 211: the early-stopping monitor. *)
Definition early_stopping_step (args : Args) (testLoader : test_loader)
    (criteria : criterion) (epoch : Z) (state : checkpoint) (s : loop_state)
  : M (flow * loop_state) :=
  let es := monitor (early_stopping s) (mIOU_val s) in
  emit (EvMonitor epoch (mIOU_val s) (early_stop es)) ;;
  if early_stop es then
    let* present := path_exists (model_file_name args epoch) in
    if negb present then
      torch_save epoch state (model_file_name args epoch) ;;
      emit (EvPredictSliding epoch (args_input_size args)) ;;
      let v := predict_sliding args (model s) testLoader
                 (args_input_size args) criteria in
      emit (EvPrintData "Epoch") ;;
      ret (Break,
           {| model := model s; optim := optim s;
              lr_scheduler := lr_scheduler s; early_stopping := es;
              lossTr_list := lossTr_list s;
              mIOU_val_list := mIOU_val_list s;
              lossVal_list := lossVal_list s;
              mIOU_val := v_mIOU v;
              metrics := Some (v_pa v, v_cpa v, v_mpa v) |})
    else
      ret (Break,
           {| model := model s; optim := optim s;
              lr_scheduler := lr_scheduler s; early_stopping := es;
              lossTr_list := lossTr_list s;
              mIOU_val_list := mIOU_val_list s;
              lossVal_list := lossVal_list s;
              mIOU_val := mIOU_val s; metrics := metrics s |})
  else
    ret (Continue,
         {| model := model s; optim := optim s;
            lr_scheduler := lr_scheduler s; early_stopping := es;
            lossTr_list := lossTr_list s;
            mIOU_val_list := mIOU_val_list s;
            lossVal_list := lossVal_list s;
            mIOU_val := mIOU_val s; metrics := metrics s |}).

(** The body of the epoch loop (lines 165 to 211). *)
Definition epoch_body (args : Args) (trainLoader : list batch)
    (testLoader : test_loader) (criteria : criterion) (epoch : Z)
    (s : loop_state) : M (flow * loop_state) :=
  (* training *)
  let* '(lossTr, lr, model', optim') :=
    train args trainLoader (model s) criteria (optim s) epoch in
  let s1 := {| model := model'; optim := optim';
               lr_scheduler := lr_scheduler s;
               early_stopping := early_stopping s;
               lossTr_list := lossTr_list s ++ [lossTr];
               mIOU_val_list := mIOU_val_list s;
               lossVal_list := lossVal_list s;
               mIOU_val := mIOU_val s; metrics := metrics s |} in
  (* validation and log *)
  let* s2 := validation_step args testLoader criteria epoch lr lossTr s1 in
  (* lr_scheduler.step() *)
  emit (EvLrStep epoch) ;;
  let '(last_epoch, optim'') := StepLR_step (lr_scheduler s2) (optim s2) in
  let s3 := {| model := model s2; optim := optim'';
               lr_scheduler := last_epoch;
               early_stopping := early_stopping s2;
               lossTr_list := lossTr_list s2;
               mIOU_val_list := mIOU_val_list s2;
               lossVal_list := lossVal_list s2;
               mIOU_val := mIOU_val s2; metrics := metrics s2 |} in
  (* draw log fig *)
  emit (EvDrawLog epoch) ;;
  (* save the model *)
  let state := {| ck_epoch := epoch; ck_model := state_dict (model s3) |} in
  save_step args epoch state ;;
  (* early_stopping monitor *)
  early_stopping_step args testLoader criteria epoch state s3.

(** [for epoch in range(start_epoch, args.max_epochs + 1)]: [n] is the number
    of values left in the range. *)
Fixpoint epoch_loop (args : Args) (trainLoader : list batch)
    (testLoader : test_loader) (criteria : criterion) (n : nat) (epoch : Z)
    (s : loop_state) : M loop_state :=
  match n with
  | O => ret s
  | S n' =>
      let* '(fl, s') :=
        epoch_body args trainLoader testLoader criteria epoch s in
      match fl with
      | Break => ret s'
      | Continue =>
          epoch_loop args trainLoader testLoader criteria n' (epoch + 1) s'
      end
  end.

(** [len(range(a, b))] *)
Definition range_len (a b : Z) : nat := Z.to_nat (b - a).

(** ** The resume block *)

(** [float(line.strip().split()[i])] *)
Definition field (line : string) (i : nat) : result Q :=
  match strip_split line !! i with
  | None => Err IndexError
  | Some tok =>
      match py_float tok with
      | Some q => Ok q
      | None => Err ValueError
      end
  end.

(** The three lists rebuilt from the old log: [lossTr_list],
    [lossVal_list], [mIOU_val_list]. *)
Definition history : Type := (list Q * list Q * list Q)%type.

(** Lines 148 to 152: [for index, line in enumerate(lines)]. *)
Fixpoint replay_log (val_epochs : Z) (index : Z) (lines : list string)
    (h : history) : result history :=
  match lines with
  | [] => Ok h
  | line :: rest =>
      let '(lossTr_list, lossVal_list, mIOU_val_list) := h in
      match field line 2 with
      | Err e => Err e
      | Ok tr =>
          match py_mod (index + 1) val_epochs with
          | Err e => Err e
          | Ok r =>
              if (r =? 0) || (index =? 0) then
                match field line 3 with
                | Err e => Err e
                | Ok lv =>
                    match field line 5 with
                    | Err e => Err e
                    | Ok mi =>
                        replay_log val_epochs (index + 1) rest
                          (lossTr_list ++ [tr], lossVal_list ++ [lv],
                           mIOU_val_list ++ [mi])
                    end
                end
              else
                replay_log val_epochs (index + 1) rest
                  (lossTr_list ++ [tr], lossVal_list, mIOU_val_list)
          end
      end
  end.

(** [recorder.resume_logfile()] hands back the lines of the existing log. *)
Definition resume_logfile : M (list string) :=
  fun w => ([EvOpenLog true], w, Ok (logfile w)).

(** Lines 140 to 162.  A string is true when it is not empty. *)
Definition resume_block (args : Args) (model : weights)
  : M (Z * weights * history) :=
  let start_epoch := 1 in
  if negb (String.eqb (args_resume args) "") then
    let* lines := resume_logfile in
    let* h := lift (replay_log (args_val_epochs args) 0 lines ([], [], [])) in
    let* found := isfile (args_resume args) in
    if found : bool then
      let* checkpoint := torch_load (args_resume args) in
      let start_epoch := ck_epoch checkpoint + 1 in
      let model := load_state_dict model (ck_model checkpoint) in
      emit (EvPrint ("loaded checkpoint '" +:+ args_resume args
                     +:+ "' (epoch " +:+ pretty (ck_epoch checkpoint)
                     +:+ ")")%string) ;;
      ret (start_epoch, model, h)
    else
      emit (EvPrint ("no checkpoint found at '" +:+ args_resume args
                     +:+ "'")%string) ;;
      ret (start_epoch, model, h)
  else
    emit (EvOpenLog false) ;;
    ret (start_epoch, model, ([], [], [])).

(** ** [main] *)

(** Lines 108 to 121. *)
Definition cuda_setup (args : Args) (model : weights) (criteria : criterion)
  : M (Args * weights * criterion) :=
  if args_cuda args then
    emit (EvPrint ("use gpu id: '" +:+ args_gpus args +:+ "'")%string) ;;
    let* criteria := lift (criterion_cuda (args_gpus args) criteria) in
    let* '(args, model) :=
      (if device_count (args_gpus args) >? 1 then
         emit (EvPrintData "torch.cuda.device_count()=") ;;
         let* model :=
           lift (model_cuda (args_gpus args) (DataParallel model)) in
         ret (set_gpu_nums (device_count (args_gpus args)) args, model)
       else
         emit (EvPrint "single GPU for training") ;;
         let* model := lift (model_cuda (args_gpus args) model) in
         ret (set_gpu_nums 1 args, model)) in
    if negb (is_available (args_gpus args)) then
      raise (Exception "No GPU found or Wrong gpu id, please run without --cuda")
    else ret (args, model, criteria)
  else ret (args, model, criteria).

Fixpoint ends_with_slash (s : string) : bool :=
  match s with
  | EmptyString => false
  | String c EmptyString => Ascii.eqb c "/"
  | String _ s' => ends_with_slash s'
  end.

(** [os.path.join(a, b)] for a relative [b] *)
Definition os_path_join (a b : string) : string :=
  if String.eqb a "" then b
  else if ends_with_slash a then (a +:+ b)%string
  else (a +:+ "/" +:+ b)%string.

(** Lines 124 and 125. *)
Definition run_dir (args : Args) (gpu_nums : Z) : string :=
  (args_savedir args +:+ args_dataset args +:+ "/" +:+ args_model args
   +:+ "bs" +:+ pretty (args_batch_size args) +:+ "gpu" +:+ pretty gpu_nums
   +:+ "_" +:+ args_train_type args +:+ "/")%string.

Definition main (args : Args) (ignore_label : Z) : M unit :=
  emit (EvPrintData "args") ;;
  emit (EvSetupSeed GLOBAL_SEED) ;;
  (* build the model and initialization weights *)
  let* classes := attr "classes" (args_classes args) in
  let model := init_weight (build_model (args_model args) classes) in
  emit (EvBuildModel (args_model args) classes) ;;
  (* load train set and test set *)
  let '(datas, trainLoader) :=
    build_dataset_train (args_dataset args) (args_input_size args)
      (args_batch_size args) (args_train_type args) (args_random_scale args)
      (args_random_mirror args) (args_num_workers args) in
  emit (EvBuildTrainSet (args_dataset args) (args_input_size args)
          (args_batch_size args)) ;;
  let '(testLoader, class_dict_df) :=
    build_dataset_test (args_dataset args) (args_num_workers args)
      (args_sliding args) in
  emit (EvBuildTestSet (args_dataset args)) ;;
  emit (EvPrintData "the number of parameters") ;;
  emit (EvPrint "Dataset statistics") ;;
  emit (EvPrintData "data['classWeights']") ;;
  emit (EvPrintData "mean and std") ;;
  (* define loss function *)
  let criteria := build_loss args ignore_label in
  emit EvBuildLoss ;;
  (* define optimization strategy *)
  let optimizer :=
    {| opt_kind := args_optim args; opt_lr := args_lr args;
       opt_inner := optimizer_init (args_optim args) model |} in
  emit (EvBuildOptimizer (args_optim args)) ;;
  (* move model and criteria on cuda *)
  let* '(args, model, criteria) := cuda_setup args model criteria in
  (* initial log file val output save *)
  let* gpu_nums := attr "gpu_nums" (args_gpu_nums args) in
  let args := set_savedir (run_dir args gpu_nums) args in
  ensure_dir (args_savedir args) ;;
  let save_seg_dir := os_path_join (args_savedir args) "predict_sliding" in
  let args := set_save_seg_dir save_seg_dir args in
  ensure_dir save_seg_dir ;;
  emit EvRecordArgs ;;
  (* initialize the early_stopping object *)
  let stopper0 := EarlyStopping 50 in
  (* continue training *)
  let* '(start_epoch, model, (lossTr_list0, lossVal_list0, mIOU_val_list0)) :=
    resume_block args model in
  emit (EvPrint ">>>>>>>>>>>beginning training>>>>>>>>>>>") ;;
  let* _ :=
    epoch_loop args trainLoader testLoader criteria
      (range_len start_epoch (args_max_epochs args + 1)) start_epoch
      {| model := model; optim := optimizer; lr_scheduler := 0;
         early_stopping := stopper0; lossTr_list := lossTr_list0;
         mIOU_val_list := mIOU_val_list0; lossVal_list := lossVal_list0;
         mIOU_val := 0%Q; metrics := None |} in
  emit (EvPrint "Early stopping and Save checkpoint") ;;
  emit EvCloseLog.

(** ** The script *)

(** The dataset switch (lines 257 to 279): number of classes, input size
    and ignore label of each supported dataset. *)
Definition dataset_switch (dataset : string) : option (Z * size_arg * Z) :=
  if String.eqb dataset "cityscapes" then Some (19, SizeTuple 512 512, 255)
  else if String.eqb dataset "camvid" then Some (11, SizeTuple 360 480, 11)
  else if String.eqb dataset "paris" then Some (3, SizeTuple 512 512, 255)
  else if String.eqb dataset "road" then Some (2, SizeTuple 512 512, 255)
  else if String.eqb dataset "ai" then Some (8, SizeTuple 256 256, 255)
  else None.

(** The [__main__] block, run on the parsed arguments. *)
Definition script (args : Args) : M unit :=
  match dataset_switch (args_dataset args) with
  | Some (classes, input_size, ignore_label) =>
      main (set_dataset_attrs classes input_size args) ignore_label ;;
      emit (EvPrintData "training time")
  | None =>
      raise (NotImplementedError
               ("This repository now supports datasets "
                +:+ args_dataset args +:+ " is not included")%string)
  end.

(** ** Observing a trace *)

(** The six steps of an epoch. *)
Inductive step : Type :=
| KTrain | KValidate | KLog | KLrStep | KSave | KMonitor.

#[global] Instance step_eq_dec : EqDecision step.
Proof. solve_decision. Defined.

Definition step_of (ev : event) : option step :=
  match ev with
  | EvTrain _ => Some KTrain
  | EvPredictSliding _ _ | EvPredictWhole _ => Some KValidate
  | EvLog _ _ => Some KLog
  | EvLrStep _ => Some KLrStep
  | EvSave _ _ _ => Some KSave
  | EvMonitor _ _ _ => Some KMonitor
  | _ => None
  end.

(** The steps of a trace, in the order they happened. *)
Fixpoint step_kinds (t : list event) : list step :=
  match t with
  | [] => []
  | ev :: t' =>
      match step_of ev with
      | Some k => k :: step_kinds t'
      | None => step_kinds t'
      end
  end.

(** The epoch an event belongs to. *)
Definition ev_epoch (ev : event) : option Z :=
  match ev with
  | EvTrain e | EvPredictSliding e _ | EvPredictWhole e | EvLog e _
  | EvLrStep e | EvDrawLog e | EvSave e _ _ | EvMonitor e _ _ => Some e
  | _ => None
  end.

Definition of_epoch (e : Z) (ev : event) : bool :=
  match ev_epoch ev with
  | Some e' => e' =? e
  | None => false
  end.

(** The events of epoch [e]. *)
Definition epoch_events (e : Z) (t : list event) : list event :=
  List.filter (of_epoch e) t.

Definition is_monitor (ev : event) : bool :=
  match ev with EvMonitor _ _ _ => true | _ => false end.

(** The events before the first early-stop check, and those after it. *)
Fixpoint before_monitor (t : list event) : list event :=
  match t with
  | [] => []
  | ev :: t' => if is_monitor ev then [] else ev :: before_monitor t'
  end.

Fixpoint after_monitor (t : list event) : list event :=
  match t with
  | [] => []
  | ev :: t' => if is_monitor ev then t' else after_monitor t'
  end.

(** The order of the steps within an epoch. *)
Definition fixed_order : list step :=
  [KTrain; KValidate; KLog; KLrStep; KSave; KMonitor].

(** [follows ks order]: the steps [ks] occur in the order given, each
    position of the order being used at most once. *)
Fixpoint follows (order ks : list step) : bool :=
  match ks with
  | [] => true
  | k :: ks' =>
      match order with
      | [] => false
      | o :: order' =>
          if bool_decide (k = o) then follows order' ks'
          else follows order' ks
      end
  end.

(** The lines written to the log. *)
Fixpoint log_lines (t : list event) : list log_line :=
  match t with
  | [] => []
  | EvLog _ line :: t' => line :: log_lines t'
  | _ :: t' => log_lines t'
  end.

(** The checkpoints written. *)
Fixpoint saves (t : list event) : list (string * checkpoint) :=
  match t with
  | [] => []
  | EvSave _ p ck :: t' => (p, ck) :: saves t'
  | _ :: t' => saves t'
  end.

(** The input size an event works with. *)
Definition size_used (ev : event) : option size_arg :=
  match ev with
  | EvBuildTrainSet _ sz _ => Some sz
  | EvPredictSliding _ sz => Some sz
  | _ => None
  end.

(** Whether a log line holds the validation values (val loss, FWIoU, mIOU,
    per-class IoU) next to epoch, learning rate and train loss. *)
Definition has_validation_fields (line : log_line) : bool :=
  match line with
  | LogTrainVal _ _ _ _ _ _ _ _ _ _ => true
  | LogTrain _ _ _ => false
  end.

Definition line_epoch (line : log_line) : Z :=
  match line with
  | LogTrainVal e _ _ _ _ _ _ _ _ _ => e
  | LogTrain e _ _ => e
  end.

Definition line_lr (line : log_line) : Q :=
  match line with
  | LogTrainVal _ lr _ _ _ _ _ _ _ _ => lr
  | LogTrain _ lr _ => lr
  end.

Definition line_lossTr (line : log_line) : Q :=
  match line with
  | LogTrainVal _ _ l _ _ _ _ _ _ _ => l
  | LogTrain _ _ l => l
  end.

(** The datasets the switch knows. *)
Definition supported_datasets : list string :=
  ["cityscapes"; "camvid"; "paris"; "road"; "ai"].

(** ** Auxiliary notions for the statements *)

(** The early-stop check of an epoch has to save: the monitor stops and the
    file of the epoch is neither written by the regular save nor on disk
    already. *)
Definition late_save (args : Args) (epoch : Z) (stop : bool) (w : world)
  : bool :=
  stop && negb (save_due args epoch || on_disk (model_file_name args epoch) w).

Definition is_validation (ev : event) : bool :=
  match step_of ev with Some KValidate => true | _ => false end.

(** An event that does not belong to another epoch than [e]. *)
Definition stays_in (e : Z) (ev : event) : bool :=
  match ev_epoch ev with
  | Some e' => e' =? e
  | None => true
  end.

(** An early-stop check that triggers. *)
Definition is_stop (ev : event) : bool :=
  match ev with EvMonitor _ _ true => true | _ => false end.

(** After the first triggering check, no event of another epoch. *)
Fixpoint quiet_after_stop (t : list event) : bool :=
  match t with
  | [] => true
  | EvMonitor e _ true :: t' => forallb (stays_in e) t'
  | _ :: t' => quiet_after_stop t'
  end.

(** Every event a computation emits satisfies [P], whatever the world. *)
Definition emits {A} (P : event -> Prop) (m : M A) : Prop :=
  forall w, Forall P (trace_of (m w)).

Definition size_ok (sz0 : size_arg) (ev : event) : Prop :=
  forall sz, size_used ev = Some sz -> sz = sz0.


(** The loss values of the batches of one epoch, in order: each batch is
    evaluated with the weights the batches before it have left. *)
Inductive batch_losses (args : Args) (crit : criterion)
  : list batch -> weights -> optimizer -> list Q -> weights -> optimizer
    -> Prop :=
| losses_nil m o : batch_losses args crit [] m o [] m o
| losses_cons b rest m o loss m1 inner1 ls m' o' :
    batch_loss args m crit b = Ok loss ->
    backward_step (String.eqb (args_model args) "PSPNet50") (opt_kind o)
      (opt_lr o) (opt_inner o) m crit b = (m1, inner1) ->
    batch_losses args crit rest m1
      {| opt_kind := opt_kind o; opt_lr := opt_lr o; opt_inner := inner1 |}
      ls m' o' ->
    batch_losses args crit (b :: rest) m o (loss :: ls) m' o'.

(** The arithmetic mean, in the words of the claim: the sum of the values
    divided by their number. *)
Definition arithmetic_mean (xs : list Q) : Q :=
  (fold_right Qplus 0 xs / inject_Z (Z.of_nat (length xs)))%Q.

(** ** Further observations of a trace *)

(** The epochs trained, in the order of training. *)
Fixpoint trains (t : list event) : list Z :=
  match t with
  | [] => []
  | EvTrain e :: t' => e :: trains t'
  | _ :: t' => trains t'
  end.

(** The validation loss and the mIOU a log line holds, when it holds them. *)
Definition line_val_loss (line : log_line) : option Q :=
  match line with
  | LogTrainVal _ _ _ vl _ _ _ _ _ _ => Some vl
  | LogTrain _ _ _ => None
  end.

Definition line_mIOU (line : log_line) : option Q :=
  match line with
  | LogTrainVal _ _ _ _ _ mi _ _ _ _ => Some mi
  | LogTrain _ _ _ => None
  end.

(** The events the epoch loop emits. *)
Definition loop_event (ev : event) : bool :=
  match ev with
  | EvTrain _ | EvPredictSliding _ _ | EvPredictWhole _ | EvLog _ _
  | EvLrStep _ | EvDrawLog _ | EvSave _ _ _ | EvMonitor _ _ _
  | EvPrintData _ => true
  | _ => false
  end.

(** A run has stopped early: some early-stop check has triggered. *)
Definition stopped_early (t : list event) : bool := existsb is_stop t.

(** A computation emits the event [ev] exactly when it returns. *)
Definition signals {A} (ev : event) (m : M A) : Prop :=
  forall w, In ev (trace_of (m w)) <-> exists a, result_of (m w) = Ok a.

(** The number of decays of the learning rate between two counts of the
    scheduler. *)
Definition decays (c c' : Z) : Z := c' / 20 - c / 20.

(** Whatever line a computation logs first satisfies [P]. *)
Definition first_log {A} (P : log_line -> Prop) (m : M A) : Prop :=
  forall w line, head (log_lines (trace_of (m w))) = Some line -> P line.

(** A written line can be read back: the resume block finds the train loss
    in field 2 and, in a validation line, the validation loss in field 3
    and the mIOU in field 5. *)
Definition readable (render : log_line -> string) (line : log_line) : Prop :=
  field (render line) 2 = Ok (line_lossTr line) /\
  (forall vl, line_val_loss line = Some vl -> field (render line) 3 = Ok vl) /\
  (forall mi, line_mIOU line = Some mi -> field (render line) 5 = Ok mi).

End Train.

(** ** Command-line defaults *)

(** Line 222: [--input_size] with [type=str] and [default=(256, 256)]. *)
Definition parsed_input_size (given : option string) : size_arg :=
  match given with
  | Some s => SizeStr s
  | None => SizeTuple 256 256
  end.

(** The namespace [parse_args] returns when no flag is given. *)
Definition default_args : Args :=
  {| args_model := "DualSeg_res50"; args_dataset := "paris";
     args_input_size := parsed_input_size None; args_num_workers := 4;
     args_train_type := "train"; args_max_epochs := 300;
     args_batch_size := 4; args_val_epochs := 10;
     args_random_mirror := true; args_random_scale := true;
     args_lr := (1 # 1000)%Q; args_optim := Adam; args_sliding := true;
     args_loss := "CrossEntropyLoss2d"; args_cuda := true; args_gpus := "0";
     args_resume := ""; args_savedir := "./checkpoint/";
     args_logFile := "log.txt"; args_classes := None; args_gpu_nums := None;
     args_save_seg_dir := None |}.

(** ** A patience counter for early stopping *)

(** Modelled from the spec: utils/earlyStopping.py is not among the sources.
    The spec describes the monitor as a patience counter compared against a
    tracked validation metric, with the two states monitoring and stopped.
    The first metric becomes the tracked one; a metric below the tracked one
    advances the counter, and the monitor stops once the counter reaches the
    patience; any other metric becomes the tracked one and resets the
    counter. *)
Record patience_counter : Type := {
  patience : Z;
  counter : Z;
  best_score : option Q;
  stopped : bool
}.

(** [EarlyStopping(patience=p)] *)
Definition patience_new (p : Z) : patience_counter :=
  {| patience := p; counter := 0; best_score := None; stopped := false |}.

(** [early_stopping.monitor(monitor=score)] *)
Definition patience_monitor (s : patience_counter) (score : Q)
  : patience_counter :=
  match best_score s with
  | None =>
      {| patience := patience s; counter := counter s;
         best_score := Some score; stopped := stopped s |}
  | Some best =>
      if negb (Qle_bool best score) then
        {| patience := patience s; counter := counter s + 1;
           best_score := Some best;
           stopped := stopped s || (patience s <=? counter s + 1) |}
      else
        {| patience := patience s; counter := 0; best_score := Some score;
           stopped := stopped s |}
  end.

(** ** A small framework to run the program on *)

(** The builtin [float] on the few literals the examples use. *)
Definition float_literal (s : string) : option Q :=
  if String.eqb s "1" then Some 1%Q
  else if String.eqb s "0.5" then Some (1 # 2)%Q
  else if String.eqb s "0.25" then Some (1 # 4)%Q
  else if String.eqb s "0.001" then Some (1 # 1000)%Q
  else None.

(** [model.cuda()] on a machine whose only GPU has id 0: with any other
    setting of [CUDA_VISIBLE_DEVICES] no GPU is visible and moving the
    parameters raises. *)
Definition toy_model_cuda (gpus : string) (m : Z) : result Z :=
  if String.eqb gpus "0" then Ok m
  else Err (RuntimeError "No CUDA GPUs are available").

Definition toy_model_cuda_usable (gpus : string) (m : Z)
    (H : String.eqb gpus "0" = true)
  : exists m', toy_model_cuda gpus m = Ok m' :=
  ex_intro _ m
    (eq_ind_r (x := true) (fun b : bool =>
                 (if b then Ok m
                  else Err (RuntimeError "No CUDA GPUs are available"))
                 = Ok m)
       eq_refl H).

(** A model is the number of optimiser steps it has received; a batch is
    the loss it yields; the validation metric sinks as training goes on
    (an overfitting model); one GPU with id 0 is installed; the criterion
    holds no tensor, so that its [cuda()] moves nothing and returns. *)
#[local] Instance toy : Framework := {|
  weights := Z;
  tensor := Z;
  batch := Q;
  opt_state := unit;
  criterion := unit;
  test_loader := unit;
  dataset_info := unit;
  class_dict := unit;
  stopper := patience_counter;
  build_model := fun _ _ => 0;
  init_weight := fun m => m;
  netParams := fun _ => 1;
  build_dataset_train := fun _ _ _ _ _ _ _ => (tt, [(1 # 2)%Q; (1 # 4)%Q]);
  build_dataset_test := fun _ _ _ => (tt, tt);
  build_loss := fun _ _ => tt;
  optimizer_init := fun _ _ => tt;
  forward := fun m _ => OTensor m;
  unbind := fun t => [t; t];
  loss_value := fun _ _ b => b;
  backward_step := fun _ _ _ _ m _ _ => (m + 1, tt);
  device_count := fun _ => 1;
  is_available := fun gpus => String.eqb gpus "0";
  model_cuda := toy_model_cuda;
  DataParallel := fun m => m;
  criterion_cuda := fun _ c => Ok c;
  model_cuda_usable := toy_model_cuda_usable;
  criterion_cuda_usable := fun _ c _ => ex_intro _ c eq_refl;
  predict_sliding := fun _ m _ _ _ =>
    {| v_loss := 1%Q; v_FWIoU := (1 # 2)%Q;
       v_mIOU := Qred (inject_Z (1000 - m) / 1000);
       v_per_class_iu := []; v_pa := (1 # 2)%Q; v_cpa := [];
       v_mpa := (1 # 2)%Q |};
  predict_whole := Ok (1%Q, (1 # 2)%Q, (1 # 2)%Q, []);
  EarlyStopping := patience_new;
  monitor := patience_monitor;
  early_stop := stopped;
  py_float := float_literal
|}.

(** A fresh disk: no checkpoint, no directory, no log. *)
Definition empty_world : @world toy :=
  {| files := ∅; dirs := ∅; logfile := [] |}.

(** ** Concrete inputs *)

(** The defaults of [parse_args] with the given dataset, GPU ids, epoch
    counts, input size and resume path. *)
Definition args_with (dataset gpus : string) (max_epochs val_epochs : Z)
    (sz : size_arg) (resume : string) : Args :=
  {| args_model := "DualSeg_res50"; args_dataset := dataset;
     args_input_size := sz; args_num_workers := 4;
     args_train_type := "train"; args_max_epochs := max_epochs;
     args_batch_size := 4; args_val_epochs := val_epochs;
     args_random_mirror := true; args_random_scale := true;
     args_lr := (1 # 1000)%Q; args_optim := Adam; args_sliding := true;
     args_loss := "CrossEntropyLoss2d"; args_cuda := true; args_gpus := gpus;
     args_resume := resume; args_savedir := "./checkpoint/";
     args_logFile := "log.txt"; args_classes := None; args_gpu_nums := None;
     args_save_seg_dir := None |}.

(** [--val_epochs 2 --input_size "(1024, 1024)"]: with the sinking metric of
    [toy] the monitor stops this run at epoch 51. *)
Definition overfit_args : Args :=
  args_with "paris" "0" 300 2 (parsed_input_size (Some "(1024, 1024)")) "".

(** [--max_epochs 3 --input_size "(1024, 1024)"] *)
Definition short_args : Args :=
  args_with "paris" "0" 3 10 (parsed_input_size (Some "(1024, 1024)")) "".

(** [--dataset voc] *)
Definition voc_args : Args :=
  args_with "voc" "0" 300 10 (parsed_input_size None) "".


(** [--resume missing.pth], and the same with [--val_epochs 0]. *)
Definition resume_args : Args :=
  args_with "paris" "0" 300 10 (parsed_input_size None) "missing.pth".
Definition resume_args0 : Args :=
  args_with "paris" "0" 300 0 (parsed_input_size None) "missing.pth".

(** A disk with the log of one earlier epoch and no checkpoint. *)
Definition old_log_world : @world toy :=
  {| files := ∅; dirs := ∅; logfile := ["1 0.001 0.5 0.25 0.5 0.5"] |}.

(** The arguments as the loop of [main] sees them, for the paris dataset
    on one GPU. *)
Definition loop_args_of (args : Args) : Args :=
  let a := set_gpu_nums 1 (set_dataset_attrs 3 (SizeTuple 512 512) args) in
  let a := set_savedir (run_dir a 1) a in
  set_save_seg_dir (os_path_join (args_savedir a) "predict_sliding") a.

Definition loop_args : Args := loop_args_of default_args.

Definition toy_loader : list Q := [(1 # 2)%Q; (1 # 4)%Q].

(** The state in which [main] enters the loop. *)
Definition state0 : @loop_state toy :=
  {| model := 0; optim := {| opt_kind := Adam; opt_lr := (1 # 1000)%Q;
                             opt_inner := tt |};
     lr_scheduler := 0; early_stopping := patience_new 50;
     lossTr_list := []; mIOU_val_list := []; lossVal_list := [];
     mIOU_val := 0%Q; metrics := None |}.

(** A state one bad epoch away from stopping. *)
Definition state_near_stop : @loop_state toy :=
  {| model := 100; optim := {| opt_kind := Adam; opt_lr := (1 # 1000)%Q;
                               opt_inner := tt |};
     lr_scheduler := 50;
     early_stopping := {| patience := 50; counter := 49;
                          best_score := Some 1%Q; stopped := false |};
     lossTr_list := []; mIOU_val_list := []; lossVal_list := [];
     mIOU_val := (9 # 10)%Q; metrics := None |}.

(** Epoch 10 of a default run, started in [state0] on a fresh disk. *)
Definition run10 := epoch_body loop_args toy_loader tt tt 10 state0 empty_world.
Definition trace10 : list (@event toy) := Eval vm_compute in trace_of run10.
Definition world10 : @world toy := Eval vm_compute in world_of run10.
Definition state10 : @loop_state toy :=
  Eval vm_compute in
    match result_of run10 with Ok (_, s) => s | Err _ => state0 end.

(** Epoch 13, where neither validation nor a save is due. *)
Definition run13 := epoch_body loop_args toy_loader tt tt 13 state0 empty_world.
Definition trace13 : list (@event toy) := Eval vm_compute in trace_of run13.
Definition state13 : @loop_state toy :=
  Eval vm_compute in
    match result_of run13 with Ok (_, s) => s | Err _ => state0 end.

(** Epoch 1 with [--val_epochs 0]: the epoch raises after training. *)
Definition run_zero :=
  epoch_body (loop_args_of resume_args0) toy_loader tt tt 1 state0
    empty_world.

(** Epoch 51 started in [state_near_stop]: the monitor stops. *)
Definition run51 :=
  epoch_body loop_args toy_loader tt tt 51 state_near_stop empty_world.
Definition trace51 : list (@event toy) := Eval vm_compute in trace_of run51.
Definition world51 : @world toy := Eval vm_compute in world_of run51.
Definition state51 : @loop_state toy :=
  Eval vm_compute in
    match result_of run51 with Ok (_, s) => s | Err _ => state0 end.

(** ** Further inputs *)

(** The defaults of [parse_args] with the given model and the given values
    of [--cuda] and [--sliding], for three epochs. *)
Definition args_variant (model : string) (cuda sliding : bool) : Args :=
  {| args_model := model; args_dataset := "paris";
     args_input_size := parsed_input_size None; args_num_workers := 4;
     args_train_type := "train"; args_max_epochs := 3;
     args_batch_size := 4; args_val_epochs := 10;
     args_random_mirror := true; args_random_scale := true;
     args_lr := (1 # 1000)%Q; args_optim := Adam; args_sliding := sliding;
     args_loss := "CrossEntropyLoss2d"; args_cuda := cuda; args_gpus := "0";
     args_resume := ""; args_savedir := "./checkpoint/";
     args_logFile := "log.txt"; args_classes := None; args_gpu_nums := None;
     args_save_seg_dir := None |}.


Definition whole_args : Args := args_variant "DualSeg_res50" true false.
Definition cpu_args : Args := args_variant "DualSeg_res50" false true.

(** A framework whose forward pass yields the pair of the batch and 1, whose
    loss is the output itself and whose validation metric does not move;
    neither model nor criterion holds a tensor, so that [cuda()] moves
    nothing and returns on every machine. *)
Definition steady : Framework := {|
  weights := Z;
  tensor := Q;
  batch := Q;
  opt_state := unit;
  criterion := unit;
  test_loader := unit;
  dataset_info := unit;
  class_dict := unit;
  stopper := patience_counter;
  build_model := fun _ _ => 0;
  init_weight := fun m => m;
  netParams := fun _ => 1;
  build_dataset_train := fun _ _ _ _ _ _ _ => (tt, [(1 # 2)%Q]);
  build_dataset_test := fun _ _ _ => (tt, tt);
  build_loss := fun _ _ => tt;
  optimizer_init := fun _ _ => tt;
  forward := fun _ b => OTuple [b; 1%Q];
  unbind := fun t => [t; t];
  loss_value := fun _ t _ => t;
  backward_step := fun _ _ _ _ m _ _ => (m + 1, tt);
  device_count := fun _ => 1;
  is_available := fun gpus => String.eqb gpus "0";
  model_cuda := fun _ m => Ok m;
  DataParallel := fun m => m;
  criterion_cuda := fun _ c => Ok c;
  model_cuda_usable := fun _ m _ => ex_intro _ m eq_refl;
  criterion_cuda_usable := fun _ c _ => ex_intro _ c eq_refl;
  predict_sliding := fun _ _ _ _ _ =>
    {| v_loss := 1%Q; v_FWIoU := (1 # 2)%Q; v_mIOU := (1 # 4)%Q;
       v_per_class_iu := []; v_pa := (1 # 2)%Q; v_cpa := [];
       v_mpa := (1 # 2)%Q |};
  predict_whole := Ok (1%Q, (1 # 2)%Q, (1 # 4)%Q, []);
  EarlyStopping := patience_new;
  monitor := patience_monitor;
  early_stop := stopped;
  py_float := float_literal
|}.

(** A recorder for the values of [steady]: the numbers are written as the
    literals [float_literal] reads. *)
Definition show_float (q : Q) : string :=
  if Qeq_bool q 1 then "1"
  else if Qeq_bool q (1 # 2) then "0.5"
  else if Qeq_bool q (1 # 4) then "0.25"
  else "0.001".

Definition show_line (line : log_line) : string :=
  match line with
  | LogTrainVal e lr tr vl fw mi _ _ _ _ =>
      (pretty e +:+ " " +:+ show_float lr +:+ " " +:+ show_float tr +:+ " "
       +:+ show_float vl +:+ " " +:+ show_float fw +:+ " " +:+ show_float mi)
  | LogTrain e lr tr =>
      (pretty e +:+ " " +:+ show_float lr +:+ " " +:+ show_float tr)
  end%string.

(** The three epochs of [--max_epochs 3] on a fresh disk. *)
Definition short_loop_args : Args := loop_args_of short_args.

#[warnings="-notation-for-abbreviation"]
Notation short_loop :=
  (epoch_loop short_loop_args toy_loader tt tt
     (range_len 1 (args_max_epochs short_loop_args + 1)) 1 state0 empty_world)
  (only parsing).

Definition short_state : @loop_state toy :=
  Eval vm_compute in
    match result_of short_loop with Ok s => s | Err _ => state0 end.

(** The first two of these epochs on [steady]. *)
Definition steady_state0 : @loop_state steady :=
  @Build_loop_state steady 0 (@Build_optimizer steady Adam (1 # 1000)%Q tt)
    0 (patience_new 50) [] [] [] 0%Q None.

Definition steady_world : @world steady :=
  {| files := ∅; dirs := ∅; logfile := [] |}.

#[warnings="-notation-for-abbreviation"]
Notation steady_loop :=
  (epoch_loop (FW := steady) short_loop_args [(1 # 2)%Q] tt tt 2 1
     steady_state0 steady_world)
  (only parsing).

Definition steady_state : @loop_state steady :=
  Eval vm_compute in
    match result_of steady_loop with Ok s => s | Err _ => steady_state0 end.

(** The first epoch with [--val_epochs 0], and with [--sliding] off. *)
#[warnings="-notation-for-abbreviation"]
Notation zero_loop :=
  (epoch_loop (loop_args_of resume_args0) toy_loader tt tt 1 1 state0
     empty_world)
  (only parsing).

#[warnings="-notation-for-abbreviation"]
Notation whole_loop :=
  (epoch_loop (loop_args_of whole_args) toy_loader tt tt 1 1 state0
     empty_world)
  (only parsing).

(** A disk with the checkpoint of epoch 2, and runs resumed from it with
    [--max_epochs 2] and with [--max_epochs 3]. *)
Definition old_checkpoint : @checkpoint toy :=
  {| ck_epoch := 2; ck_model := 4 |}.

Definition resumed_world : @world toy :=
  {| files := {[ "old.pth"%string := old_checkpoint ]}; dirs := ∅;
     logfile := [] |}.

Definition resume_done_args : Args :=
  args_with "paris" "0" 2 10 (parsed_input_size None) "old.pth".

Definition resume_on_args : Args :=
  args_with "paris" "0" 3 10 (parsed_input_size None) "old.pth".

#[warnings="-notation-for-abbreviation"]
Notation resumed_main :=
  (main (set_dataset_attrs 3 (SizeTuple 512 512) resume_on_args) 255
     resumed_world)
  (only parsing).

Definition resumed_first_line : log_line :=
  Eval vm_compute in
    match head (log_lines (trace_of resumed_main)) with
    | Some line => line
    | None => LogTrain 0 0 0
    end.

(** * Properties *)

Section Properties.
Context `{FW : Framework}.

(** ** Reasoning about computations *)

Lemma bind_ok {A B} (m : M A) (f : A -> M B) w t w' b :
  bind m f w = (t, w', Ok b) ->
  exists t1 w1 a t2,
    m w = (t1, w1, Ok a) /\ f a w1 = (t2, w', Ok b) /\ t = t1 ++ t2.
Proof.
  unfold bind. destruct (m w) as [[t1 w1] [a|e]]; [|discriminate].
  destruct (f a w1) as [[t2 w2] r] eqn:Hf. intros [= <- <- ->].
  exists t1, w1, a, t2. auto.
Qed.

Lemma bind_err {A B} (m : M A) (f : A -> M B) w t w' e :
  bind m f w = (t, w', Err e) ->
  m w = (t, w', Err e) \/
  exists t1 w1 a t2,
    m w = (t1, w1, Ok a) /\ f a w1 = (t2, w', Err e) /\ t = t1 ++ t2.
Proof.
  unfold bind. destruct (m w) as [[t1 w1] [a|e1]].
  - destruct (f a w1) as [[t2 w2] r] eqn:Hf. intros [= <- <- ->].
    right. exists t1, w1, a, t2. auto.
  - intros [= <- <- <-]. auto.
Qed.



(** ** The script *)

Lemma dataset_switch_none (ds : string) :
  ~ In ds supported_datasets -> dataset_switch ds = None.
Proof.
  intros Hn. unfold dataset_switch.
  repeat match goal with
         | |- context [String.eqb ?a ?b] =>
             destruct (String.eqb_spec a b) as [->|_];
             [exfalso; apply Hn; simpl; tauto|]
         end.
  reflexivity.
Qed.

Lemma dataset_switch_some (ds : string) :
  In ds supported_datasets -> exists c sz ig, dataset_switch ds = Some (c, sz, ig).
Proof.
  simpl. intros [<-|[<-|[<-|[<-|[<-|[]]]]]]; vm_compute; eauto.
Qed.

(** C4.  A dataset name outside the supported ones makes the script raise
    [NotImplementedError] at once: no event has happened (no model, dataset
    or optimiser was built) and the disk is untouched. *)
Theorem unsupported_dataset_raises (args : Args) (w : world) :
  ~ In (args_dataset args) supported_datasets ->
  script args w =
    ([], w,
     Err (NotImplementedError
            ("This repository now supports datasets "
             +:+ args_dataset args +:+ " is not included")%string)).
Proof.
  intros Hn. unfold script. rewrite (dataset_switch_none _ Hn). reflexivity.
Qed.
(** ** The conditions of the loop body *)

Lemma validation_due_spec args epoch due :
  validation_due args epoch = Ok due ->
  args_val_epochs args <> 0 /\
  (due = true <->
   epoch mod args_val_epochs args = 0 \/ epoch = 1
   \/ epoch = args_max_epochs args).
Proof.
  unfold validation_due, py_mod.
  destruct (Z.eqb_spec (args_val_epochs args) 0) as [|Hne]; [discriminate|].
  intros [= <-]. split; [assumption|].
  rewrite !orb_true_iff, !Z.eqb_eq. tauto.
Qed.


Lemma save_due_spec args epoch :
  save_due args epoch = true <->
  epoch > args_max_epochs args - 10 \/ epoch mod 10 = 0.
Proof.
  unfold save_due.
  destruct (Z.gtb_spec epoch (args_max_epochs args - 10));
    destruct (Z.eqb_spec (epoch mod 10) 0); split; intros; try lia;
    try discriminate; reflexivity.
Qed.

Lemma on_disk_write_file p ck w : on_disk p (write_file p ck w) = true.
Proof.
  unfold on_disk, write_file. simpl. rewrite lookup_insert_eq.
  rewrite bool_decide_eq_true_2; [reflexivity|eauto].
Qed.

(** ** The steps of the loop body *)

Lemma train_run args tl m crit o epoch w :
  train args tl m crit o epoch w =
    ([EvTrain epoch], w,
     match train_batches args crit tl m o [] with
     | Err e => Err e
     | Ok (ls, m', o') =>
         match py_div (py_sum ls) (Z.of_nat (length ls)) with
         | Err e => Err e
         | Ok avg => Ok (avg, opt_lr o, m', o')
         end
     end).
Proof.
  unfold train, bind, emit, lift, ret.
  destruct (train_batches args crit tl m o []) as [[[ls m'] o']|e]; simpl;
    [|reflexivity].
  destruct (py_div (py_sum ls) (Z.of_nat (length ls))); reflexivity.
Qed.

Lemma save_step_run args epoch ck w :
  save_step args epoch ck w =
    if save_due args epoch
    then ([EvSave epoch (model_file_name args epoch) ck],
          write_file (model_file_name args epoch) ck w, Ok tt)
    else ([], w, Ok tt).
Proof.
  unfold save_step, save_due, torch_save, ret.
  destruct (epoch >? args_max_epochs args - 10); [reflexivity|].
  destruct (epoch mod 10 =? 0); reflexivity.
Qed.


Lemma early_stopping_step_run args tel crit epoch ck s w :
  let es := monitor (early_stopping s) (mIOU_val s) in
  let name := model_file_name args epoch in
  let late := early_stop es && negb (on_disk name w) in
  let v := predict_sliding args (model s) tel (args_input_size args) crit in
  early_stopping_step args tel crit epoch ck s w =
    (EvMonitor epoch (mIOU_val s) (early_stop es)
     :: (if late
         then [EvSave epoch name ck;
               EvPredictSliding epoch (args_input_size args);
               EvPrintData "Epoch"]
         else []),
     (if late then write_file name ck w else w),
     Ok (if early_stop es then Break else Continue,
         {| model := model s; optim := optim s;
            lr_scheduler := lr_scheduler s; early_stopping := es;
            lossTr_list := lossTr_list s;
            mIOU_val_list := mIOU_val_list s;
            lossVal_list := lossVal_list s;
            mIOU_val := if late then v_mIOU v else mIOU_val s;
            metrics := if late then Some (v_pa v, v_cpa v, v_mpa v)
                       else metrics s |})).
Proof.
  simpl. unfold early_stopping_step, bind, emit, path_exists, torch_save, ret.
  destruct (early_stop (monitor (early_stopping s) (mIOU_val s))); simpl;
    [|reflexivity].
  destruct (on_disk (model_file_name args epoch) w); reflexivity.
Qed.

Lemma validation_step_ok args tel crit epoch lr lossTr s w tv w' s2 :
  validation_step args tel crit epoch lr lossTr s w = (tv, w', Ok s2) ->
  w' = w /\ model s2 = model s /\ optim s2 = optim s /\
  lr_scheduler s2 = lr_scheduler s /\ early_stopping s2 = early_stopping s /\
  lossTr_list s2 = lossTr_list s /\
  exists due, validation_due args epoch = Ok due /\
    if due then
      exists pev vl fw mi iu pa mpa cpa,
        tv = [pev; EvLog epoch
                     (LogTrainVal epoch lr lossTr vl fw mi iu pa mpa cpa)] /\
        step_of pev = Some KValidate /\ ev_epoch pev = Some epoch /\
        (forall sz, size_used pev = Some sz -> sz = args_input_size args) /\
        mIOU_val_list s2 = mIOU_val_list s ++ [mi] /\
        lossVal_list s2 = lossVal_list s ++ [vl] /\ mIOU_val s2 = mi /\
        (args_sliding args = true ->
         let v := predict_sliding args (model s) tel (args_input_size args)
                    crit in
         pev = EvPredictSliding epoch (args_input_size args) /\
         vl = v_loss v /\ fw = v_FWIoU v /\ mi = v_mIOU v /\
         iu = v_per_class_iu v /\ pa = v_pa v /\ mpa = v_mpa v /\
         cpa = v_cpa v)
    else
      tv = [EvLog epoch (LogTrain epoch lr lossTr)] /\ s2 = s.
Proof.
  unfold validation_step, bind, lift, emit, ret, local_var, raise.
  destruct (validation_due args epoch) as [[|]|e] eqn:Hdue; simpl;
    [| |discriminate].
  - destruct (args_sliding args) eqn:Hsl; simpl.
    + intros [= <- <- <-]. simpl. repeat split.
      exists true. split; [reflexivity|].
      do 8 eexists. repeat split; try reflexivity.
      intros sz [= <-]. reflexivity.
    + destruct predict_whole as [[[[vl fw] mi] iu]|e]; simpl; [|discriminate].
      destruct (metrics s) as [[[pa cpa] mpa]|]; simpl; [|discriminate].
      intros [= <- <- <-]. simpl. repeat split.
      exists true. split; [reflexivity|].
      exists (EvPredictWhole epoch). do 7 eexists.
      repeat split; try reflexivity; discriminate.
  - intros [= <- <- <-]. repeat split. exists false. auto.
Qed.

Lemma epoch_body_ok args tl tel crit epoch s w t w' fl s' :
  epoch_body args tl tel crit epoch s w = (t, w', Ok (fl, s')) ->
  exists ls lossTr o1 tv s2,
    train_batches args crit tl (model s) (optim s) [] = Ok (ls, model s', o1) /\
    py_div (py_sum ls) (Z.of_nat (length ls)) = Ok lossTr /\
    validation_step args tel crit epoch (opt_lr (optim s)) lossTr
      {| model := model s'; optim := o1; lr_scheduler := lr_scheduler s;
         early_stopping := early_stopping s;
         lossTr_list := lossTr_list s ++ [lossTr];
         mIOU_val_list := mIOU_val_list s; lossVal_list := lossVal_list s;
         mIOU_val := mIOU_val s; metrics := metrics s |} w
      = (tv, w, Ok s2) /\
    let name := model_file_name args epoch in
    let ck := {| ck_epoch := epoch; ck_model := model s' |} in
    let stop := early_stop (early_stopping s') in
    let late := late_save args epoch stop w in
    t = [EvTrain epoch] ++ tv ++ [EvLrStep epoch; EvDrawLog epoch]
        ++ (if save_due args epoch then [EvSave epoch name ck] else [])
        ++ [EvMonitor epoch (mIOU_val s2) stop]
        ++ (if late
            then [EvSave epoch name ck;
                  EvPredictSliding epoch (args_input_size args);
                  EvPrintData "Epoch"]
            else []) /\
    w' = (if save_due args epoch || late then write_file name ck w else w) /\
    fl = (if stop then Break else Continue) /\
    early_stopping s' = monitor (early_stopping s) (mIOU_val s2) /\
    lossTr_list s' = lossTr_list s ++ [lossTr] /\
    mIOU_val_list s' = mIOU_val_list s2 /\
    lossVal_list s' = lossVal_list s2.
Proof.
  unfold epoch_body. intros H.
  apply bind_ok in H as (t1 & w1 & [[[lossTr lr] m1] o1] & t2 & Htr & H & ->).
  rewrite train_run in Htr.
  destruct (train_batches args crit tl (model s) (optim s) [])
    as [[[ls m1'] o1']|] eqn:Hb; [|discriminate].
  destruct (py_div (py_sum ls) (Z.of_nat (length ls))) as [avg|] eqn:Hd;
    [|discriminate].
  injection Htr as <- <- <- <- <- <-.
  apply bind_ok in H as (tv & w2 & s2 & t3 & Hv & H & ->).
  pose proof (validation_step_ok _ _ _ _ _ _ _ _ _ _ _ Hv)
    as (-> & Hm & Ho & Hl & He & Hlt & _).
  simpl in Hm, Ho, Hl, He, Hlt.
  apply bind_ok in H as (t4 & w4 & [] & t5 & H4 & H & ->).
  injection H4 as <- <-.
  unfold StepLR_step in H.
  apply bind_ok in H as (t6 & w6 & [] & t7 & H6 & H & ->).
  injection H6 as <- <-.
  apply bind_ok in H as (t8 & w8 & [] & t9 & H8 & H & ->).
  rewrite save_step_run in H8. rewrite early_stopping_step_run in H.
  simpl in H, H8. unfold state_dict in *. rewrite Hm in *.
  exists ls, avg, o1', tv, s2.
  unfold late_save.
  destruct (save_due args epoch) eqn:Hsd; injection H8 as <- <-.
  - rewrite on_disk_write_file, andb_false_r in H. injection H as <- <- <- <-.
    simpl. rewrite andb_false_r, He, Hlt.
    repeat split; try reflexivity; try assumption.
  - rewrite He in H.
    destruct (early_stop (monitor (early_stopping s) (mIOU_val s2))) eqn:Hst;
      destruct (on_disk (model_file_name args epoch) w) eqn:Hod;
      injection H as <- <- <- <-; simpl; rewrite ?He, ?Hst, ?Hlt; simpl;
      repeat split; try reflexivity; try assumption.
Qed.

(** Opening a completed run of the loop body: the facts of [epoch_body_ok]
    and of [validation_step_ok], with the two cases of the validation. *)
Ltac open_body H :=
  let ls := fresh "ls" in let lossTr := fresh "lossTr" in
  let o1 := fresh "o1" in let tv := fresh "tv" in let s2 := fresh "s2" in
  let Hb := fresh "Hbatches" in let Hd := fresh "Hdiv" in
  let Hv := fresh "Hval" in let Ht := fresh "Htrace" in
  let Hw := fresh "Hworld" in let Hf := fresh "Hflow" in
  let He := fresh "Hstopper" in let Hl := fresh "HlossTr" in
  let Hm := fresh "HmIOU" in let Hlv := fresh "HlossVal" in
  let due := fresh "due" in let Hdue := fresh "Hdue" in
  let Hcase := fresh "Hcase" in
  apply epoch_body_ok in H
    as (ls & lossTr & o1 & tv & s2 & Hb & Hd & Hv & Ht & Hw & Hf & He & Hl
        & Hm & Hlv);
  apply validation_step_ok in Hv
    as (_ & _ & _ & _ & _ & _ & due & Hdue & Hcase);
  simpl in Hcase.

Lemma epoch_steps_body args tl tel crit epoch s w t w' fl s' :
     epoch_body args tl tel crit epoch s w = (t, w', Ok (fl, s')) ->
     exists due,
       validation_due args epoch = Ok due /\
       (fl = Break <-> early_stop (early_stopping s') = true) /\
       let late := late_save args epoch (early_stop (early_stopping s')) w in
       step_kinds t =
         [KTrain] ++ (if due then [KValidate] else []) ++ [KLog; KLrStep]
         ++ (if save_due args epoch then [KSave] else []) ++ [KMonitor]
         ++ (if late then [KSave; KValidate] else []) /\
       (late = false -> follows fixed_order (step_kinds t) = true).
Proof.
  intros H. open_body H. exists due. split; [assumption|]. split.
  { rewrite Hflow. destruct (early_stop (early_stopping s')); split;
      congruence. }
  simpl. subst t.
  destruct due.
  - destruct Hcase as (pev & vl & fw & mi & iu & pa & mpa & cpa & -> & Hk & _).
    simpl. rewrite Hk.
    destruct (save_due args epoch);
      destruct (late_save args epoch (early_stop (early_stopping s')) w);
      simpl; split; try reflexivity; discriminate.
  - destruct Hcase as [-> ->].
    destruct (save_due args epoch);
      destruct (late_save args epoch (early_stop (early_stopping s')) w);
      simpl; split; try reflexivity; discriminate.
Qed.


Lemma validation_step_err args tel crit epoch lr lossTr s w tv w' e :
  validation_step args tel crit epoch lr lossTr s w = (tv, w', Err e) ->
  w' = w /\ (tv = [] \/ tv = [EvPredictWhole epoch]).
Proof.
  unfold validation_step, bind, lift, emit, ret, local_var, raise.
  destruct (validation_due args epoch) as [[|]|e0]; simpl.
  - destruct (args_sliding args); simpl; [discriminate|].
    destruct predict_whole as [[[[vl fw] mi] iu]|e1]; simpl.
    + destruct (metrics s) as [[[pa cpa] mpa]|]; simpl; [discriminate|].
      intros [= <- <- <-]. auto.
    + intros [= <- <- <-]. auto.
  - discriminate.
  - intros [= <- <- <-]. auto.
Qed.

Lemma epoch_body_err args tl tel crit epoch s w t w' e :
  epoch_body args tl tel crit epoch s w = (t, w', Err e) ->
  w' = w /\ (t = [EvTrain epoch] \/ t = [EvTrain epoch; EvPredictWhole epoch]).
Proof.
  unfold epoch_body. intros H.
  apply bind_err in H as [H|(t1 & w1 & [[[lossTr lr] m1] o1] & t2 & Htr & H & ->)].
  { rewrite train_run in H. injection H as <- <- _. auto. }
  rewrite train_run in Htr. injection Htr as <- <- _.
  apply bind_err in H as [H|(tv & w2 & s2 & t3 & Hv & H & ->)].
  { apply validation_step_err in H as [-> [->| ->]]; auto. }
  exfalso.
  apply bind_err in H as [H|(t4 & w4 & [] & t5 & H4 & H & ->)]; [discriminate|].
  unfold StepLR_step in H.
  apply bind_err in H as [H|(t6 & w6 & [] & t7 & H6 & H & ->)]; [discriminate|].
  apply bind_err in H as [H|(t8 & w8 & [] & t9 & H8 & H & ->)].
  { rewrite save_step_run in H. destruct (save_due args epoch); discriminate. }
  rewrite early_stopping_step_run in H. discriminate.
Qed.

Lemma quiet_after_stop_app t r :
  forallb (fun ev => negb (is_stop ev)) t = true ->
  quiet_after_stop (t ++ r) = quiet_after_stop r.
Proof.
  induction t as [|ev t IH]; simpl; [reflexivity|].
  intros H. apply andb_true_iff in H as [Hev Ht].
  destruct ev; try (apply IH; assumption).
  destruct stop; [discriminate|]. apply IH; assumption.
Qed.

Lemma quiet_after_stop_split t :
  quiet_after_stop t = true ->
  forall l1 e m l2, t = l1 ++ EvMonitor e m true :: l2 ->
  forallb (stays_in e) l2 = true.
Proof.
  induction t as [|ev t IH]; intros Hq l1 e m l2 Heq.
  { destruct l1; discriminate. }
  destruct l1 as [|x l1]; simpl in Heq; injection Heq as -> ->.
  { exact Hq. }
  assert (Hrest : is_stop x = false -> forallb (stays_in e) l2 = true).
  { intros Hx. apply (IH) with (l1 := l1) (m := m); [|reflexivity].
    destruct x; try exact Hq. destruct stop; [discriminate|exact Hq]. }
  destruct (is_stop x) eqn:Hx; [|auto].
  destruct x; try discriminate. destruct stop; [|discriminate].
  simpl in Hq. rewrite forallb_app in Hq. apply andb_true_iff in Hq as [_ Hq].
  simpl in Hq. apply andb_true_iff in Hq as [He Hq].
  unfold stays_in in He. simpl in He. apply Z.eqb_eq in He. subst. exact Hq.
Qed.


Lemma epoch_body_quiet args tl tel crit epoch s w t w' r :
  epoch_body args tl tel crit epoch s w = (t, w', r) ->
  quiet_after_stop t = true /\
  match r with
  | Ok (Break, _) => True
  | _ => forallb (fun ev => negb (is_stop ev)) t = true
  end.
Proof.
  intros H. destruct r as [[fl s']|e].
  - open_body H. subst t.
    remember (late_save args epoch (early_stop (early_stopping s')) w) as late.
    remember (early_stop (early_stopping s')) as stop.
    assert (Htv : forallb (fun ev => negb (is_stop ev)) tv = true).
    { destruct due.
      - destruct Hcase as (pev & vl & fw & mi & iu & pa & mpa & cpa & -> & Hk & _).
        destruct pev; try discriminate; reflexivity.
      - destruct Hcase as [-> ->]. reflexivity. }
    simpl. rewrite quiet_after_stop_app by assumption.
    rewrite forallb_app, Htv. subst fl.
    destruct (save_due args epoch), stop, late; simpl;
      unfold stays_in; simpl; rewrite ?Z.eqb_refl; auto.
  - apply epoch_body_err in H as [_ [->| ->]]; simpl; auto.
Qed.

Lemma epoch_loop_quiet args tl tel crit n :
  forall epoch s w t w' r,
  epoch_loop args tl tel crit n epoch s w = (t, w', r) ->
  quiet_after_stop t = true.
Proof.
  induction n as [|n IH]; intros epoch s w t w' r H; simpl in H.
  { injection H as <- _ _. reflexivity. }
  unfold bind in H.
  destruct (epoch_body args tl tel crit epoch s w) as [[tb wb] rb] eqn:Hb.
  apply epoch_body_quiet in Hb as [Hq Hfree].
  destruct rb as [[[|] s1]|e].
  - destruct (epoch_loop args tl tel crit n (epoch + 1) s1 wb)
      as [[t2 w2] r2] eqn:Hl.
    injection H as <- _ _. rewrite quiet_after_stop_app by assumption.
    eapply IH; eassumption.
  - injection H as <- _ _. rewrite app_nil_r. assumption.
  - injection H as <- _ _. assumption.
Qed.

(** C3, amended.  Every completed epoch appends exactly one line to the log;
    the line holds the epoch number, the learning rate and the train loss of
    the epoch; it holds the validation values (val loss, FWIoU, mIOU,
    per-class IoU) exactly when validation was due in that epoch, and is a
    train-only line otherwise. *)
Theorem log_line_per_epoch args tl tel crit epoch s w t w' fl s' :
  epoch_body args tl tel crit epoch s w = (t, w', Ok (fl, s')) ->
  exists line,
    log_lines t = [line] /\
    line_epoch line = epoch /\
    line_lr line = opt_lr (optim s) /\
    lossTr_list s' = lossTr_list s ++ [line_lossTr line] /\
    (has_validation_fields line = true <->
     validation_due args epoch = Ok true) /\
    (has_validation_fields line = false ->
     line = LogTrain epoch (opt_lr (optim s)) (line_lossTr line) /\
     validation_due args epoch = Ok false).
Proof.
  intros H. open_body H. subst t.
  assert (Hlate : forall b : bool,
            log_lines (if b then [EvSave epoch (model_file_name args epoch)
                                    {| ck_epoch := epoch; ck_model := model s' |};
                                  EvPredictSliding epoch (args_input_size args);
                                  EvPrintData "Epoch"] else []) = []).
  { intros []; reflexivity. }
  destruct due.
  - destruct Hcase as (pev & vl & fw & mi & iu & pa & mpa & cpa & -> & Hk & _).
    exists (LogTrainVal epoch (opt_lr (optim s)) lossTr vl fw mi iu pa mpa cpa).
    split; [|simpl; repeat split; intros; try assumption; discriminate].
    destruct pev; try discriminate; simpl;
      destruct (save_due args epoch); simpl; rewrite Hlate; reflexivity.
  - destruct Hcase as [-> ->].
    exists (LogTrain epoch (opt_lr (optim s)) lossTr).
    split; [|simpl; repeat split; intros; try assumption; try discriminate;
             congruence].
    simpl. destruct (save_due args epoch); simpl; rewrite Hlate; reflexivity.
Qed.

(** C7, amended.  In a completed epoch, the validation before the early-stop
    check runs, and val loss and mIOU are recorded (in the lists and in the
    log line), exactly when the epoch is a multiple of [val_epochs], or is
    epoch 1, or is [max_epochs]; in any other epoch only the train line is
    recorded.  The one further validation is the one that follows an
    early-stop check that had to save; its values are not recorded. *)
Theorem validation_schedule args tl tel crit epoch s w t w' fl s' :
  epoch_body args tl tel crit epoch s w = (t, w', Ok (fl, s')) ->
  args_val_epochs args <> 0 /\
  ((epoch mod args_val_epochs args = 0 \/ epoch = 1
    \/ epoch = args_max_epochs args) ->
   exists pev vl fw mi iu pa mpa cpa,
     List.filter is_validation (before_monitor t) = [pev] /\
     log_lines t =
       [LogTrainVal epoch (opt_lr (optim s)) (List.last (lossTr_list s') 0%Q)
          vl fw mi iu pa mpa cpa] /\
     lossVal_list s' = lossVal_list s ++ [vl] /\
     mIOU_val_list s' = mIOU_val_list s ++ [mi]) /\
  (~ (epoch mod args_val_epochs args = 0 \/ epoch = 1
      \/ epoch = args_max_epochs args) ->
   List.filter is_validation (before_monitor t) = [] /\
   log_lines t =
     [LogTrain epoch (opt_lr (optim s)) (List.last (lossTr_list s') 0%Q)] /\
   lossVal_list s' = lossVal_list s /\
   mIOU_val_list s' = mIOU_val_list s) /\
  List.filter is_validation (after_monitor t) =
    (if late_save args epoch (early_stop (early_stopping s')) w
     then [EvPredictSliding epoch (args_input_size args)] else []).
Proof.
  intros H. open_body H. subst t.
  apply validation_due_spec in Hdue as [Hne Hdue]. split; [assumption|].
  rewrite HlossTr, last_last, HmIOU, HlossVal.
  remember (late_save args epoch (early_stop (early_stopping s')) w) as late.
  destruct due.
  - destruct Hcase as (pev & vl & fw & mi & iu & pa & mpa & cpa & -> & Hk
                       & _ & _ & Hml & Hvl & _).
    assert (Hp : is_validation pev = true /\ is_monitor pev = false
                 /\ log_lines [pev] = []).
    { destruct pev; try discriminate; auto. }
    destruct Hp as (Hp1 & Hp2 & Hp3).
    split; [intros _|split; [intros Hn; exfalso; apply Hn, Hdue; reflexivity|]].
    + exists pev, vl, fw, mi, iu, pa, mpa, cpa.
      repeat split; try assumption.
      * simpl. rewrite Hp2. simpl. rewrite Hp1.
        destruct (save_due args epoch); reflexivity.
      * simpl. destruct pev; try discriminate; simpl;
          destruct (save_due args epoch), late; reflexivity.
    + simpl. rewrite Hp2. simpl.
      destruct (save_due args epoch), late; reflexivity.
  - destruct Hcase as [-> ->].
    split; [intros Hd; apply Hdue in Hd; discriminate|split; [intros _|]].
    + repeat split; simpl; destruct (save_due args epoch), late; reflexivity.
    + simpl. destruct (save_due args epoch), late; reflexivity.
Qed.

Lemma before_monitor_app pre r :
  forallb (fun ev => negb (is_monitor ev)) pre = true ->
  before_monitor (pre ++ r) = pre ++ before_monitor r.
Proof.
  induction pre as [|ev pre IH]; simpl; [reflexivity|].
  intros H. apply andb_true_iff in H as [Hev Hpre].
  destruct (is_monitor ev); [discriminate|]. rewrite IH; auto.
Qed.

Lemma after_monitor_app pre r :
  forallb (fun ev => negb (is_monitor ev)) pre = true ->
  after_monitor (pre ++ r) = after_monitor r.
Proof.
  induction pre as [|ev pre IH]; simpl; [reflexivity|].
  intros H. apply andb_true_iff in H as [Hev Hpre].
  destruct (is_monitor ev); [discriminate|]. auto.
Qed.

Lemma saves_app t r : saves (t ++ r) = saves t ++ saves r.
Proof.
  induction t as [|ev t IH]; simpl; [reflexivity|].
  destruct ev; simpl; rewrite ?IH; reflexivity.
Qed.

(** C10.  In a completed epoch the regular save writes the file of the epoch
    exactly when the epoch is beyond [max_epochs - 10] or a multiple of 10;
    when the monitor stops at an epoch whose file the regular save did not
    write and that is not on disk, the checkpoint is saved after the check
    and the loop is left; no other save happens after the check. *)
Theorem checkpoint_schedule args tl tel crit epoch s w t w' fl s' :
  epoch_body args tl tel crit epoch s w = (t, w', Ok (fl, s')) ->
  let name := model_file_name args epoch in
  let ck := {| ck_epoch := epoch; ck_model := model s' |} in
  ((epoch > args_max_epochs args - 10 \/ epoch mod 10 = 0) ->
   saves (before_monitor t) = [(name, ck)] /\ files w' !! name = Some ck) /\
  (~ (epoch > args_max_epochs args - 10 \/ epoch mod 10 = 0) ->
   saves (before_monitor t) = []) /\
  (early_stop (early_stopping s') = true ->
   fl = Break /\
   (saves (before_monitor t) = [] -> on_disk name w = false ->
    saves (after_monitor t) = [(name, ck)] /\ files w' !! name = Some ck)) /\
  (saves (after_monitor t) <> [] ->
   early_stop (early_stopping s') = true /\ saves (before_monitor t) = []
   /\ on_disk name w = false).
Proof.
  intros H. open_body H. subst t w' fl. simpl.
  pose proof (save_due_spec args epoch) as Hsd. unfold late_save.
  assert (Htv : exists pre, tv = pre /\ forallb (fun ev => negb (is_monitor ev)) pre = true
                  /\ saves pre = []).
  { destruct due.
    - destruct Hcase as (pev & vl & fw & mi & iu & pa & mpa & cpa & -> & Hk & _).
      destruct pev; try discriminate; eexists; split; try reflexivity; auto.
    - destruct Hcase as [-> ->]. eexists; split; try reflexivity; auto. }
  destruct Htv as (pre & -> & Hpre & Hsaves). clear Hcase.
  rewrite (before_monitor_app _ _ Hpre), (after_monitor_app _ _ Hpre),
    !saves_app, Hsaves.
  destruct (save_due args epoch) eqn:Hsave; simpl;
    destruct (early_stop (early_stopping s')) eqn:Hstop; simpl;
    destruct (on_disk (model_file_name args epoch) w) eqn:Hdisk; simpl;
    unfold write_file; simpl; rewrite ?lookup_insert_eq;
    repeat split; intros; try reflexivity; try congruence;
    try (exfalso; intuition congruence).
Qed.

(** ** Events of a whole run *)

Lemma emits_ret {A} P (a : A) : emits P (ret a).
Proof. intros w. constructor. Qed.

Lemma emits_raise {A} P e : emits P (@raise _ A e).
Proof. intros w. constructor. Qed.

Lemma emits_lift {A} P (r : result A) : emits P (lift r).
Proof. intros w. constructor. Qed.

Lemma emits_emit P ev : P ev -> emits P (emit ev).
Proof. intros H w. repeat constructor. exact H. Qed.

Lemma emits_bind {A B} P (m : M A) (f : A -> M B) :
  emits P m -> (forall a, emits P (f a)) -> emits P (bind m f).
Proof.
  intros Hm Hf w. unfold bind. specialize (Hm w).
  destruct (m w) as [[t1 w1] [a|e]]; simpl in *; [|assumption].
  specialize (Hf a w1). destruct (f a w1) as [[t2 w2] r]. simpl in *.
  apply Forall_app. auto.
Qed.

Lemma emits_bind_ok {A B} P (m : M A) (f : A -> M B) :
  emits P m ->
  (forall a, (exists w t w', m w = (t, w', Ok a)) -> emits P (f a)) ->
  emits P (bind m f).
Proof.
  intros Hm Hf w. unfold bind. specialize (Hm w).
  destruct (m w) as [[t1 w1] [a|e]] eqn:Hmw; simpl in *; [|assumption].
  assert (Hfa : emits P (f a)) by (apply Hf; eauto).
  specialize (Hfa w1). destruct (f a w1) as [[t2 w2] r]. simpl in *.
  apply Forall_app. auto.
Qed.

Lemma emits_attr {A} P name (o : option A) : emits P (attr name o).
Proof. destruct o; [apply emits_ret|apply emits_raise]. Qed.

Lemma emits_ensure_dir P d : P (EvMakedirs d) -> emits P (ensure_dir d).
Proof.
  intros H w. unfold ensure_dir, bind, path_exists, ret.
  destruct (on_disk d w); simpl; repeat constructor. exact H.
Qed.

Lemma epoch_body_sizes args tl tel crit epoch s :
  emits (size_ok (args_input_size args))
    (epoch_body args tl tel crit epoch s).
Proof.
  intros w.
  destruct (epoch_body args tl tel crit epoch s w) as [[t w'] [[fl s']|e]] eqn:H;
    simpl.
  - open_body H. subst t.
    assert (Htv : Forall (size_ok (args_input_size args)) tv).
    { destruct due.
      - destruct Hcase as (pev & vl & fw & mi & iu & pa & mpa & cpa & -> & _
                           & _ & Hsz & _).
        repeat constructor; [exact Hsz|discriminate].
      - destruct Hcase as [-> ->]. repeat constructor. discriminate. }
    repeat (apply Forall_app; split); try assumption.
    + repeat constructor; discriminate.
    + repeat constructor; discriminate.
    + destruct (save_due args epoch); repeat constructor; discriminate.
    + repeat constructor; discriminate.
    + destruct (late_save _ _ _ _); repeat constructor; try discriminate.
      intros sz [= <-]. reflexivity.
  - apply epoch_body_err in H as [_ [->| ->]]; repeat constructor; discriminate.
Qed.

Lemma epoch_loop_sizes args tl tel crit n :
  forall epoch s,
  emits (size_ok (args_input_size args))
    (epoch_loop args tl tel crit n epoch s).
Proof.
  induction n as [|n IH]; intros epoch s; simpl.
  - apply emits_ret.
  - apply emits_bind; [apply epoch_body_sizes|].
    intros [[|] s']; [apply IH|apply emits_ret].
Qed.

Lemma resume_block_sizes sz args m :
  emits (size_ok sz) (resume_block args m).
Proof.
  unfold resume_block.
  destruct (negb (args_resume args =? "")%string).
  - apply emits_bind.
    { intros w. repeat constructor. discriminate. }
    intros lines. apply emits_bind; [apply emits_lift|]. intros h.
    apply emits_bind; [intros w; constructor|]. intros [|].
    + apply emits_bind.
      { intros w. unfold torch_load. destruct (files w !! args_resume args);
          constructor. }
      intros ck. apply emits_bind; [apply emits_emit; discriminate|].
      intros _. apply emits_ret.
    + apply emits_bind; [apply emits_emit; discriminate|].
      intros _. apply emits_ret.
  - apply emits_bind; [apply emits_emit; discriminate|].
    intros _. apply emits_ret.
Qed.

Lemma cuda_setup_sizes sz args m c :
  emits (size_ok sz) (cuda_setup args m c).
Proof.
  unfold cuda_setup. destruct (args_cuda args); [|apply emits_ret].
  apply emits_bind; [apply emits_emit; discriminate|]. intros _.
  apply emits_bind; [apply emits_lift|]. intros c'.
  apply emits_bind.
  { destruct (device_count (args_gpus args) >? 1);
      (apply emits_bind; [apply emits_emit; discriminate|]);
      intros _; (apply emits_bind; [apply emits_lift|]);
      intros m'; apply emits_ret. }
  intros [a m']. destruct (negb (is_available (args_gpus a)));
    [apply emits_raise|apply emits_ret].
Qed.

(** What [cuda_setup] hands back when it returns: the arguments are as they
    were but for [gpu_nums]. *)
Lemma cuda_setup_ok args m c w t w' args' m' c' :
  cuda_setup args m c w = (t, w', Ok (args', m', c')) ->
  w' = w /\ (args' = args \/ exists n, args' = set_gpu_nums n args).
Proof.
  unfold cuda_setup, bind, emit, lift, ret, raise.
  destruct (args_cuda args); simpl; [|intros [= _ <- <- _ _]; auto].
  destruct (criterion_cuda (args_gpus args) c) as [c1|e]; simpl;
    [|discriminate].
  destruct (device_count (args_gpus args) >? 1); simpl;
    match goal with
    | |- context [model_cuda ?g ?x] =>
        destruct (model_cuda g x) as [m1|e]; simpl; [|discriminate]
    end;
    destruct (is_available (args_gpus args)); simpl; try discriminate;
    intros [= _ <- <- _ _]; eauto.
Qed.

Lemma cuda_setup_input_size args m c w t w' args' m' c' :
  cuda_setup args m c w = (t, w', Ok (args', m', c')) ->
  args_input_size args' = args_input_size args.
Proof.
  intros H. apply cuda_setup_ok in H as [_ [->|[n ->]]]; reflexivity.
Qed.

Lemma main_sizes args ig :
  emits (size_ok (args_input_size args)) (main args ig).
Proof.
  unfold main.
  apply emits_bind; [apply emits_emit; discriminate|]. intros _.
  apply emits_bind; [apply emits_emit; discriminate|]. intros _.
  apply emits_bind; [apply emits_attr|]. intros classes.
  apply emits_bind; [apply emits_emit; discriminate|]. intros _.
  destruct (build_dataset_train _ _ _ _ _ _ _) as [datas tl].
  apply emits_bind; [apply emits_emit; intros sz [= <-]; reflexivity|].
  intros _. destruct (build_dataset_test _ _ _) as [tel cd].
  do 6 (apply emits_bind; [apply emits_emit; discriminate|]; intros _).
  apply emits_bind; [apply emits_emit; discriminate|]. intros _.
  apply emits_bind_ok; [apply cuda_setup_sizes|].
  intros [[args' m'] c'] (w0 & t0 & w0' & Hcuda).
  apply cuda_setup_input_size in Hcuda.
  apply emits_bind; [apply emits_attr|]. intros gpu_nums.
  apply emits_bind; [apply emits_ensure_dir; discriminate|]. intros _.
  apply emits_bind; [apply emits_ensure_dir; discriminate|]. intros _.
  apply emits_bind; [apply emits_emit; discriminate|]. intros _.
  apply emits_bind; [apply resume_block_sizes|].
  intros [[start m0] [[l1 l2] l3]].
  apply emits_bind; [apply emits_emit; discriminate|]. intros _.
  apply emits_bind.
  { rewrite <- Hcuda.
    apply (epoch_loop_sizes
             (set_save_seg_dir _ (set_savedir _ args'))). }
  intros _.
  apply emits_bind; [apply emits_emit; discriminate|]. intros _.
  apply emits_emit; discriminate.
Qed.

(** C8, amended.  Every input size a run works with (building the training
    set, sliding prediction) is the size the dataset switch assigns to the
    dataset name, whatever [--input_size] was. *)
Theorem input_size_fixed_by_dataset args w ev sz :
  In ev (trace_of (script args w)) ->
  size_used ev = Some sz ->
  exists classes ignore_label,
    dataset_switch (args_dataset args) = Some (classes, sz, ignore_label).
Proof.
  unfold script.
  destruct (dataset_switch (args_dataset args)) as [[[c sz0] ig]|];
    [|intros []].
  intros Hin Hsz. exists c, ig.
  assert (Hem : emits (size_ok sz0)
                  (bind (main (set_dataset_attrs c sz0 args) ig)
                     (fun _ => emit (EvPrintData "training time")))).
  { apply emits_bind; [apply (main_sizes (set_dataset_attrs c sz0 args))|].
    intros _. apply emits_emit. discriminate. }
  specialize (Hem w). rewrite List.Forall_forall in Hem.
  rewrite (Hem ev Hin sz Hsz). reflexivity.
Qed.


(** ** [train] *)

Lemma train_batches_ok args crit tl :
  forall m o acc ls m' o',
  train_batches args crit tl m o acc = Ok (ls, m', o') ->
  exists ls', ls = acc ++ ls' /\ batch_losses args crit tl m o ls' m' o'
              /\ length ls' = length tl.
Proof.
  induction tl as [|b rest IH]; intros m o acc ls m' o' H; simpl in H.
  - injection H as <- <- <-. exists []. rewrite app_nil_r.
    repeat split. constructor.
  - destruct (batch_loss args m crit b) as [loss|] eqn:Hl; [|discriminate].
    destruct (backward_step _ _ _ _ m crit b) as [m1 inner1] eqn:Hs.
    apply IH in H as (ls' & -> & Hrest & Hlen).
    exists (loss :: ls'). rewrite <- app_assoc. repeat split.
    + econstructor; eassumption.
    + simpl. rewrite Hlen. reflexivity.
Qed.

Lemma batch_loss_err args m crit b e :
  batch_loss args m crit b = Err e -> e = ValueError \/ e = IndexError.
Proof.
  unfold batch_loss. intros H.
  repeat case_match; simplify_eq; auto.
Qed.

Lemma train_batches_err args crit tl :
  forall m o acc e,
  train_batches args crit tl m o acc = Err e ->
  e = ValueError \/ e = IndexError.
Proof.
  induction tl as [|b rest IH]; intros m o acc e H; simpl in H;
    [discriminate|].
  destruct (batch_loss args m crit b) as [loss|e'] eqn:Hl.
  - destruct (backward_step _ _ _ _ m crit b) as [m1 inner1].
    eapply IH; eassumption.
  - injection H as <-. eapply batch_loss_err; eassumption.
Qed.

Lemma train_batches_total args crit tl :
  (forall m b, exists loss, batch_loss args m crit b = Ok loss) ->
  forall m o acc, exists ls m' o',
    train_batches args crit tl m o acc = Ok (ls, m', o').
Proof.
  intros Hfit. induction tl as [|b rest IH]; intros m o acc; simpl.
  - eauto.
  - destruct (Hfit m b) as [loss ->].
    destruct (backward_step _ _ _ _ m crit b) as [m1 inner1]. apply IH.
Qed.

Lemma py_sum_fold_right xs a :
  (fold_left Qplus xs a == a + fold_right Qplus 0 xs)%Q.
Proof.
  revert a. induction xs as [|x xs IH]; intros a; simpl.
  - ring.
  - rewrite IH. ring.
Qed.

(** C9.  On an empty loader [train] reaches the division by zero.  On a
    non-empty loader the division is safe: [train] returns the arithmetic
    mean of the per-batch losses (one loss per batch), unless computing the
    loss of a batch raised, and that exception is not a division by zero;
    when every batch yields a loss, [train] does return. *)
Theorem train_average_loss args tl m crit o epoch w :
  (tl = [] ->
   train args tl m crit o epoch w =
     ([EvTrain epoch], w, Err ZeroDivisionError)) /\
  (tl <> [] ->
   (exists ls m' o' avg,
      batch_losses args crit tl m o ls m' o' /\ length ls = length tl /\
      train args tl m crit o epoch w =
        ([EvTrain epoch], w, Ok (avg, opt_lr o, m', o')) /\
      (avg == arithmetic_mean ls)%Q) \/
   (exists e,
      (e = ValueError \/ e = IndexError) /\
      train_batches args crit tl m o [] = Err e /\
      train args tl m crit o epoch w = ([EvTrain epoch], w, Err e))) /\
  ((forall m b, exists loss, batch_loss args m crit b = Ok loss) ->
   tl <> [] ->
   exists avg m' o',
     train args tl m crit o epoch w =
       ([EvTrain epoch], w, Ok (avg, opt_lr o, m', o'))).
Proof.
  rewrite train_run. split; [|split].
  - intros ->. reflexivity.
  - intros Hne.
    destruct (train_batches args crit tl m o []) as [[[ls m'] o']|e] eqn:Hb.
    + left. apply train_batches_ok in Hb as (ls' & -> & Hls & Hlen).
      simpl. unfold py_div.
      destruct (Z.eqb_spec (Z.of_nat (length ls')) 0) as [Hz|Hnz].
      { destruct tl; [congruence|]. simpl in Hlen. lia. }
      exists ls', m', o'. eexists. repeat split; try assumption.
      unfold arithmetic_mean, py_sum. rewrite py_sum_fold_right.
      rewrite Qplus_0_l. reflexivity.
    + right. exists e. split; [|split; reflexivity].
      eapply train_batches_err; eassumption.
  - intros Hfit Hne.
    destruct (train_batches_total args crit tl Hfit m o [])
      as (ls & m' & o' & Hb).
    rewrite Hb. apply train_batches_ok in Hb as (ls' & -> & _ & Hlen).
    simpl. unfold py_div.
    destruct (Z.eqb_spec (Z.of_nat (length ls')) 0) as [Hz|Hnz].
    { destruct tl; [congruence|]. simpl in Hlen. lia. }
    eauto.
Qed.

(** ** Resuming *)

Lemma append_empty (a b : string) : (a +:+ b)%string = ""%string -> b = ""%string.
Proof. destruct a; simpl; [auto|discriminate]. Qed.

Lemma model_file_name_nonempty args epoch :
  String.eqb (model_file_name args epoch) "" = false.
Proof.
  apply String.eqb_neq. unfold model_file_name. intros H.
  apply append_empty in H. discriminate.
Qed.

Lemma resume_block_run args m w :
  String.eqb (args_resume args) "" = false ->
  resume_block args m w =
    match replay_log (args_val_epochs args) 0 (logfile w) ([], [], []) with
    | Err e => ([EvOpenLog true], w, Err e)
    | Ok h =>
        match files w !! args_resume args with
        | Some ck =>
            ([EvOpenLog true;
              EvPrint ("loaded checkpoint '" +:+ args_resume args
                       +:+ "' (epoch " +:+ pretty (ck_epoch ck) +:+ ")")%string],
             w, Ok (ck_epoch ck + 1, ck_model ck, h))
        | None =>
            ([EvOpenLog true;
              EvPrint ("no checkpoint found at '" +:+ args_resume args
                       +:+ "'")%string],
             w, Ok (1, m, h))
        end
    end.
Proof.
  intros Hres. unfold resume_block. rewrite Hres. simpl.
  unfold bind, resume_logfile, lift, isfile, torch_load, emit, ret. simpl.
  destruct (replay_log _ _ _ _) as [h|e]; [|reflexivity]. simpl.
  destruct (files w !! args_resume args) as [ck|] eqn:Hf.
  - rewrite bool_decide_eq_true_2 by eauto. simpl. rewrite Hf. reflexivity.
  - rewrite bool_decide_eq_false_2 by (intros [? ?]; discriminate).
    reflexivity.
Qed.

(** C5, amended.  With a resume path given and no file at that path: when
    the old log is read back without error, the resume block prints that no
    checkpoint was found and returns start epoch 1 and the model unchanged,
    raising nothing; when reading back the log raises, that exception leaves
    the block before the file is looked for. *)
Theorem missing_checkpoint_from_scratch args m w :
  args_resume args <> ""%string ->
  files w !! args_resume args = None ->
  match replay_log (args_val_epochs args) 0 (logfile w) ([], [], []) with
  | Ok h =>
      resume_block args m w =
        ([EvOpenLog true;
          EvPrint ("no checkpoint found at '" +:+ args_resume args
                   +:+ "'")%string],
         w, Ok (1, m, h))
  | Err e => resume_block args m w = ([EvOpenLog true], w, Err e)
  end.
Proof.
  intros Hres Hfile. apply String.eqb_neq in Hres.
  rewrite (resume_block_run _ _ _ Hres), Hfile.
  destruct (replay_log _ _ _ _); reflexivity.
Qed.

Lemma length_append (a b : string) :
  String.length (a +:+ b) = (String.length a + String.length b)%nat.
Proof. induction a as [|x a IH]; simpl; [reflexivity|]. rewrite IH. reflexivity. Qed.

Lemma append_inv_tail (a b c : string) :
  (a +:+ c)%string = (b +:+ c)%string -> a = b.
Proof.
  revert b. induction a as [|x a IH]; intros [|y b] H; simpl in H.
  - reflexivity.
  - apply (f_equal String.length) in H.
    rewrite !length_append in H. simpl in H. rewrite ?length_append in H. lia.
  - apply (f_equal String.length) in H.
    rewrite !length_append in H. simpl in H. rewrite ?length_append in H. lia.
  - injection H as -> H. f_equal. apply IH. exact H.
Qed.

Lemma model_file_name_inj args e e' :
  model_file_name args e = model_file_name args e' -> e = e'.
Proof.
  unfold model_file_name. intros H.
  apply String.app_inj in H. apply String.app_inj in H.
  apply append_inv_tail in H. apply pretty_Z_inj in H. exact H.
Qed.

Lemma epoch_body_files args tl tel crit epoch s w t w' r :
  epoch_body args tl tel crit epoch s w = (t, w', r) ->
  forall p, p <> model_file_name args epoch ->
  files w' !! p = files w !! p.
Proof.
  intros H p Hp. destruct r as [[fl s']|e].
  - open_body H. subst w'.
    destruct (save_due args epoch || late_save _ _ _ _); [|reflexivity].
    unfold write_file. simpl. apply lookup_insert_ne. congruence.
  - apply epoch_body_err in H as [-> _]. reflexivity.
Qed.

Lemma epoch_loop_files args tl tel crit n :
  forall epoch s w t w' r,
  epoch_loop args tl tel crit n epoch s w = (t, w', r) ->
  forall e, e < epoch ->
  files w' !! model_file_name args e = files w !! model_file_name args e.
Proof.
  induction n as [|n IH]; intros epoch s w t w' r H e He; simpl in H.
  { injection H as _ <- _. reflexivity. }
  unfold bind in H.
  destruct (epoch_body args tl tel crit epoch s w) as [[tb wb] rb] eqn:Hb.
  assert (Hkeep : files wb !! model_file_name args e
                  = files w !! model_file_name args e).
  { eapply epoch_body_files; [eassumption|].
    intros Heq. apply model_file_name_inj in Heq. lia. }
  destruct rb as [[[|] s1]|x].
  - destruct (epoch_loop args tl tel crit n (epoch + 1) s1 wb)
      as [[t2 w2] r2] eqn:Hl.
    injection H as _ <- _. rewrite <- Hkeep.
    eapply IH; [eassumption|lia].
  - injection H as _ <- _. exact Hkeep.
  - injection H as _ <- _. exact Hkeep.
Qed.

Lemma epoch_body_saves args tl tel crit epoch s w t w' r p ck :
  epoch_body args tl tel crit epoch s w = (t, w', r) ->
  In (p, ck) (saves t) ->
  exists fl s' ls o1,
    r = Ok (fl, s') /\
    train_batches args crit tl (model s) (optim s) [] = Ok (ls, model s', o1) /\
    p = model_file_name args epoch /\
    ck = {| ck_epoch := epoch; ck_model := model s' |} /\
    files w' !! p = Some ck.
Proof.
  intros H Hin. destruct r as [[fl s']|e].
  2:{ apply epoch_body_err in H as [_ [->| ->]]; destruct Hin. }
  exists fl, s'. open_body H. exists ls, o1.
  split; [reflexivity|]. split; [assumption|].
  assert (Hs : saves tv = []).
  { destruct due.
    - destruct Hcase as (pev & vl & fw & mi & iu & pa & mpa & cpa & -> & Hk & _).
      destruct pev; try discriminate; reflexivity.
    - destruct Hcase as [-> ->]. reflexivity. }
  subst t. simpl in Hin. rewrite !saves_app, Hs in Hin. simpl in Hin.
  rewrite saves_app in Hin. simpl in Hin.
  assert (Hp : (p, ck) = (model_file_name args epoch,
                          {| ck_epoch := epoch; ck_model := model s' |}) /\
               files w' !! model_file_name args epoch =
                 Some {| ck_epoch := epoch; ck_model := model s' |}).
  { subst w'.
    destruct (save_due args epoch);
      destruct (late_save args epoch (early_stop (early_stopping s')) w);
      simpl in *; unfold write_file; simpl; rewrite ?lookup_insert_eq;
      intuition congruence. }
  destruct Hp as [[= -> ->] Hfile]. auto.
Qed.

Lemma epoch_loop_saves args tl tel crit n :
  forall epoch s w t w' r p ck,
  epoch_loop args tl tel crit n epoch s w = (t, w', r) ->
  In (p, ck) (saves t) ->
  epoch <= ck_epoch ck /\ p = model_file_name args (ck_epoch ck) /\
  files w' !! p = Some ck.
Proof.
  induction n as [|n IH]; intros epoch s w t w' r p ck H Hin; simpl in H.
  { injection H as <- _ _. destruct Hin. }
  unfold bind in H.
  destruct (epoch_body args tl tel crit epoch s w) as [[tb wb] rb] eqn:Hb.
  assert (Hhere : In (p, ck) (saves tb) ->
            ck_epoch ck = epoch /\ p = model_file_name args epoch
            /\ files wb !! p = Some ck).
  { intros Hi. destruct (epoch_body_saves _ _ _ _ _ _ _ _ _ _ _ _ Hb Hi)
      as (fl & s' & ls & o1 & _ & _ & -> & -> & Hf). auto. }
  destruct rb as [[[|] s1]|x].
  - destruct (epoch_loop args tl tel crit n (epoch + 1) s1 wb)
      as [[t2 w2] r2] eqn:Hl.
    injection H as <- <- _. rewrite saves_app in Hin.
    apply in_app_or in Hin as [Hi|Hi].
    + destruct (Hhere Hi) as (He & -> & Hf). rewrite He.
      split; [lia|]. split; [reflexivity|].
      rewrite (epoch_loop_files _ _ _ _ _ _ _ _ _ _ _ Hl epoch) by lia.
      exact Hf.
    + destruct (IH _ _ _ _ _ _ _ _ Hl Hi) as (He & Hp & Hf).
      split; [lia|auto].
  - injection H as <- <- _. rewrite app_nil_r in Hin.
    destruct (Hhere Hin) as (He & -> & Hf). rewrite He.
    split; [lia|auto].
  - injection H as <- <- _.
    destruct (Hhere Hin) as (He & -> & Hf). rewrite He.
    split; [lia|auto].
Qed.

(** C1.  Whenever an epoch writes a checkpoint, the epoch completes, the file
    written is the model file of that epoch, and what is stored there is
    exactly the epoch number and the weights the training of this epoch has
    produced.  When the loop has ended, every checkpoint it has written is
    still in its file, and resuming from that file (the old log being read
    back without error) loads the saved weights and starts at the saved
    epoch plus one. *)
Theorem checkpoint_roundtrip args tl tel crit :
  (forall epoch s w t w' r p ck,
     epoch_body args tl tel crit epoch s w = (t, w', r) ->
     In (p, ck) (saves t) ->
     exists fl s' ls o1,
       r = Ok (fl, s') /\
       train_batches args crit tl (model s) (optim s) []
         = Ok (ls, model s', o1) /\
       p = model_file_name args epoch /\
       ck = {| ck_epoch := epoch; ck_model := model s' |} /\
       files w' !! p = Some ck) /\
  (forall n epoch s w t w' r p ck,
     epoch_loop args tl tel crit n epoch s w = (t, w', r) ->
     In (p, ck) (saves t) ->
     p = model_file_name args (ck_epoch ck) /\
     files w' !! p = Some ck /\
     forall args2 m2 w2 h,
       args_resume args2 = p ->
       files w2 !! p = files w' !! p ->
       replay_log (args_val_epochs args2) 0 (logfile w2) ([], [], []) = Ok h ->
       resume_block args2 m2 w2 =
         ([EvOpenLog true;
           EvPrint ("loaded checkpoint '" +:+ p +:+ "' (epoch "
                    +:+ pretty (ck_epoch ck) +:+ ")")%string],
          w2, Ok (ck_epoch ck + 1, ck_model ck, h))).
Proof.
  split.
  - intros. eapply epoch_body_saves; eassumption.
  - intros n epoch s w t w' r p ck H Hin.
    destruct (epoch_loop_saves _ _ _ _ _ _ _ _ _ _ _ _ _ H Hin)
      as (_ & Hp & Hf).
    split; [exact Hp|]. split; [exact Hf|].
    intros args2 m2 w2 h Hres Hf2 Hlog.
    rewrite resume_block_run
      by (rewrite Hres, Hp; apply model_file_name_nonempty).
    rewrite Hlog, Hres, Hf2, Hf. reflexivity.
Qed.

(** ** The order of the steps *)

(** C2, amended.  In every completed epoch the steps are: train, validation
    when due, log record, learning-rate step, regular save when due,
    early-stop check, in this order; when the check triggers and the file of
    the epoch is not there, a checkpoint save and a validation follow the
    check, otherwise the steps follow the fixed order.  The steps of an
    epoch that raises follow the fixed order as far as they go.  Once a
    check has triggered, every later event of the loop belongs to the same
    epoch: no later epoch executes a step. *)
Theorem epoch_steps_in_order args tl tel crit :
  (forall epoch s w t w' fl s',
     epoch_body args tl tel crit epoch s w = (t, w', Ok (fl, s')) ->
     exists due,
       validation_due args epoch = Ok due /\
       (fl = Break <-> early_stop (early_stopping s') = true) /\
       let late := late_save args epoch (early_stop (early_stopping s')) w in
       step_kinds t =
         [KTrain] ++ (if due then [KValidate] else []) ++ [KLog; KLrStep]
         ++ (if save_due args epoch then [KSave] else []) ++ [KMonitor]
         ++ (if late then [KSave; KValidate] else []) /\
       (late = false -> follows fixed_order (step_kinds t) = true)) /\
  (forall epoch s w t w' e,
     epoch_body args tl tel crit epoch s w = (t, w', Err e) ->
     follows fixed_order (step_kinds t) = true) /\
  (forall n epoch s w t w' r,
     epoch_loop args tl tel crit n epoch s w = (t, w', r) ->
     forall l1 e m l2,
       t = l1 ++ EvMonitor e m true :: l2 ->
       forall ev e', In ev l2 -> ev_epoch ev = Some e' -> e' = e).
Proof.
  split; [|split].
  - intros. eapply epoch_steps_body; eassumption.
  - intros epoch s w t w' e H.
    apply epoch_body_err in H as [_ [->| ->]]; reflexivity.
  - intros n epoch s w t w' r H l1 e m l2 Heq ev e' Hin Hev.
    apply epoch_loop_quiet in H.
    pose proof (quiet_after_stop_split _ H _ _ _ _ Heq) as Hq.
    rewrite forallb_forall in Hq. specialize (Hq ev Hin).
    unfold stays_in in Hq. rewrite Hev in Hq. apply Z.eqb_eq in Hq. exact Hq.
Qed.

(** ** Reading back the old log *)

Lemma replay_log_shape ve lines :
  forall i a b c a' b' c',
  replay_log ve i lines (a, b, c) = Ok (a', b', c') ->
  exists tr lv mi,
    a' = a ++ tr /\ b' = b ++ lv /\ c' = c ++ mi /\
    Forall2 (fun line q => field line 2 = Ok q) lines tr /\
    length lv = length mi /\ (length lv <= length lines)%nat /\
    (lines <> [] -> ve <> 0) /\
    (i = 0 -> lines <> [] -> (1 <= length lv)%nat).
Proof.
  induction lines as [|line rest IH]; intros i a b c a' b' c' H; simpl in H.
  - injection H as <- <- <-. exists [], [], []. rewrite !app_nil_r.
    repeat split; auto; try constructor; congruence.
  - destruct (field line 2) as [tr0|] eqn:Hf; [|discriminate].
    unfold py_mod in H.
    destruct (Z.eqb_spec ve 0) as [|Hve]; [discriminate|].
    destruct ((((i + 1) mod ve =? 0) || (i =? 0))) eqn:Hsel.
    + destruct (field line 3) as [lv0|]; [|discriminate].
      destruct (field line 5) as [mi0|]; [|discriminate].
      apply IH in H as (tr & lv & mi & -> & -> & -> & HF & Hl & Hle & _ & _).
      exists (tr0 :: tr), (lv0 :: lv), (mi0 :: mi).
      rewrite <- !app_assoc. simpl.
      repeat split; auto; try lia; try (constructor; assumption).
    + apply IH in H as (tr & lv & mi & -> & -> & -> & HF & Hl & Hle & _ & _).
      exists (tr0 :: tr), lv, mi. rewrite <- !app_assoc. simpl.
      repeat split; auto; try lia; try (constructor; assumption).
Qed.

(** X1.  When the old log is read back without error, [lossTr_list] holds
    the third field of every line, in order; the lists of validation loss
    and mIOU are equally long and no longer than the log; a log that is not
    empty has been read with [val_epochs] different from 0, and its first
    line has been read as a validation line. *)
Theorem replay_log_lengths ve lines tr lv mi :
  replay_log ve 0 lines ([], [], []) = Ok (tr, lv, mi) ->
  Forall2 (fun line q => field line 2 = Ok q) lines tr /\
  length tr = length lines /\
  length lv = length mi /\ (length lv <= length lines)%nat /\
  (lines <> [] -> ve <> 0 /\ (1 <= length lv)%nat).
Proof.
  intros H.
  apply replay_log_shape in H
    as (tr' & lv' & mi' & -> & -> & -> & HF & Hl & Hle & Hve & Hone).
  simpl. repeat split; auto.
  symmetry. eapply Forall2_length. eassumption.
Qed.

(** ** The loss of a batch *)


(** ** The loop as a whole *)

Lemma log_lines_app t r : log_lines (t ++ r) = log_lines t ++ log_lines r.
Proof.
  induction t as [|ev t IH]; simpl; [reflexivity|].
  destruct ev; simpl; rewrite ?IH; reflexivity.
Qed.

Lemma trains_app t r : trains (t ++ r) = trains t ++ trains r.
Proof.
  induction t as [|ev t IH]; simpl; [reflexivity|].
  destruct ev; simpl; rewrite ?IH; reflexivity.
Qed.

Lemma stopped_early_free t :
  forallb (fun ev => negb (is_stop ev)) t = true -> stopped_early t = false.
Proof.
  unfold stopped_early. induction t as [|ev t IH]; simpl; [reflexivity|].
  intros H. apply andb_true_iff in H as [Hev Ht].
  rewrite IH by assumption. destruct (is_stop ev); [discriminate|reflexivity].
Qed.

(** What a completed run of the loop body leaves in trace and state. *)
Lemma epoch_body_summary args tl tel crit epoch s w t w' fl s' :
  epoch_body args tl tel crit epoch s w = (t, w', Ok (fl, s')) ->
  trains t = [epoch] /\
  map line_epoch (log_lines t) = [epoch] /\
  lossTr_list s' = lossTr_list s ++ map line_lossTr (log_lines t) /\
  lossVal_list s' = lossVal_list s ++ omap line_val_loss (log_lines t) /\
  mIOU_val_list s' = mIOU_val_list s ++ omap line_mIOU (log_lines t).
Proof.
  intros H. open_body H. subst t.
  rewrite HlossTr, HlossVal, HmIOU.
  assert (Hlate : forall b : bool,
            (if b then [EvSave epoch (model_file_name args epoch)
                          {| ck_epoch := epoch; ck_model := model s' |};
                        EvPredictSliding epoch (args_input_size args);
                        EvPrintData "Epoch"] else [])
            = (if b then [EvSave epoch (model_file_name args epoch)
                            {| ck_epoch := epoch; ck_model := model s' |};
                          EvPredictSliding epoch (args_input_size args);
                          EvPrintData "Epoch"] else []) /\
            trains (if b then [EvSave epoch (model_file_name args epoch)
                          {| ck_epoch := epoch; ck_model := model s' |};
                        EvPredictSliding epoch (args_input_size args);
                        EvPrintData "Epoch"] else []) = [] /\
            log_lines (if b then [EvSave epoch (model_file_name args epoch)
                          {| ck_epoch := epoch; ck_model := model s' |};
                        EvPredictSliding epoch (args_input_size args);
                        EvPrintData "Epoch"] else []) = []).
  { intros []; auto. }
  rewrite !trains_app, !log_lines_app. simpl.
  destruct (Hlate (late_save args epoch (early_stop (early_stopping s')) w))
    as (_ & -> & ->).
  assert (Hsave : forall b : bool,
            trains (if b then [EvSave epoch (model_file_name args epoch)
                                 {| ck_epoch := epoch; ck_model := model s' |}]
                    else []) = [] /\
            log_lines (if b then [EvSave epoch (model_file_name args epoch)
                                    {| ck_epoch := epoch; ck_model := model s' |}]
                       else []) = []).
  { intros []; auto. }
  destruct (Hsave (save_due args epoch)) as [-> ->]. simpl.
  rewrite !app_nil_r.
  destruct due.
  - destruct Hcase as (pev & vl & fw & mi & iu & pa & mpa & cpa & -> & Hk
                       & _ & _ & -> & -> & _).
    destruct pev; try discriminate; simpl; auto.
  - destruct Hcase as [-> ->]. simpl. rewrite !app_nil_r. auto.
Qed.

Lemma epoch_body_trains args tl tel crit epoch s w t w' r :
  epoch_body args tl tel crit epoch s w = (t, w', r) -> trains t = [epoch].
Proof.
  intros H. destruct r as [[fl s']|e].
  - apply epoch_body_summary in H. tauto.
  - apply epoch_body_err in H as [_ [->| ->]]; reflexivity.
Qed.

Lemma epoch_loop_trains args tl tel crit n :
  forall epoch s w t w' r,
  epoch_loop args tl tel crit n epoch s w = (t, w', r) ->
  exists k : nat,
    (k <= n)%nat /\ trains t = seqZ epoch (Z.of_nat k) /\
    (forall s', r = Ok s' -> stopped_early t = false -> k = n) /\
    (forall x, r = Err x -> (1 <= k)%nat).
Proof.
  induction n as [|n IH]; intros epoch s w t w' r H; simpl in H.
  { injection H as <- _ <-. exists 0%nat. repeat split; auto; discriminate. }
  unfold bind in H.
  destruct (epoch_body args tl tel crit epoch s w) as [[tb wb] rb] eqn:Hb.
  pose proof (epoch_body_trains _ _ _ _ _ _ _ _ _ _ Hb) as Htb.
  pose proof (epoch_body_quiet _ _ _ _ _ _ _ _ _ _ Hb) as [_ Hfree].
  assert (Hone : seqZ epoch (Z.of_nat 1) = [epoch]) by reflexivity.
  destruct rb as [[[|] s1]|x].
  - destruct (epoch_loop args tl tel crit n (epoch + 1) s1 wb)
      as [[t2 w2] r2] eqn:Hl.
    injection H as <- _ <-.
    destruct (IH _ _ _ _ _ _ Hl) as (k & Hk & Ht2 & Hok & Herr).
    exists (S k). rewrite trains_app, Htb, Ht2.
    split; [lia|]. split.
    { rewrite (seqZ_cons epoch (Z.of_nat (S k))) by lia.
      simpl. do 2 f_equal; lia. }
    split.
    + intros s' -> Hstop. f_equal. apply (Hok s' eq_refl).
      unfold stopped_early in *. rewrite existsb_app in Hstop.
      apply orb_false_iff in Hstop. tauto.
    + intros; lia.
  - injection H as <- _ <-. exists 1%nat. rewrite app_nil_r.
    split; [lia|]. split; [rewrite Htb; reflexivity|]. split.
    + intros s' _ Hstop. exfalso. apply epoch_body_ok in Hb
        as (ls & lossTr & o1 & tv & s2 & _ & _ & _ & Ht & _ & Hf & _).
      simpl in Ht.
      destruct (early_stop (early_stopping s1)) eqn:Hes; [|discriminate].
      assert (Hin : In (EvMonitor epoch (mIOU_val s2) true) tb).
      { rewrite Ht. right. apply in_or_app. right. do 2 right.
        apply in_or_app. right. left. reflexivity. }
      assert (Hs : stopped_early tb = true).
      { apply existsb_exists. eexists. split; [exact Hin|reflexivity]. }
      congruence.
    + discriminate.
  - injection H as <- _ <-. exists 1%nat.
    split; [lia|]. split; [rewrite Htb; reflexivity|].
    split; [discriminate|]. intros; lia.
Qed.

(** X3.  The loop trains consecutive epochs, starting with the start epoch
    and never going beyond [max_epochs]; it trains all of them when it
    returns without an early stop, and at least one when it raises; a start
    epoch beyond [max_epochs] runs nothing at all. *)
Theorem trained_epochs_consecutive args tl tel crit epoch s w t w' r :
  epoch_loop args tl tel crit (range_len epoch (args_max_epochs args + 1))
    epoch s w = (t, w', r) ->
  (exists k,
     0 <= k <= Z.max 0 (args_max_epochs args + 1 - epoch) /\
     trains t = seqZ epoch k /\
     (forall s', r = Ok s' -> stopped_early t = false ->
                 k = Z.max 0 (args_max_epochs args + 1 - epoch)) /\
     (forall x, r = Err x -> 1 <= k)) /\
  (forall e, In e (trains t) -> epoch <= e <= args_max_epochs args) /\
  (args_max_epochs args < epoch -> t = [] /\ w' = w /\ r = Ok s).
Proof.
  intros H. pose proof H as H0.
  apply epoch_loop_trains in H as (k & Hk & Ht & Hok & Herr).
  unfold range_len in *.
  assert (Hex : 0 <= Z.of_nat k <= Z.max 0 (args_max_epochs args + 1 - epoch))
    by lia.
  split; [|split].
  - exists (Z.of_nat k). split; [exact Hex|]. split; [exact Ht|]. split.
    + intros s' Hr Hs. rewrite (Hok s' Hr Hs). lia.
    + intros x Hx. specialize (Herr x Hx). lia.
  - intros e He. rewrite Ht in He. apply list_elem_of_In in He.
    apply elem_of_seqZ in He. lia.
  - intros Hlt.
    replace (Z.to_nat (args_max_epochs args + 1 - epoch)) with 0%nat in H0
      by lia.
    simpl in H0. injection H0 as <- <- <-. auto.
Qed.

Lemma epoch_loop_summary args tl tel crit n :
  forall epoch s w t w' s',
  epoch_loop args tl tel crit n epoch s w = (t, w', Ok s') ->
  map line_epoch (log_lines t) = trains t /\
  lossTr_list s' = lossTr_list s ++ map line_lossTr (log_lines t) /\
  lossVal_list s' = lossVal_list s ++ omap line_val_loss (log_lines t) /\
  mIOU_val_list s' = mIOU_val_list s ++ omap line_mIOU (log_lines t).
Proof.
  induction n as [|n IH]; intros epoch s w t w' s' H; simpl in H.
  { injection H as <- _ <-. simpl. rewrite !app_nil_r. auto. }
  unfold bind in H.
  destruct (epoch_body args tl tel crit epoch s w) as [[tb wb] rb] eqn:Hb.
  destruct rb as [[fl s1]|x]; [|discriminate].
  apply epoch_body_summary in Hb as (Htr & Hep & H1 & H2 & H3).
  destruct fl.
  - destruct (epoch_loop args tl tel crit n (epoch + 1) s1 wb)
      as [[t2 w2] r2] eqn:Hl.
    injection H as <- _ ->.
    apply IH in Hl as (Hep2 & H1' & H2' & H3').
    rewrite log_lines_app, trains_app, !map_app, !omap_app.
    rewrite H1', H2', H3', H1, H2, H3, Hep, Hep2, Htr, <- !app_assoc. auto.
  - injection H as <- _ <-. rewrite app_nil_r. rewrite Hep, Htr. auto.
Qed.

(** X4.  When the loop returns, the log has one line per trained epoch, in
    the order of the epochs, and the three history lists have grown by what
    the log lines hold: [lossTr_list] by the train loss of every line,
    [lossVal_list] and [mIOU_val_list] by the validation loss and the mIOU
    of the validation lines; the two validation lists stay equally long. *)
Theorem history_mirrors_log args tl tel crit n epoch s w t w' s' :
  epoch_loop args tl tel crit n epoch s w = (t, w', Ok s') ->
  map line_epoch (log_lines t) = trains t /\
  lossTr_list s' = lossTr_list s ++ map line_lossTr (log_lines t) /\
  lossVal_list s' = lossVal_list s ++ omap line_val_loss (log_lines t) /\
  mIOU_val_list s' = mIOU_val_list s ++ omap line_mIOU (log_lines t) /\
  (length (lossVal_list s) = length (mIOU_val_list s) ->
   length (lossVal_list s') = length (mIOU_val_list s')).
Proof.
  intros H. apply epoch_loop_summary in H as (H0 & H1 & H2 & H3).
  repeat split; auto.
  intros Hlen. rewrite H2, H3, !length_app, Hlen. f_equal.
  clear. induction (log_lines t) as [|line l IH]; simpl; [reflexivity|].
  destruct line; simpl; [f_equal|]; exact IH.
Qed.

(** ** More on the loop body *)

Lemma validation_due_zero args epoch :
  args_val_epochs args = 0 ->
  validation_due args epoch = Err ZeroDivisionError.
Proof. intros H. unfold validation_due, py_mod. rewrite H. reflexivity. Qed.

Lemma validation_due_first args :
  validation_due args 1 = Ok true \/
  validation_due args 1 = Err ZeroDivisionError.
Proof.
  unfold validation_due, py_mod.
  destruct (args_val_epochs args =? 0); [auto|].
  left. rewrite orb_true_r. reflexivity.
Qed.

(** The bound variables [pa], [cpa], [mpa] after the validation step. *)
Lemma validation_step_metrics args tel crit epoch lr lossTr s w tv w' s2 :
  validation_step args tel crit epoch lr lossTr s w = (tv, w', Ok s2) ->
  (validation_due args epoch = Ok false /\ metrics s2 = metrics s) \/
  (validation_due args epoch = Ok true /\ args_sliding args = true) \/
  (validation_due args epoch = Ok true /\ args_sliding args = false /\
   metrics s2 = metrics s /\ metrics s <> None).
Proof.
  unfold validation_step, bind, lift, emit, ret, local_var, raise.
  destruct (validation_due args epoch) as [[|]|e] eqn:Hdue; simpl;
    [| |discriminate].
  - destruct (args_sliding args) eqn:Hsl; simpl; [auto|].
    destruct predict_whole as [[[[vl fw] mi] iu]|e]; simpl; [|discriminate].
    destruct (metrics s) as [[[pa cpa] mpa]|] eqn:Hm; simpl; [|discriminate].
    intros [= <- <- <-]. simpl. right. right. repeat split.
    discriminate.
  - intros [= <- <- <-]. auto.
Qed.

(** Why the validation step raises. *)
Lemma validation_step_cause args tel crit epoch lr lossTr s w tv w' x :
  validation_step args tel crit epoch lr lossTr s w = (tv, w', Err x) ->
  validation_due args epoch = Err x \/
  (validation_due args epoch = Ok true /\ args_sliding args = false /\
   (predict_whole = Err x \/
    (x = UnboundLocalError "pa" /\ metrics s = None))).
Proof.
  unfold validation_step, bind, lift, emit, ret, local_var, raise.
  destruct (validation_due args epoch) as [[|]|e0]; simpl.
  - destruct (args_sliding args); simpl; [discriminate|].
    destruct predict_whole as [[[[vl fw] mi] iu]|e1]; simpl.
    + destruct (metrics s) as [[[pa cpa] mpa]|]; simpl; [discriminate|].
      intros [= _ _ <-]. right. auto.
    + intros [= _ _ <-]. right. auto.
  - discriminate.
  - intros [= _ _ <-]. auto.
Qed.

(** The state a completed run of the loop body leaves: scheduler,
    optimiser and bound variables. *)
Lemma epoch_body_state args tl tel crit epoch s w t w' fl s' :
  epoch_body args tl tel crit epoch s w = (t, w', Ok (fl, s')) ->
  exists ls lossTr o1 tv s2,
    train_batches args crit tl (model s) (optim s) [] = Ok (ls, model s', o1) /\
    validation_step args tel crit epoch (opt_lr (optim s)) lossTr
      {| model := model s'; optim := o1; lr_scheduler := lr_scheduler s;
         early_stopping := early_stopping s;
         lossTr_list := lossTr_list s ++ [lossTr];
         mIOU_val_list := mIOU_val_list s; lossVal_list := lossVal_list s;
         mIOU_val := mIOU_val s; metrics := metrics s |} w
      = (tv, w, Ok s2) /\
    lr_scheduler s' = lr_scheduler s + 1 /\
    optim s' = snd (StepLR_step (lr_scheduler s) o1) /\
    (fl = Continue -> metrics s' = metrics s2 /\ mIOU_val s' = mIOU_val s2).
Proof.
  unfold epoch_body. intros H.
  apply bind_ok in H as (t1 & w1 & [[[lossTr lr] m1] o1] & t2 & Htr & H & ->).
  rewrite train_run in Htr.
  destruct (train_batches args crit tl (model s) (optim s) [])
    as [[[ls m1'] o1']|] eqn:Hb; [|discriminate].
  destruct (py_div (py_sum ls) (Z.of_nat (length ls))) as [avg|] eqn:Hd;
    [|discriminate].
  injection Htr as <- <- <- <- <- <-.
  apply bind_ok in H as (tv & w2 & s2 & t3 & Hv & H & ->).
  pose proof (validation_step_ok _ _ _ _ _ _ _ _ _ _ _ Hv)
    as (-> & Hm & Ho & Hl & He & Hlt & _).
  simpl in Hm, Ho, Hl, He, Hlt.
  apply bind_ok in H as (t4 & w4 & [] & t5 & H4 & H & ->).
  injection H4 as <- <-.
  unfold StepLR_step in H.
  apply bind_ok in H as (t6 & w6 & [] & t7 & H6 & H & ->).
  injection H6 as <- <-.
  apply bind_ok in H as (t8 & w8 & [] & t9 & H8 & H & ->).
  rewrite early_stopping_step_run in H. simpl in H.
  injection H as _ _ Hfl <-. simpl. rewrite Hm, Ho, Hl in *.
  exists ls, avg, o1', tv, s2. unfold StepLR_step. simpl.
  assert (Hc : fl = Continue ->
               early_stop (monitor (early_stopping s2) (mIOU_val s2)) = false).
  { intros ->.
    destruct (early_stop (monitor (early_stopping s2) (mIOU_val s2)));
      [discriminate|reflexivity]. }
  repeat split; try assumption; try reflexivity;
    rewrite Hc by assumption; reflexivity.
Qed.

(** Why the loop body raises, and what it has done by then. *)
Lemma epoch_body_cause args tl tel crit epoch s w t w' x :
  epoch_body args tl tel crit epoch s w = (t, w', Err x) ->
  w' = w /\ trains t = [epoch] /\ log_lines t = [] /\ saves t = [] /\
  (result_of (train args tl (model s) crit (optim s) epoch w) = Err x \/
   validation_due args epoch = Err x \/
   (validation_due args epoch = Ok true /\ args_sliding args = false /\
    (predict_whole = Err x \/
     (x = UnboundLocalError "pa" /\ metrics s = None)))).
Proof.
  intros H. pose proof (epoch_body_err _ _ _ _ _ _ _ _ _ _ H) as [Hw Ht].
  split; [exact Hw|].
  split; [destruct Ht as [->| ->]; reflexivity|].
  split; [destruct Ht as [->| ->]; reflexivity|].
  split; [destruct Ht as [->| ->]; reflexivity|].
  clear Ht Hw. unfold epoch_body in H.
  apply bind_err in H
    as [H|(t1 & w1 & [[[lossTr lr] m1] o1] & t2 & Htr & H & ->)].
  { left. rewrite H. reflexivity. }
  right. rewrite train_run in Htr. injection Htr as _ <- _.
  apply bind_err in H as [H|(tv & w2 & s2 & t3 & Hv & H & ->)].
  { apply validation_step_cause in H. exact H. }
  exfalso.
  apply bind_err in H as [H|(t4 & w4 & [] & t5 & H4 & H & ->)]; [discriminate|].
  unfold StepLR_step in H.
  apply bind_err in H as [H|(t6 & w6 & [] & t7 & H6 & H & ->)]; [discriminate|].
  apply bind_err in H as [H|(t8 & w8 & [] & t9 & H8 & H & ->)].
  { rewrite save_step_run in H. destruct (save_due args epoch); discriminate. }
  rewrite early_stopping_step_run in H. discriminate.
Qed.

(** A loop whose first epoch raises ends there. *)
Lemma epoch_loop_first_fails args tl tel crit n epoch s w t w' r :
  (forall tb wb fl s1,
     epoch_body args tl tel crit epoch s w <> (tb, wb, Ok (fl, s1))) ->
  epoch_loop args tl tel crit (S n) epoch s w = (t, w', r) ->
  exists x, r = Err x /\ epoch_body args tl tel crit epoch s w = (t, w', Err x).
Proof.
  intros Hfail H. simpl in H. unfold bind in H.
  destruct (epoch_body args tl tel crit epoch s w) as [[tb wb] [[fl s1]|x]].
  - exfalso. eapply Hfail. reflexivity.
  - injection H as <- <- <-. eauto.
Qed.

(** X5.  With [--val_epochs 0] the loop does not get past its first epoch:
    the epoch is trained and then raises, by the division in the validation
    test unless training itself has raised; nothing is logged or saved. *)
Theorem zero_val_epochs_raises args tl tel crit n epoch s w t w' r :
  args_val_epochs args = 0 ->
  (1 <= n)%nat ->
  epoch_loop args tl tel crit n epoch s w = (t, w', r) ->
  exists x,
    r = Err x /\
    (x = ZeroDivisionError \/
     result_of (train args tl (model s) crit (optim s) epoch w) = Err x) /\
    trains t = [epoch] /\ log_lines t = [] /\ saves t = [] /\ w' = w.
Proof.
  intros Hz Hn H. destruct n as [|n]; [lia|].
  apply epoch_loop_first_fails in H as (x & -> & H).
  - exists x. split; [reflexivity|].
    apply epoch_body_cause in H as (-> & Ht & Hl & Hs & Hc).
    rewrite (validation_due_zero _ _ Hz) in Hc.
    repeat split; auto.
    destruct Hc as [Hc|[Hc|[Hc _]]]; [auto| |discriminate].
    injection Hc as <-. auto.
  - intros tb wb fl s1 Hb. open_body Hb.
    rewrite (validation_due_zero _ _ Hz) in Hdue. discriminate.
Qed.

Lemma epoch_body_whole args tl tel crit epoch s w t w' r :
  args_sliding args = false ->
  metrics s = None ->
  epoch_body args tl tel crit epoch s w = (t, w', r) ->
  Forall (fun line => has_validation_fields line = false) (log_lines t) /\
  (validation_due args epoch <> Ok false ->
   exists x, r = Err x /\ log_lines t = [] /\ saves t = []) /\
  (forall s', r = Ok (Continue, s') -> metrics s' = None).
Proof.
  intros Hsl Hm H. destruct r as [[fl s']|x].
  - pose proof H as H0. apply epoch_body_state in H0
      as (ls & lossTr & o1 & tv & s2 & _ & Hv & _ & _ & Hcont).
    apply validation_step_metrics in Hv
      as [[Hdue Hm2]|[[_ Hs]|(_ & _ & _ & Hne)]];
      [|congruence|simpl in Hne; congruence].
    simpl in Hm2.
    split; [|split].
    + open_body H. rewrite Hdue in Hdue0. injection Hdue0 as <-.
      destruct Hcase as [-> _]. subst t.
      rewrite !log_lines_app. simpl.
      destruct (save_due args epoch); simpl;
        destruct (late_save _ _ _ _); simpl; repeat constructor.
    + intros Hne. congruence.
    + intros s0 [= Hfl <-]. destruct (Hcont Hfl) as [-> _]. congruence.
  - apply epoch_body_cause in H as (_ & _ & -> & -> & _).
    split; [constructor|]. split; [eauto|discriminate].
Qed.

(** X6.  With sliding prediction switched off (and [pa], [cpa], [mpa] not
    yet bound, as when [main] enters the loop) an epoch in which validation
    is due never completes, so no validation line is ever logged; a run that
    starts at epoch 1 raises in that epoch, with nothing logged or saved. *)
Theorem whole_mode_never_validates args tl tel crit n epoch s w t w' r :
  args_sliding args = false ->
  metrics s = None ->
  epoch_loop args tl tel crit n epoch s w = (t, w', r) ->
  Forall (fun line => has_validation_fields line = false) (log_lines t) /\
  (epoch = 1 -> (1 <= n)%nat ->
   exists x, r = Err x /\ trains t = [1] /\ log_lines t = [] /\ saves t = []).
Proof.
  intros Hsl Hm H. split.
  - revert epoch s w t w' r Hm H.
    induction n as [|n IH]; intros epoch s w t w' r Hm H; simpl in H.
    { injection H as <- _ _. constructor. }
    unfold bind in H.
    destruct (epoch_body args tl tel crit epoch s w) as [[tb wb] rb] eqn:Hb.
    destruct (epoch_body_whole _ _ _ _ _ _ _ _ _ _ Hsl Hm Hb)
      as (Hlines & _ & Hnext).
    destruct rb as [[[|] s1]|x].
    + destruct (epoch_loop args tl tel crit n (epoch + 1) s1 wb)
        as [[t2 w2] r2] eqn:Hl.
      injection H as <- _ _. rewrite log_lines_app. apply Forall_app.
      split; [exact Hlines|].
      eapply IH; [|eassumption]. apply Hnext. reflexivity.
    + injection H as <- _ _. rewrite app_nil_r. exact Hlines.
    + injection H as <- _ _. exact Hlines.
  - intros -> Hn. destruct n as [|n]; [lia|].
    assert (Hdue : validation_due args 1 <> Ok false).
    { destruct (validation_due_first args) as [-> | ->]; discriminate. }
    apply epoch_loop_first_fails in H as (x & -> & H).
    + exists x. split; [reflexivity|].
      apply epoch_body_cause in H as (_ & Ht & Hl & Hs & _). auto.
    + intros tb wb fl s1 Hb.
      destruct (epoch_body_whole _ _ _ _ _ _ _ _ _ _ Hsl Hm Hb)
        as (_ & Hfail & _).
      destruct (Hfail Hdue) as (x & Hx & _). discriminate.
Qed.

(** X7.  When the monitor stops the loop, the model file of that epoch is
    on disk.  It holds the weights of the epoch when the regular save was
    due or the path did not exist; when the path existed already and the
    regular save was not due, the files are left as they were. *)
Theorem early_stop_leaves_checkpoint args tl tel crit epoch s w t w' s' :
  epoch_body args tl tel crit epoch s w = (t, w', Ok (Break, s')) ->
  let name := model_file_name args epoch in
  let ck := {| ck_epoch := epoch; ck_model := model s' |} in
  on_disk name w' = true /\
  (save_due args epoch = true \/ on_disk name w = false ->
   files w' !! name = Some ck) /\
  (save_due args epoch = false -> on_disk name w = true ->
   files w' = files w /\ saves t = []).
Proof.
  intros H. open_body H. simpl.
  destruct (early_stop (early_stopping s')) eqn:Hst; [|discriminate].
  unfold late_save in *. simpl in *.
  assert (Hs : saves tv = []).
  { destruct due.
    - destruct Hcase as (pev & vl & fw & mi & iu & pa & mpa & cpa & -> & Hk & _).
      destruct pev; try discriminate; reflexivity.
    - destruct Hcase as [-> ->]. reflexivity. }
  subst t w'. simpl. rewrite !saves_app, Hs. simpl.
  destruct (save_due args epoch) eqn:Hsd; simpl;
    destruct (on_disk (model_file_name args epoch) w) eqn:Hod; simpl;
    rewrite ?on_disk_write_file; unfold write_file; simpl;
    rewrite ?lookup_insert_eq; repeat split; auto;
    try (intros [?|?]; discriminate); try discriminate; try congruence.
Qed.

Lemma epoch_body_break_stops args tl tel crit epoch s w t w' s' :
  epoch_body args tl tel crit epoch s w = (t, w', Ok (Break, s')) ->
  stopped_early t = true.
Proof.
  intros H. apply epoch_body_ok in H
    as (ls & lossTr & o1 & tv & s2 & _ & _ & _ & Ht & _ & Hf & _).
  simpl in Ht.
  destruct (early_stop (early_stopping s')) eqn:Hes; [|discriminate].
  apply existsb_exists. exists (EvMonitor epoch (mIOU_val s2) true).
  split; [|reflexivity].
  rewrite Ht. right. apply in_or_app. right. do 2 right.
  apply in_or_app. right. left. reflexivity.
Qed.

Lemma epoch_loop_step args tl tel crit n epoch s w :
  epoch_loop args tl tel crit (S n) epoch s w =
  match epoch_body args tl tel crit epoch s w with
  | (tb, wb, Ok (Continue, s1)) =>
      (tb ++ trace_of (epoch_loop args tl tel crit n (epoch + 1) s1 wb),
       world_of (epoch_loop args tl tel crit n (epoch + 1) s1 wb),
       result_of (epoch_loop args tl tel crit n (epoch + 1) s1 wb))
  | (tb, wb, Ok (Break, s1)) => (tb ++ [], wb, Ok s1)
  | (tb, wb, Err x) => (tb, wb, Err x)
  end.
Proof.
  simpl. unfold bind.
  destruct (epoch_body args tl tel crit epoch s w) as [[tb wb] [[[|] s1]|x]];
    try reflexivity.
  destruct (epoch_loop args tl tel crit n (epoch + 1) s1 wb) as [[t2 w2] r2].
  reflexivity.
Qed.

Lemma epoch_loop_last_save args tl tel crit n :
  forall epoch s w t w' s',
  epoch_loop args tl tel crit (S n) epoch s w = (t, w', Ok s') ->
  stopped_early t = false ->
  save_due args (epoch + Z.of_nat n) = true ->
  files w' !! model_file_name args (epoch + Z.of_nat n)
  = Some {| ck_epoch := epoch + Z.of_nat n; ck_model := model s' |}.
Proof.
  induction n as [|n IH]; intros epoch s w t w' s' H Hstop Hdue;
    rewrite epoch_loop_step in H;
    destruct (epoch_body args tl tel crit epoch s w) as [[tb wb] rb] eqn:Hb;
    destruct rb as [[[|] s1]|x]; try discriminate.
  - simpl in H. simplify_eq.
    replace (epoch + Z.of_nat 0) with epoch in * by lia.
    open_body Hb. rewrite Hworld, Hdue. simpl.
    unfold write_file. simpl. apply lookup_insert_eq.
  - simplify_eq. rewrite app_nil_r in Hstop.
    apply epoch_body_break_stops in Hb. congruence.
  - destruct (epoch_loop args tl tel crit (S n) (epoch + 1) s1 wb)
      as [[t2 w2] r2] eqn:Hl.
    simpl in H. simplify_eq.
    unfold stopped_early in Hstop. rewrite existsb_app in Hstop.
    apply orb_false_iff in Hstop as [_ Hstop2].
    replace (epoch + Z.of_nat (S n)) with (epoch + 1 + Z.of_nat n) in * by lia.
    eapply IH; eassumption.
  - simplify_eq. rewrite app_nil_r in Hstop.
    apply epoch_body_break_stops in Hb. congruence.
Qed.

(** X8.  A loop that runs through its last epoch [max_epochs] without an
    early stop leaves the final weights on disk, in the model file of
    epoch [max_epochs]. *)
Theorem completed_run_saves_final_model args tl tel crit epoch s w t w' s' :
  epoch <= args_max_epochs args ->
  epoch_loop args tl tel crit (range_len epoch (args_max_epochs args + 1))
    epoch s w = (t, w', Ok s') ->
  stopped_early t = false ->
  files w' !! model_file_name args (args_max_epochs args)
  = Some {| ck_epoch := args_max_epochs args; ck_model := model s' |}.
Proof.
  intros Hle H Hstop. unfold range_len in H.
  destruct (Z.to_nat (args_max_epochs args + 1 - epoch)) as [|n] eqn:Hn;
    [lia|].
  replace (args_max_epochs args) with (epoch + Z.of_nat n) at 1 2 by lia.
  eapply epoch_loop_last_save; try eassumption.
  apply save_due_spec. lia.
Qed.

(** ** The learning rate *)

Lemma train_batches_optimizer args crit tl :
  forall m o acc ls m' o',
  train_batches args crit tl m o acc = Ok (ls, m', o') ->
  opt_lr o' = opt_lr o /\ opt_kind o' = opt_kind o.
Proof.
  induction tl as [|b rest IH]; intros m o acc ls m' o' H; simpl in H.
  - injection H as _ _ <-. auto.
  - destruct (batch_loss args m crit b) as [loss|]; [|discriminate].
    destruct (backward_step _ _ _ _ m crit b) as [m1 inner1].
    apply IH in H. exact H.
Qed.

Lemma decays_step c :
  0 <= c -> decays c (c + 1) = if (c + 1) mod 20 =? 0 then 1 else 0.
Proof.
  intros Hc. unfold decays.
  destruct (Z.eqb_spec ((c + 1) mod 20) 0) as [H|H].
  - pose proof (Z.div_mod (c + 1) 20 ltac:(lia)) as H1.
    pose proof (Z.div_mod c 20 ltac:(lia)) as H2.
    pose proof (Z.mod_pos_bound c 20 ltac:(lia)) as H3. nia.
  - pose proof (Z.div_mod (c + 1) 20 ltac:(lia)) as H1.
    pose proof (Z.div_mod c 20 ltac:(lia)) as H2.
    pose proof (Z.mod_pos_bound c 20 ltac:(lia)) as H3.
    pose proof (Z.mod_pos_bound (c + 1) 20 ltac:(lia)) as H4. nia.
Qed.

Lemma epoch_body_rate args tl tel crit epoch s w t w' fl s' :
  epoch_body args tl tel crit epoch s w = (t, w', Ok (fl, s')) ->
  0 <= lr_scheduler s ->
  lr_scheduler s' = lr_scheduler s + 1 /\
  opt_kind (optim s') = opt_kind (optim s) /\
  (opt_lr (optim s') ==
   opt_lr (optim s) * (9 # 10) ^ decays (lr_scheduler s) (lr_scheduler s'))%Q.
Proof.
  intros H Hc. apply epoch_body_state in H
    as (ls & lossTr & o1 & tv & s2 & Hb & _ & Hs & Ho & _).
  apply train_batches_optimizer in Hb as [Hlr Hk].
  rewrite Hs, Ho, (decays_step _ Hc). unfold StepLR_step. simpl.
  split; [reflexivity|].
  destruct ((lr_scheduler s + 1) mod 20 =? 0); simpl.
  - split; [exact Hk|]. rewrite Qred_correct, Hlr. reflexivity.
  - split; [exact Hk|]. rewrite Hlr. ring.
Qed.

Lemma decays_add a b c : decays a c = decays a b + decays b c.
Proof. unfold decays. lia. Qed.

(** X9.  When the loop returns, the counter of the scheduler has advanced by
    the number of epochs trained, the kind of optimiser is unchanged, and
    the learning rate has been multiplied by 0.9 once for every multiple of
    20 the counter has reached: the rate follows the number of epochs this
    run has trained, not the epoch number. *)
Theorem learning_rate_schedule args tl tel crit n epoch s w t w' s' :
  epoch_loop args tl tel crit n epoch s w = (t, w', Ok s') ->
  0 <= lr_scheduler s ->
  lr_scheduler s' = lr_scheduler s + Z.of_nat (length (trains t)) /\
  opt_kind (optim s') = opt_kind (optim s) /\
  (opt_lr (optim s') ==
   opt_lr (optim s) * (9 # 10) ^ decays (lr_scheduler s) (lr_scheduler s'))%Q.
Proof.
  revert epoch s w t w' s'.
  induction n as [|n IH]; intros epoch s w t w' s' H Hc.
  { simpl in H. injection H as <- _ <-.
    replace (decays (lr_scheduler s) (lr_scheduler s)) with 0
      by (unfold decays; lia).
    split; [simpl; lia|]. split; [reflexivity|]. simpl. ring. }
  rewrite epoch_loop_step in H.
  destruct (epoch_body args tl tel crit epoch s w) as [[tb wb] rb] eqn:Hb.
  destruct rb as [[fl s1]|x]; [|discriminate].
  pose proof (epoch_body_trains _ _ _ _ _ _ _ _ _ _ Hb) as Htb.
  destruct (epoch_body_rate _ _ _ _ _ _ _ _ _ _ _ Hb Hc) as (H1 & H2 & H3).
  destruct fl.
  - destruct (epoch_loop args tl tel crit n (epoch + 1) s1 wb)
      as [[t2 w2] r2] eqn:Hl.
    simpl in H. simplify_eq.
    destruct (IH _ _ _ _ _ _ Hl ltac:(lia)) as (H1' & H2' & H3').
    unfold trace_of. simpl. rewrite trains_app, length_app, Htb. simpl.
    split; [lia|]. split; [congruence|].
    rewrite H3', H3.
    rewrite (decays_add (lr_scheduler s) (lr_scheduler s1) (lr_scheduler s')).
    rewrite Qpower_plus by discriminate. ring.
  - simplify_eq. rewrite app_nil_r, Htb. simpl.
    split; [lia|]. split; [exact H2|exact H3].
Qed.

(** ** Whole runs: what is emitted and what happens to the disk *)

Lemma emits_weaken {A} (P Q : event -> Prop) (m : M A) :
  (forall ev, P ev -> Q ev) -> emits P m -> emits Q m.
Proof.
  intros HPQ Hm w. eapply Forall_impl; [apply Hm|]. exact HPQ.
Qed.

Lemma epoch_body_loop_events args tl tel crit epoch s :
  emits (fun ev => loop_event ev = true) (epoch_body args tl tel crit epoch s).
Proof.
  intros w.
  destruct (epoch_body args tl tel crit epoch s w) as [[t w'] [[fl s']|e]] eqn:H;
    simpl.
  - open_body H. subst t.
    assert (Htv : Forall (fun ev => loop_event ev = true) tv).
    { destruct due.
      - destruct Hcase as (pev & vl & fw & mi & iu & pa & mpa & cpa & -> & Hk & _).
        destruct pev; try discriminate; repeat constructor.
      - destruct Hcase as [-> ->]. repeat constructor. }
    repeat (apply Forall_app; split); try assumption;
      try (repeat constructor).
    + destruct (save_due args epoch); repeat constructor.
    + destruct (late_save _ _ _ _); repeat constructor.
  - apply epoch_body_err in H as [_ [->| ->]]; repeat constructor.
Qed.

Lemma epoch_loop_loop_events args tl tel crit n :
  forall epoch s,
  emits (fun ev => loop_event ev = true) (epoch_loop args tl tel crit n epoch s).
Proof.
  induction n as [|n IH]; intros epoch s; simpl.
  - apply emits_ret.
  - apply emits_bind; [apply epoch_body_loop_events|].
    intros [[|] s']; [apply IH|apply emits_ret].
Qed.

Lemma resume_block_emits P args m :
  (forall b, P (EvOpenLog b)) ->
  (forall c s, c <> "E"%char -> P (EvPrint (String c s))) ->
  emits P (resume_block args m).
Proof.
  intros Hopen Hprint. unfold resume_block.
  destruct (negb (args_resume args =? "")%string).
  - apply emits_bind.
    { intros w. repeat constructor. apply Hopen. }
    intros lines. apply emits_bind; [apply emits_lift|]. intros h.
    apply emits_bind; [intros w; constructor|]. intros [|].
    + apply emits_bind.
      { intros w. unfold torch_load. destruct (files w !! args_resume args);
          constructor. }
      intros ck.
      apply emits_bind; [apply emits_emit; apply Hprint; discriminate|].
      intros _. apply emits_ret.
    + apply emits_bind; [apply emits_emit; apply Hprint; discriminate|].
      intros _. apply emits_ret.
  - apply emits_bind; [apply emits_emit; apply Hopen|].
    intros _. apply emits_ret.
Qed.

Lemma cuda_setup_emits P args m c :
  (forall c s, c <> "E"%char -> P (EvPrint (String c s))) ->
  (forall s, P (EvPrintData s)) ->
  emits P (cuda_setup args m c).
Proof.
  intros Hprint Hdata.
  unfold cuda_setup. destruct (args_cuda args); [|apply emits_ret].
  apply emits_bind; [apply emits_emit; apply Hprint; discriminate|]. intros _.
  apply emits_bind; [apply emits_lift|]. intros c'.
  apply emits_bind.
  { destruct (device_count (args_gpus args) >? 1);
      (apply emits_bind;
       [apply emits_emit; first [apply Hdata|apply Hprint; discriminate]|]);
      intros _; (apply emits_bind; [apply emits_lift|]);
      intros m'; apply emits_ret. }
  intros [a m']. destruct (negb (is_available (args_gpus a)));
    [apply emits_raise|apply emits_ret].
Qed.

Lemma signals_bind {A B} ev (m : M A) (f : A -> M B) :
  emits (fun x => x <> ev) m -> (forall a, signals ev (f a)) ->
  signals ev (bind m f).
Proof.
  intros Hm Hf w. unfold bind. specialize (Hm w).
  destruct (m w) as [[t1 w1] [a|e]]; unfold trace_of, result_of in *;
    simpl in *.
  - specialize (Hf a w1). unfold trace_of, result_of in Hf.
    destruct (f a w1) as [[t2 w2] r]. simpl in *.
    rewrite in_app_iff, <- Hf. rewrite List.Forall_forall in Hm.
    split; [intros [Hin|Hin]; [exfalso; exact (Hm _ Hin eq_refl)|exact Hin]
           |auto].
  - rewrite List.Forall_forall in Hm. split.
    + intros Hin. exfalso. exact (Hm _ Hin eq_refl).
    + intros [a Ha]. discriminate.
Qed.

Lemma main_signals ev args ig :
  ev = EvCloseLog \/ ev = EvPrint "Early stopping and Save checkpoint" ->
  signals ev (main args ig).
Proof.
  intros Hev.
  assert (Hp : forall c s, c <> "E"%char -> EvPrint (String c s) <> ev).
  { intros c s Hs. destruct Hev as [-> | ->]; congruence. }
  assert (Hd : forall s, EvPrintData s <> ev).
  { intros s. destruct Hev as [-> | ->]; discriminate. }
  assert (Hne : forall x, (forall s, x <> EvPrint s) -> x <> EvCloseLog ->
                          x <> ev).
  { intros x H1 H2. destruct Hev as [-> | ->]; auto. }
  unfold main.
  apply signals_bind; [apply emits_emit; apply Hd|]. intros _.
  apply signals_bind; [apply emits_emit; apply Hne; discriminate|]. intros _.
  apply signals_bind; [apply emits_attr|]. intros classes.
  apply signals_bind; [apply emits_emit; apply Hne; discriminate|]. intros _.
  destruct (build_dataset_train _ _ _ _ _ _ _) as [datas tl].
  apply signals_bind; [apply emits_emit; apply Hne; discriminate|]. intros _.
  destruct (build_dataset_test _ _ _) as [tel cd].
  apply signals_bind; [apply emits_emit; apply Hne; discriminate|]. intros _.
  apply signals_bind; [apply emits_emit; apply Hd|]. intros _.
  apply signals_bind; [apply emits_emit; apply Hp; discriminate|]. intros _.
  apply signals_bind; [apply emits_emit; apply Hd|]. intros _.
  apply signals_bind; [apply emits_emit; apply Hd|]. intros _.
  apply signals_bind; [apply emits_emit; apply Hne; discriminate|]. intros _.
  apply signals_bind; [apply emits_emit; apply Hne; discriminate|]. intros _.
  apply signals_bind; [apply cuda_setup_emits; assumption|].
  intros [[args' m'] c'].
  apply signals_bind; [apply emits_attr|]. intros gpu_nums.
  apply signals_bind;
    [apply emits_ensure_dir; apply Hne; discriminate|]. intros _.
  apply signals_bind;
    [apply emits_ensure_dir; apply Hne; discriminate|]. intros _.
  apply signals_bind; [apply emits_emit; apply Hne; discriminate|]. intros _.
  apply signals_bind.
  { apply resume_block_emits; [|assumption].
    intros b. apply Hne; discriminate. }
  intros [[start m0] [[l1 l2] l3]].
  apply signals_bind; [apply emits_emit; apply Hp; discriminate|]. intros _.
  apply signals_bind.
  { eapply emits_weaken; [|apply epoch_loop_loop_events].
    intros x Hx. destruct x; try discriminate; auto; apply Hne; discriminate. }
  intros _ w. unfold bind, emit, trace_of, result_of. simpl.
  destruct Hev as [-> | ->]; split; eauto.
Qed.

(** X10.  [main] closes the log, and prints the message about early stopping
    and the saved checkpoint, exactly when it returns: on every run that
    ends without an exception, whether or not the monitor has stopped it,
    and on no run that raises. *)
Theorem log_closed_iff_main_returns args ig w :
  (In EvCloseLog (trace_of (main args ig w)) <->
   result_of (main args ig w) = Ok tt) /\
  (In (EvPrint "Early stopping and Save checkpoint")
      (trace_of (main args ig w)) <->
   result_of (main args ig w) = Ok tt).
Proof.
  assert (Hu : (exists a, result_of (main args ig w) = Ok a) <->
               result_of (main args ig w) = Ok tt).
  { split; [intros [[] H]; exact H|eauto]. }
  split; rewrite <- Hu; apply main_signals; auto.
Qed.


(** X12.  A run without [--cuda] does not train either: [args.gpu_nums] is
    assigned under [if args.cuda:] only, so building the name of the run
    directory raises [AttributeError]; no directory has been made, no
    checkpoint written and no step of the loop taken. *)
Theorem run_without_cuda_raises args w :
  args_cuda args = false ->
  args_gpu_nums args = None ->
  In (args_dataset args) supported_datasets ->
  result_of (script args w) = Err (AttributeError "gpu_nums") /\
  world_of (script args w) = w /\
  (forall ev, In ev (trace_of (script args w)) ->
     step_of ev = None /\ forall d, ev <> EvMakedirs d).
Proof.
  intros Hc Hg Hin. unfold script.
  apply dataset_switch_some in Hin as (c & sz & ig & ->).
  unfold main, cuda_setup, bind, attr, emit, ret, raise. simpl.
  destruct (build_dataset_train _ _ _ _ _ _ _) as [datas tl].
  destruct (build_dataset_test _ _ _) as [tel cd].
  rewrite Hc. simpl. rewrite Hg. simpl.
  repeat split; try reflexivity;
    repeat (destruct H as [<-|H]; [try reflexivity; try discriminate|]);
    destruct H.
Qed.

Lemma main_tail_resumed args tl tel crit o m w ck h :
  args_resume args <> ""%string ->
  files w !! args_resume args = Some ck ->
  args_max_epochs args <= ck_epoch ck ->
  replay_log (args_val_epochs args) 0 (logfile w) ([], [], []) = Ok h ->
  bind (resume_block args m)
    (fun '(start_epoch, model, (l1, l2, l3)) =>
       bind (emit (EvPrint ">>>>>>>>>>>beginning training>>>>>>>>>>>"))
         (fun _ =>
            bind (epoch_loop args tl tel crit
                    (range_len start_epoch (args_max_epochs args + 1))
                    start_epoch
                    {| model := model; optim := o; lr_scheduler := 0;
                       early_stopping := EarlyStopping 50;
                       lossTr_list := l1; mIOU_val_list := l3;
                       lossVal_list := l2; mIOU_val := 0%Q;
                       metrics := None |})
              (fun _ =>
                 bind (emit (EvPrint "Early stopping and Save checkpoint"))
                   (fun _ => emit EvCloseLog)))) w
  = ([EvOpenLog true;
      EvPrint ("loaded checkpoint '" +:+ args_resume args
               +:+ "' (epoch " +:+ pretty (ck_epoch ck) +:+ ")")%string;
      EvPrint ">>>>>>>>>>>beginning training>>>>>>>>>>>";
      EvPrint "Early stopping and Save checkpoint"; EvCloseLog],
     w, Ok tt).
Proof.
  intros Hres Hfile Hmax Hlog.
  assert (Hn : String.eqb (args_resume args) "" = false)
    by (apply String.eqb_neq; assumption).
  unfold bind at 1. rewrite (resume_block_run _ _ _ Hn), Hlog, Hfile.
  destruct h as [[l1 l2] l3].
  unfold range_len.
  replace (Z.to_nat (args_max_epochs args + 1 - (ck_epoch ck + 1)))
    with 0%nat by lia.
  reflexivity.
Qed.

Lemma idle_bind {A} (m : M A) (f : A -> M unit) w0 w1 t1 w2 a msg :
  m w1 = (t1, w2, Ok a) ->
  Forall (fun ev => step_of ev = None) t1 ->
  result_of (f a w2) = Ok tt /\
  files (world_of (f a w2)) = files w0 /\
  Forall (fun ev => step_of ev = None) (trace_of (f a w2)) /\
  In msg (trace_of (f a w2)) ->
  result_of (bind m f w1) = Ok tt /\
  files (world_of (bind m f w1)) = files w0 /\
  Forall (fun ev => step_of ev = None) (trace_of (bind m f w1)) /\
  In msg (trace_of (bind m f w1)).
Proof.
  intros Hm Ht (Hr & Hf & Hq & Hin). unfold bind. rewrite Hm.
  destruct (f a w2) as [[t2 w3] r]. unfold trace_of, world_of, result_of in *.
  simpl in *. repeat split; auto.
  - apply Forall_app. split; assumption.
  - apply in_or_app. right. assumption.
Qed.

Lemma ensure_dir_run d w :
  exists t w', ensure_dir d w = (t, w', Ok tt) /\
    files w' = files w /\ logfile w' = logfile w /\
    Forall (fun ev => step_of ev = None) t.
Proof.
  unfold ensure_dir, bind, path_exists, ret.
  destruct (on_disk d w); simpl; do 2 eexists; repeat split;
    repeat constructor.
Qed.

Lemma cuda_setup_run args m c w :
  args_cuda args = true ->
  is_available (args_gpus args) = true ->
  exists t n m' c',
    cuda_setup args m c w = (t, w, Ok (set_gpu_nums n args, m', c')) /\
    Forall (fun ev => step_of ev = None) t.
Proof.
  intros Hc Hg. unfold cuda_setup, bind, emit, lift, ret, raise. rewrite Hc.
  destruct (criterion_cuda_usable (args_gpus args) c Hg) as [c' ->].
  destruct (device_count (args_gpus args) >? 1); simpl;
    match goal with
    | |- context [model_cuda ?g ?x] =>
        destruct (model_cuda_usable g x Hg) as [m' ->]
    end; simpl; rewrite Hg; simpl;
    do 4 eexists; (split; [reflexivity|]); repeat constructor.
Qed.

(** X13.  Resuming from the checkpoint of an epoch at or beyond
    [--max_epochs] trains nothing: the loop ranges over no epoch, so the run
    takes no step, leaves every file as it was, prints the message about
    early stopping and returns. *)
Theorem resume_after_last_epoch args w ck h :
  In (args_dataset args) supported_datasets ->
  args_cuda args = true ->
  is_available (args_gpus args) = true ->
  args_resume args <> ""%string ->
  files w !! args_resume args = Some ck ->
  args_max_epochs args <= ck_epoch ck ->
  replay_log (args_val_epochs args) 0 (logfile w) ([], [], []) = Ok h ->
  result_of (script args w) = Ok tt /\
  files (world_of (script args w)) = files w /\
  Forall (fun ev => step_of ev = None) (trace_of (script args w)) /\
  In (EvPrint "Early stopping and Save checkpoint")
     (trace_of (script args w)).
Proof.
  intros Hin Hc Hg Hres Hfile Hmax Hlog. unfold script.
  apply dataset_switch_some in Hin as (c & sz & ig & ->).
  set (msg := EvPrint "Early stopping and Save checkpoint").
  assert (Hmain :
    result_of (main (set_dataset_attrs c sz args) ig w) = Ok tt /\
    files (world_of (main (set_dataset_attrs c sz args) ig w)) = files w /\
    Forall (fun ev => step_of ev = None)
      (trace_of (main (set_dataset_attrs c sz args) ig w)) /\
    In msg (trace_of (main (set_dataset_attrs c sz args) ig w))).
  { unfold main.
    do 2 (eapply idle_bind; [reflexivity|repeat constructor|]).
    eapply idle_bind; [reflexivity|constructor|].
    eapply idle_bind; [reflexivity|repeat constructor|].
    destruct (build_dataset_train _ _ _ _ _ _ _) as [datas tl].
    eapply idle_bind; [reflexivity|repeat constructor|].
    destruct (build_dataset_test _ _ _) as [tel cd].
    do 7 (eapply idle_bind; [reflexivity|repeat constructor|]).
    edestruct (cuda_setup_run (set_dataset_attrs c sz args))
      as (t1 & n & m' & c' & Hcuda & Hq1); [exact Hc|exact Hg|].
    eapply idle_bind; [exact Hcuda|exact Hq1|].
    eapply idle_bind; [reflexivity|constructor|].
    edestruct ensure_dir_run as (t2 & w2 & Hd2 & Hf2 & Hl2 & Hq2).
    eapply idle_bind; [exact Hd2|exact Hq2|].
    edestruct ensure_dir_run as (t3 & w3 & Hd3 & Hf3 & Hl3 & Hq3).
    eapply idle_bind; [exact Hd3|exact Hq3|].
    eapply idle_bind; [reflexivity|repeat constructor|].
    erewrite main_tail_resumed; simpl.
    - unfold trace_of, world_of, result_of. simpl.
      repeat split; [congruence|repeat constructor|].
      do 3 right. left. reflexivity.
    - exact Hres.
    - rewrite Hf3, Hf2. exact Hfile.
    - exact Hmax.
    - rewrite Hl3, Hl2. exact Hlog. }
  destruct Hmain as (Hr & Hf & Hq & Hi).
  unfold bind.
  destruct (main (set_dataset_attrs c sz args) ig w) as [[t1 w1] r1].
  unfold trace_of, world_of, result_of in *. simpl in *. subst r1. simpl.
  repeat split; auto.
  - apply Forall_app. split; [assumption|repeat constructor].
  - apply in_or_app. left. assumption.
Qed.

Lemma epoch_body_log_rate args tl tel crit epoch s w t w' fl s' :
  epoch_body args tl tel crit epoch s w = (t, w', Ok (fl, s')) ->
  map line_lr (log_lines t) = [opt_lr (optim s)].
Proof.
  intros H. open_body H. subst t.
  rewrite !log_lines_app. simpl.
  assert (Hsave : forall b : bool,
            log_lines (if b then [EvSave epoch (model_file_name args epoch)
                                    {| ck_epoch := epoch; ck_model := model s' |}]
                       else []) = []).
  { intros []; auto. }
  rewrite Hsave. simpl.
  assert (Hend : log_lines
            (if late_save args epoch (early_stop (early_stopping s')) w
             then [EvSave epoch (model_file_name args epoch)
                     {| ck_epoch := epoch; ck_model := model s' |};
                   EvPredictSliding epoch (args_input_size args);
                   EvPrintData "Epoch"] else []) = []).
  { destruct (late_save _ _ _ _); reflexivity. }
  rewrite Hend, !app_nil_r.
  destruct due.
  - destruct Hcase as (pev & vl & fw & mi & iu & pa & mpa & cpa & -> & Hk
                       & _).
    destruct pev; try discriminate; simpl; auto.
  - destruct Hcase as [-> _]. reflexivity.
Qed.

Lemma first_log_bind {A B} P (m : M A) (f : A -> M B) :
  first_log P m -> (forall a, first_log P (f a)) -> first_log P (bind m f).
Proof.
  intros Hm Hf w line. unfold bind. specialize (Hm w).
  destruct (m w) as [[t1 w1] [a|e]]; unfold trace_of in *; simpl in *;
    [|apply Hm].
  specialize (Hf a w1). destruct (f a w1) as [[t2 w2] r]. simpl in *.
  rewrite log_lines_app.
  destruct (log_lines t1) as [|l1 ls]; simpl; [apply Hf|apply Hm].
Qed.

Lemma first_log_silent {A} P (m : M A) :
  emits (fun ev => forall e line, ev <> EvLog e line) m -> first_log P m.
Proof.
  intros Hm w line. specialize (Hm w).
  induction (trace_of (m w)) as [|ev t IH]; simpl; [discriminate|].
  inversion Hm as [|? ? Hev Ht]. subst.
  destruct ev; try (apply IH; assumption).
  exfalso. eapply Hev. reflexivity.
Qed.

Lemma first_log_emit P ev :
  (forall e line, ev <> EvLog e line) -> first_log P (emit ev).
Proof. intros H. apply first_log_silent, emits_emit. exact H. Qed.

Lemma epoch_loop_first_rate args tl tel crit n :
  forall epoch s,
  first_log (fun line => line_lr line = opt_lr (optim s) /\
                         line_epoch line = epoch)
    (epoch_loop args tl tel crit n epoch s).
Proof.
  destruct n as [|n]; intros epoch s w line.
  { simpl. discriminate. }
  rewrite epoch_loop_step.
  destruct (epoch_body args tl tel crit epoch s w) as [[tb wb] rb] eqn:Hb.
  destruct rb as [[fl s1]|x].
  - pose proof (epoch_body_log_rate _ _ _ _ _ _ _ _ _ _ _ Hb) as Hlr.
    apply epoch_body_summary in Hb as (_ & Hep & _).
    assert (Hhead : forall t2, head (log_lines (tb ++ t2)) = Some line ->
              line_lr line = opt_lr (optim s) /\ line_epoch line = epoch).
    { intros t2. rewrite log_lines_app.
      destruct (log_lines tb) as [|l [|]]; try discriminate.
      simpl in *. intros [= <-]. split; congruence. }
    destruct fl.
    + destruct (epoch_loop args tl tel crit n (epoch + 1) s1 wb)
        as [[t2 w2] r2].
      unfold trace_of. simpl. apply Hhead.
    + unfold trace_of. simpl. apply Hhead.
  - apply epoch_body_err in Hb as [_ Hb].
    unfold trace_of. simpl. intros Hl. exfalso.
    destruct Hb as [-> | ->]; simpl in Hl; discriminate.
Qed.

Lemma first_log_weaken {A} (P Q : log_line -> Prop) (m : M A) :
  (forall line, P line -> Q line) -> first_log P m -> first_log Q m.
Proof. intros HPQ Hm w line Hl. apply HPQ. eapply Hm. exact Hl. Qed.

Lemma first_log_resume_block {B} P args m (f : Z * weights * history -> M B) :
  (forall start m' h,
     (args_resume args = ""%string -> start = 1) ->
     first_log P (f (start, m', h))) ->
  first_log P (bind (resume_block args m) f).
Proof.
  intros Hf w line. unfold bind.
  pose proof (resume_block_emits
                (fun ev => forall e l, ev <> EvLog e l) args m) as Hsilent.
  specialize (Hsilent ltac:(discriminate) ltac:(discriminate)).
  pose proof (first_log_silent P _ Hsilent w line) as Hquiet.
  destruct (resume_block args m w) as [[t1 w1] [[[start m'] h]|e]] eqn:Hrun;
    unfold trace_of in *; simpl in *; [|exact Hquiet].
  assert (Hstart : args_resume args = ""%string -> start = 1).
  { intros Hres. unfold resume_block in Hrun. rewrite Hres in Hrun.
    simpl in Hrun. injection Hrun as _ _ <- _ _. reflexivity. }
  specialize (Hf start m' h Hstart w1).
  destruct (f (start, m', h) w1) as [[t2 w2] r]. simpl in *.
  rewrite log_lines_app.
  destruct (log_lines t1) as [|l1 ls]; simpl; [apply Hf|apply Hquiet].
Qed.

Lemma first_log_bind_ok {A B} P (m : M A) (f : A -> M B) :
  first_log P m ->
  (forall a, (exists w t w', m w = (t, w', Ok a)) -> first_log P (f a)) ->
  first_log P (bind m f).
Proof.
  intros Hm Hf w line. unfold bind. specialize (Hm w).
  destruct (m w) as [[t1 w1] [a|e]] eqn:Hmw; unfold trace_of in *;
    simpl in *; [|apply Hm].
  specialize (Hf a (ex_intro _ w (ex_intro _ t1 (ex_intro _ w1 Hmw))) w1).
  destruct (f a w1) as [[t2 w2] r]. simpl in *.
  rewrite log_lines_app.
  destruct (log_lines t1) as [|l1 ls]; simpl; [apply Hf|apply Hm].
Qed.

Lemma cuda_setup_resume args m c w t w' args' m' c' :
  cuda_setup args m c w = (t, w', Ok (args', m', c')) ->
  args_resume args' = args_resume args.
Proof.
  intros H. apply cuda_setup_ok in H as [_ [->|[n ->]]]; reflexivity.
Qed.

(** X14.  The checkpoint holds weights and epoch only: whatever epoch a run
    resumes from, the first line it logs records the initial learning rate
    [--lr], the optimiser and the scheduler having been built afresh; in a
    run that does not resume this line is the line of epoch 1. *)
Theorem first_logged_rate args ig w line :
  head (log_lines (trace_of (main args ig w))) = Some line ->
  line_lr line = args_lr args /\
  (args_resume args = ""%string -> line_epoch line = 1).
Proof.
  revert w line.
  change (first_log (fun line => line_lr line = args_lr args /\
                       (args_resume args = ""%string -> line_epoch line = 1))
            (main args ig)).
  unfold main.
  do 2 (apply first_log_bind; [apply first_log_emit; discriminate|]; intros _).
  apply first_log_bind;
    [apply first_log_silent, emits_attr|]. intros classes.
  apply first_log_bind; [apply first_log_emit; discriminate|]. intros _.
  destruct (build_dataset_train _ _ _ _ _ _ _) as [datas tl].
  apply first_log_bind; [apply first_log_emit; discriminate|]. intros _.
  destruct (build_dataset_test _ _ _) as [tel cd].
  do 7 (apply first_log_bind; [apply first_log_emit; discriminate|]; intros _).
  apply first_log_bind_ok;
    [apply first_log_silent, cuda_setup_emits; discriminate|].
  intros [[args' m'] c'] (w0 & t0 & w0' & Hcuda).
  apply cuda_setup_resume in Hcuda.
  apply first_log_bind; [apply first_log_silent, emits_attr|]. intros gpu_nums.
  do 2 (apply first_log_bind;
        [apply first_log_silent, emits_ensure_dir; discriminate|]; intros _).
  apply first_log_bind; [apply first_log_emit; discriminate|]. intros _.
  apply first_log_resume_block. intros start m0 [[l1 l2] l3] Hstart.
  simpl in Hstart. rewrite Hcuda in Hstart.
  apply first_log_bind; [apply first_log_emit; discriminate|]. intros _.
  apply first_log_bind.
  - eapply first_log_weaken; [|apply epoch_loop_first_rate].
    simpl. intros line [Hlr Hep]. split; [exact Hlr|].
    intros Hres. rewrite Hep. auto.
  - intros _.
    apply first_log_bind; intros; apply first_log_emit; discriminate.
Qed.


Lemma epoch_body_line args tl tel crit epoch s w t w' fl s' :
  epoch_body args tl tel crit epoch s w = (t, w', Ok (fl, s')) ->
  exists line due,
    log_lines t = [line] /\ validation_due args epoch = Ok due /\
    has_validation_fields line = due.
Proof.
  intros H. open_body H. subst t.
  rewrite !log_lines_app. simpl.
  assert (Hsave : forall b : bool,
            log_lines (if b then [EvSave epoch (model_file_name args epoch)
                                    {| ck_epoch := epoch; ck_model := model s' |}]
                       else []) = []).
  { intros []; auto. }
  assert (Hend : log_lines
            (if late_save args epoch (early_stop (early_stopping s')) w
             then [EvSave epoch (model_file_name args epoch)
                     {| ck_epoch := epoch; ck_model := model s' |};
                   EvPredictSliding epoch (args_input_size args);
                   EvPrintData "Epoch"] else []) = []).
  { destruct (late_save _ _ _ _); reflexivity. }
  rewrite Hsave, Hend. simpl. rewrite !app_nil_r.
  destruct due.
  - destruct Hcase as (pev & vl & fw & mi & iu & pa & mpa & cpa & -> & Hk
                       & _).
    destruct pev; try discriminate; simpl; eauto.
  - destruct Hcase as [-> _]. simpl. eauto.
Qed.

Lemma replay_log_body render ve index line rest h due r :
  readable render line ->
  py_mod (index + 1) ve = Ok r ->
  (r =? 0) || (index =? 0) = due ->
  has_validation_fields line = due ->
  replay_log ve index (render line :: rest) h =
  replay_log ve (index + 1) rest
    (h.1.1 ++ [line_lossTr line], h.1.2 ++ omap line_val_loss [line],
     h.2 ++ omap line_mIOU [line]).
Proof.
  intros (H2 & H3 & H5) Hmod Hcond Hline. destruct h as [[l1 l2] l3].
  rewrite <- Hline in Hcond. clear Hline.
  simpl. rewrite H2, Hmod, Hcond.
  destruct line; simpl in *.
  - rewrite (H3 _ eq_refl), (H5 _ eq_refl). reflexivity.
  - rewrite !app_nil_r. reflexivity.
Qed.

Lemma replay_rebuilds_loop args tl tel crit render n :
  forall epoch s w t w' s',
  epoch_loop args tl tel crit n epoch s w = (t, w', Ok s') ->
  ~ In (args_max_epochs args) (trains t) \/
    args_max_epochs args mod args_val_epochs args = 0 ->
  Forall (readable render) (log_lines t) ->
  replay_log (args_val_epochs args) (epoch - 1) (map render (log_lines t))
    (lossTr_list s, lossVal_list s, mIOU_val_list s)
  = Ok (lossTr_list s', lossVal_list s', mIOU_val_list s').
Proof.
  induction n as [|n IH]; intros epoch s w t w' s' H Hmax Hfmt.
  { simpl in H. injection H as <- _ <-. reflexivity. }
  rewrite epoch_loop_step in H.
  destruct (epoch_body args tl tel crit epoch s w) as [[tb wb] rb] eqn:Hb.
  destruct rb as [[fl s1]|x]; [|discriminate].
  pose proof (epoch_body_line _ _ _ _ _ _ _ _ _ _ _ Hb)
    as (line & due & Hline & Hdue & Hfields).
  pose proof (epoch_body_summary _ _ _ _ _ _ _ _ _ _ _ Hb)
    as (Htr & _ & H1 & H2 & H3).
  rewrite Hline in H1, H2, H3.
  unfold validation_due in Hdue.
  destruct (py_mod epoch (args_val_epochs args)) as [r|] eqn:Hmod;
    [|discriminate].
  injection Hdue as Hdue.
  assert (Hstep : forall t2,
            t = tb ++ t2 ->
            replay_log (args_val_epochs args) (epoch - 1)
              (map render (log_lines t))
              (lossTr_list s, lossVal_list s, mIOU_val_list s)
            = replay_log (args_val_epochs args) (epoch + 1 - 1)
                (map render (log_lines t2))
                (lossTr_list s1, lossVal_list s1, mIOU_val_list s1)).
  { intros t2 Ht. subst t. rewrite log_lines_app, Hline in *.
    cbn [List.map app].
    apply Forall_cons in Hfmt as [Hrd _].
    rewrite trains_app, Htr in Hmax. simpl in Hmax.
    replace (epoch + 1 - 1) with (epoch - 1 + 1) by lia.
    rewrite H1, H2, H3.
    rewrite (replay_log_body render (args_val_epochs args) (epoch - 1) line
               (map render (log_lines t2))
               (lossTr_list s, lossVal_list s, mIOU_val_list s) due r);
      [reflexivity|exact Hrd| | |exact Hfields].
    - replace (epoch - 1 + 1) with epoch by lia. exact Hmod.
    - rewrite <- Hdue.
      unfold py_mod in Hmod.
      destruct (args_val_epochs args =? 0); [discriminate|].
      injection Hmod as Hmod.
      destruct (Z.eqb_spec epoch (args_max_epochs args)) as [Heq|Hne].
      + destruct Hmax as [Hmax|Hmax]; [tauto|].
        rewrite <- Heq, Hmod in Hmax. subst r. reflexivity.
      + rewrite orb_false_r. f_equal. lia. }
  destruct fl.
  - destruct (epoch_loop args tl tel crit n (epoch + 1) s1 wb)
      as [[t2 w2] r2] eqn:Hl.
    unfold trace_of, world_of, result_of in H. simpl in H.
    injection H as Ht _ ->.
    rewrite (Hstep t2) by (symmetry; exact Ht).
    subst t. rewrite log_lines_app, trains_app in *.
    apply (IH _ _ _ _ _ _ Hl).
    + destruct Hmax as [Hmax|Hmax]; [left|right; exact Hmax].
      intros Hin. apply Hmax. apply in_or_app. right. exact Hin.
    + apply Forall_app in Hfmt as [_ Hfmt]. exact Hfmt.
  - injection H as Ht _ <-.
    rewrite (Hstep []) by (symmetry; exact Ht). reflexivity.
Qed.

(** X16.  Resume rebuilds the history of the run that wrote the log: when
    the lines a run has logged from epoch 1 on are written so that they can
    be read back, and the run did not reach its last epoch (or the last
    epoch is a multiple of [--val_epochs]), reading them back yields the
    three lists [lossTr_list], [lossVal_list] and [mIOU_val_list] the run
    ended with. *)
Theorem replay_rebuilds_history args tl tel crit render n s w t w' s' :
  epoch_loop args tl tel crit n 1 s w = (t, w', Ok s') ->
  lossTr_list s = [] -> lossVal_list s = [] -> mIOU_val_list s = [] ->
  ~ In (args_max_epochs args) (trains t) \/
    args_max_epochs args mod args_val_epochs args = 0 ->
  Forall (readable render) (log_lines t) ->
  replay_log (args_val_epochs args) 0 (map render (log_lines t)) ([], [], [])
  = Ok (lossTr_list s', lossVal_list s', mIOU_val_list s').
Proof.
  intros H H1 H2 H3 Hmax Hfmt.
  rewrite <- H1 at 1. rewrite <- H2 at 1. rewrite <- H3 at 1.
  apply (replay_rebuilds_loop _ _ _ _ _ _ _ _ _ _ _ _ H Hmax Hfmt).
Qed.

(** A run seen through its three projections. *)
Lemma run_eta {A} (m : M A) w :
  m w = (trace_of (m w), world_of (m w), result_of (m w)).
Proof. destruct (m w) as [[t w'] r]. reflexivity. Qed.

Lemma run_ok {A} (m : M A) w a :
  result_of (m w) = Ok a -> m w = (trace_of (m w), world_of (m w), Ok a).
Proof. intros <-. apply run_eta. Qed.

End Properties.

(** * Concrete runs

    The theorems applied to the small framework [toy], and the runs on
    which the claims that had to be amended fail as first stated. *)

Lemma run10_eq : run10 = (trace10, world10, Ok (Continue, state10)).
Proof. vm_compute. reflexivity. Qed.

Lemma run13_eq : run13 = (trace13, empty_world, Ok (Continue, state13)).
Proof. vm_compute. reflexivity. Qed.

Lemma run51_eq : run51 = (trace51, world51, Ok (Break, state51)).
Proof. vm_compute. reflexivity. Qed.

Lemma run_zero_eq :
  run_zero = ([EvTrain 1], empty_world, Err ZeroDivisionError).
Proof. vm_compute. reflexivity. Qed.

Lemma loop10_eq :
  epoch_loop loop_args toy_loader tt tt 1 10 state0 empty_world
  = (trace10, world10, Ok state10).
Proof. vm_compute. reflexivity. Qed.

Lemma loop51_eq :
  epoch_loop loop_args toy_loader tt tt 3 51 state_near_stop empty_world
  = (trace51, world51, Ok state51).
Proof. vm_compute. reflexivity. Qed.

(** The checkpoint written in epoch 10 is on disk when the loop has ended
    and is read back by a run resumed from its file. *)
Lemma checkpoint_roundtrip_witness :
  run10 = (trace10, world10, Ok (Continue, state10)) /\
  In (model_file_name loop_args 10, {| ck_epoch := 10; ck_model := 2 |})
     (saves trace10) /\
  files world10 !! model_file_name loop_args 10
    = Some {| ck_epoch := 10; ck_model := 2 |} /\
  result_of
    (resume_block
       (args_with "paris" "0" 300 10 (SizeTuple 512 512)
          (model_file_name loop_args 10)) 0 world10)
  = Ok (11, 2, ([], [], [])).
Proof.
  assert (Hin : In (model_file_name loop_args 10,
                    {| ck_epoch := 10; ck_model := 2 |}) (saves trace10)).
  { vm_compute. left. reflexivity. }
  destruct (checkpoint_roundtrip (FW := toy) loop_args toy_loader tt tt)
    as [Hbody Hloop].
  destruct (Hbody 10 state0 empty_world trace10 world10
              (Ok (Continue, state10)) _ _ run10_eq Hin)
    as (fl & s' & ls & o1 & _ & _ & _ & _ & Hfile).
  destruct (Hloop 1%nat 10 state0 empty_world trace10 world10 (Ok state10)
              _ _ loop10_eq Hin) as (_ & _ & Hresume).
  split; [exact run10_eq|].
  split; [exact Hin|].
  split; [exact Hfile|].
  rewrite (Hresume
             (args_with "paris" "0" 300 10 (SizeTuple 512 512)
                (model_file_name loop_args 10)) 0 world10 ([], [], [])
             eq_refl eq_refl eq_refl).
  reflexivity.
Defined.

(** The steps of epoch 10, and the loop that stops at epoch 51. *)
Lemma epoch_steps_witness :
  run10 = (trace10, world10, Ok (Continue, state10)) /\
  step_kinds trace10 = [KTrain; KValidate; KLog; KLrStep; KSave; KMonitor] /\
  run_zero = ([EvTrain 1], empty_world, Err ZeroDivisionError) /\
  follows fixed_order (step_kinds [EvTrain 1]) = true /\
  trace51 = firstn 4 trace51 ++ EvMonitor 51 (9 # 10) true :: skipn 5 trace51 /\
  (forall ev e', In ev (skipn 5 trace51) -> ev_epoch ev = Some e' -> e' = 51).
Proof.
  destruct (epoch_steps_in_order (FW := toy) loop_args toy_loader tt tt)
    as (Hbody & _ & Hloop).
  destruct (epoch_steps_in_order (FW := toy) (loop_args_of resume_args0)
              toy_loader tt tt) as (_ & Hfail & _).
  destruct (Hbody 10 state0 empty_world trace10 world10 Continue state10
              run10_eq) as (due & Hdue & _ & Hkinds & _).
  assert (Hd : due = true) by (vm_compute in Hdue; congruence). subst due.
  split; [exact run10_eq|].
  split; [exact Hkinds|].
  split; [exact run_zero_eq|].
  split; [exact (Hfail 1 state0 empty_world _ _ _ run_zero_eq)|].
  split; [reflexivity|].
  exact (Hloop 3%nat 51 state_near_stop empty_world trace51 world51
           (Ok state51) loop51_eq (firstn 4 trace51) 51 (9 # 10)%Q
           (skipn 5 trace51) eq_refl).
Defined.

(** The log line of epoch 13. *)
Lemma log_line_witness :
  run13 = (trace13, empty_world, Ok (Continue, state13)) /\
  exists line,
    log_lines trace13 = [line] /\ line_epoch line = 13 /\
    line_lr line = (1 # 1000)%Q.
Proof.
  split; [exact run13_eq|].
  destruct (log_line_per_epoch (FW := toy) loop_args toy_loader tt tt 13 state0
              empty_world trace13 empty_world Continue state13 run13_eq)
    as (line & Hl & He & Hlr & _).
  exists line. split; [exact Hl|]. split; [exact He|exact Hlr].
Defined.

Lemma unsupported_dataset_witness :
  ~ In (args_dataset voc_args) supported_datasets /\
  script voc_args empty_world =
    ([], empty_world,
     Err (NotImplementedError
            "This repository now supports datasets voc is not included")).
Proof.
  assert (H : ~ In (args_dataset voc_args) supported_datasets).
  { vm_compute. intuition discriminate. }
  split; [exact H|].
  exact (unsupported_dataset_raises (FW := toy) voc_args empty_world H).
Defined.

(** A missing checkpoint next to a readable log. *)
Lemma missing_checkpoint_witness :
  args_resume resume_args <> ""%string /\
  files old_log_world !! args_resume resume_args = None /\
  resume_block resume_args 0 old_log_world =
    ([EvOpenLog true; EvPrint "no checkpoint found at 'missing.pth'"],
     old_log_world,
     Ok (1, 0, ([(1 # 2)%Q], [(1 # 4)%Q], [(1 # 2)%Q]))).
Proof.
  assert (H1 : args_resume resume_args <> ""%string).
  { vm_compute. discriminate. }
  assert (H2 : files old_log_world !! args_resume resume_args = None).
  { vm_compute. reflexivity. }
  split; [exact H1|].
  split; [exact H2|].
  exact (missing_checkpoint_from_scratch (FW := toy) resume_args 0 old_log_world H1 H2).
Defined.


(** Epoch 10 validates and records; epoch 13 does neither. *)
Lemma validation_schedule_witness :
  run10 = (trace10, world10, Ok (Continue, state10)) /\
  run13 = (trace13, empty_world, Ok (Continue, state13)) /\
  (exists pev, List.filter is_validation (before_monitor trace10) = [pev]) /\
  List.filter is_validation (before_monitor trace13) = [] /\
  lossVal_list state13 = lossVal_list state0.
Proof.
  destruct (validation_schedule (FW := toy) loop_args toy_loader tt tt 10 state0
              empty_world trace10 world10 Continue state10 run10_eq)
    as (_ & Hdue & _ & _).
  destruct (validation_schedule (FW := toy) loop_args toy_loader tt tt 13 state0
              empty_world trace13 empty_world Continue state13 run13_eq)
    as (_ & _ & Hnot & _).
  destruct Hdue as (pev & vl & fw & mi & iu & pa & mpa & cpa & Hp & _).
  { left. reflexivity. }
  destruct Hnot as (Hnone & _ & Hlist & _).
  { vm_compute. intuition discriminate. }
  split; [exact run10_eq|].
  split; [exact run13_eq|].
  split; [exists pev; exact Hp|].
  split; [exact Hnone|].
  exact Hlist.
Defined.

Lemma input_size_witness :
  In (EvBuildTrainSet "paris" (SizeTuple 512 512) 4)
     (trace_of (script short_args empty_world)) /\
  exists classes ignore_label,
    dataset_switch "paris" = Some (classes, SizeTuple 512 512, ignore_label).
Proof.
  assert (Hin : In (EvBuildTrainSet "paris" (SizeTuple 512 512) 4)
                   (trace_of (script short_args empty_world))).
  { vm_compute. do 3 right. left. reflexivity. }
  split; [exact Hin|].
  exact (input_size_fixed_by_dataset (FW := toy) short_args empty_world _ _ Hin eq_refl).
Defined.

(** [train] on no batch and on the two batches of [toy_loader]. *)
Lemma train_average_witness :
  train loop_args [] 0 tt (optim state0) 1 empty_world =
    ([EvTrain 1], empty_world, Err ZeroDivisionError) /\
  toy_loader <> [] /\
  exists avg m' o',
    train loop_args toy_loader 0 tt (optim state0) 1 empty_world =
      ([EvTrain 1], empty_world, Ok (avg, (1 # 1000)%Q, m', o')).
Proof.
  assert (Hne : toy_loader <> []) by discriminate.
  destruct (train_average_loss (FW := toy) loop_args [] 0 tt (optim state0) 1
              empty_world) as (Hempty & _ & _).
  destruct (train_average_loss (FW := toy) loop_args toy_loader 0 tt (optim state0) 1
              empty_world) as (_ & _ & Htotal).
  split; [exact (Hempty eq_refl)|].
  split; [exact Hne|].
  apply Htotal; [|exact Hne].
  intros m b. eexists. reflexivity.
Defined.

(** The regular save of epoch 10 and the late save of epoch 51. *)
Lemma checkpoint_schedule_witness :
  run10 = (trace10, world10, Ok (Continue, state10)) /\
  run51 = (trace51, world51, Ok (Break, state51)) /\
  saves (before_monitor trace10)
    = [(model_file_name loop_args 10, {| ck_epoch := 10; ck_model := 2 |})] /\
  saves (before_monitor trace51) = [] /\
  saves (after_monitor trace51)
    = [(model_file_name loop_args 51, {| ck_epoch := 51; ck_model := 102 |})].
Proof.
  destruct (checkpoint_schedule (FW := toy) loop_args toy_loader tt tt 10 state0
              empty_world trace10 world10 Continue state10 run10_eq)
    as (Hdue & _ & _ & _).
  destruct (checkpoint_schedule (FW := toy) loop_args toy_loader tt tt 51 state_near_stop
              empty_world trace51 world51 Break state51 run51_eq)
    as (_ & Hnot & Hstop & _).
  destruct Hdue as [Hsave _]. { right. reflexivity. }
  assert (Hnone : saves (before_monitor trace51) = []).
  { apply Hnot. vm_compute. intuition discriminate. }
  destruct (Hstop eq_refl) as [_ Hlate].
  destruct (Hlate Hnone eq_refl) as [Hsaved _].
  split; [exact run10_eq|].
  split; [exact run51_eq|].
  split; [exact Hsave|].
  split; [exact Hnone|].
  exact Hsaved.
Defined.

(** ** Runs on which the first statements fail *)

(** C2 as first stated: in epoch 51 of this run a checkpoint save and a
    validation come after the early-stop check. *)
Lemma save_follows_early_stop_check :
  result_of (script overfit_args empty_world) = Ok tt /\
  step_kinds (epoch_events 51 (trace_of (script overfit_args empty_world)))
    = [KTrain; KLog; KLrStep; KMonitor; KSave; KValidate] /\
  follows fixed_order [KTrain; KLog; KLrStep; KMonitor; KSave; KValidate]
    = false.
Proof. split; [|split]; vm_compute; reflexivity. Qed.

(** C3 as first stated: the line of epoch 2 holds epoch, learning rate and
    train loss only. *)
Lemma log_line_without_validation_values :
  result_of (script short_args empty_world) = Ok tt /\
  log_lines (epoch_events 2 (trace_of (script short_args empty_world)))
    = [LogTrain 2 (1 # 1000) (6 # 16)] /\
  has_validation_fields (LogTrain 2 (1 # 1000) (6 # 16)) = false.
Proof. split; [|split]; vm_compute; reflexivity. Qed.

(** C5 as first stated: with [--val_epochs 0] and one line in the old log
    the run raises while reading the log back; the missing checkpoint is
    never reported. *)
Lemma resume_raises_before_the_file_check :
  args_resume resume_args0 <> ""%string /\
  files old_log_world !! args_resume resume_args0 = None /\
  result_of (script resume_args0 old_log_world) = Err ZeroDivisionError /\
  trace_of (script resume_args0 old_log_world) =
    [EvPrintData "args"; EvSetupSeed 88; EvBuildModel "DualSeg_res50" 3;
     EvBuildTrainSet "paris" (SizeTuple 512 512) 4; EvBuildTestSet "paris";
     EvPrintData "the number of parameters"; EvPrint "Dataset statistics";
     EvPrintData "data['classWeights']"; EvPrintData "mean and std";
     EvBuildLoss; EvBuildOptimizer Adam; EvPrint "use gpu id: '0'";
     EvPrint "single GPU for training";
     EvMakedirs "./checkpoint/paris/DualSeg_res50bs4gpu1_train/";
     EvMakedirs
       "./checkpoint/paris/DualSeg_res50bs4gpu1_train/predict_sliding";
     EvRecordArgs; EvOpenLog true].
Proof.
  split; [vm_compute; discriminate|].
  split; [|split]; vm_compute; reflexivity.
Qed.


(** C7 as first stated: epoch 51 is no multiple of 2, not epoch 1 and not
    the last epoch, and yet a validation runs in it; its line in the log is
    a train-only line. *)
Lemma validation_outside_the_schedule :
  List.filter is_validation
    (epoch_events 51 (trace_of (script overfit_args empty_world)))
    = [EvPredictSliding 51 (SizeTuple 512 512)] /\
  ~ (51 mod args_val_epochs overfit_args = 0 \/ 51 = 1
     \/ 51 = args_max_epochs overfit_args) /\
  log_lines (epoch_events 51 (trace_of (script overfit_args empty_world)))
    = [LogTrain 51 (81 # 100000) (6 # 16)].
Proof.
  split; [vm_compute; reflexivity|].
  split; [vm_compute; intuition discriminate|].
  vm_compute. reflexivity.
Qed.

(** C8 as first stated: the run is given [--input_size "(1024, 1024)"] and
    works with 512 by 512 throughout. *)
Lemma input_size_flag_overridden :
  args_input_size short_args = parsed_input_size (Some "(1024, 1024)") /\
  omap size_used (trace_of (script short_args empty_world))
    = [SizeTuple 512 512; SizeTuple 512 512; SizeTuple 512 512] /\
  SizeTuple 512 512 <> parsed_input_size (Some "(1024, 1024)").
Proof.
  split; [reflexivity|]. split; [vm_compute; reflexivity|discriminate].
Qed.

(** ** Further runs *)

Lemma short_loop_ok : result_of short_loop = Ok short_state.
Proof. vm_compute. reflexivity. Qed.

Lemma steady_loop_ok : result_of steady_loop = Ok steady_state.
Proof. vm_compute. reflexivity. Qed.

(** The old log of one line is read back. *)
Lemma replay_log_lengths_witness :
  replay_log (FW := toy) 10 0 (logfile old_log_world) ([], [], [])
    = Ok ([(1 # 2)%Q], [(1 # 4)%Q], [(1 # 2)%Q]) /\
  Forall2 (fun line q => field (FW := toy) line 2 = Ok q)
    (logfile old_log_world) [(1 # 2)%Q].
Proof.
  assert (H : replay_log (FW := toy) 10 0 (logfile old_log_world) ([], [], [])
              = Ok ([(1 # 2)%Q], [(1 # 4)%Q], [(1 # 2)%Q])).
  { vm_compute. reflexivity. }
  split; [exact H|].
  exact (proj1 (replay_log_lengths (FW := toy) 10 (logfile old_log_world)
                  _ _ _ H)).
Defined.

(** The run of three epochs trains the epochs 1, 2 and 3. *)
Lemma trained_epochs_witness :
  result_of short_loop = Ok short_state /\
  stopped_early (trace_of short_loop) = false /\
  exists k, trains (trace_of short_loop) = seqZ 1 k /\ k = 3.
Proof.
  assert (Hstop : stopped_early (trace_of short_loop) = false).
  { vm_compute. reflexivity. }
  split; [exact short_loop_ok|]. split; [exact Hstop|].
  destruct (trained_epochs_consecutive (FW := toy) short_loop_args toy_loader
              tt tt 1 state0 empty_world _ _ _ (run_ok _ _ _ short_loop_ok))
    as ((k & _ & Htrains & Hfull & _) & _).
  exists k. split; [exact Htrains|].
  rewrite (Hfull short_state eq_refl Hstop). vm_compute. reflexivity.
Defined.

(** Its log and its history lists. *)
Lemma history_mirrors_log_witness :
  result_of short_loop = Ok short_state /\
  map line_epoch (log_lines (trace_of short_loop)) = trains (trace_of short_loop) /\
  lossVal_list short_state
    = lossVal_list state0
      ++ omap line_val_loss (log_lines (trace_of short_loop)).
Proof.
  split; [exact short_loop_ok|].
  destruct (history_mirrors_log (FW := toy) short_loop_args toy_loader tt tt
              _ 1 state0 empty_world _ _ short_state
              (run_ok _ _ _ short_loop_ok))
    as (Hep & _ & Hval & _).
  split; [exact Hep|exact Hval].
Defined.

(** [--val_epochs 0] *)
Lemma zero_val_epochs_witness :
  args_val_epochs (loop_args_of resume_args0) = 0 /\
  exists x, result_of zero_loop = Err x /\ trains (trace_of zero_loop) = [1].
Proof.
  split; [reflexivity|].
  destruct (zero_val_epochs_raises (FW := toy) (loop_args_of resume_args0)
              toy_loader tt tt 1 1 state0 empty_world _ _ _ eq_refl
              (le_n 1) (run_eta _ _))
    as (x & Hr & _ & Htr & _).
  exists x. split; [exact Hr|exact Htr].
Defined.

(** [--sliding] switched off *)
Lemma whole_mode_witness :
  args_sliding (loop_args_of whole_args) = false /\
  metrics state0 = None /\
  exists x, result_of whole_loop = Err x /\ log_lines (trace_of whole_loop) = [].
Proof.
  split; [reflexivity|]. split; [reflexivity|].
  destruct (whole_mode_never_validates (FW := toy) (loop_args_of whole_args)
              toy_loader tt tt 1 1 state0 empty_world _ _ _ eq_refl eq_refl
              (run_eta _ _)) as (_ & Hfirst).
  destruct (Hfirst eq_refl (le_n 1)) as (x & Hr & _ & Hlog & _).
  exists x. split; [exact Hr|exact Hlog].
Defined.

(** The monitor stops at epoch 51: the late save has written the file. *)
Lemma early_stop_witness :
  let run :=
    epoch_body loop_args toy_loader tt tt 51 state_near_stop empty_world in
  result_of run = Ok (Break, state51) /\
  on_disk (model_file_name loop_args 51) (world_of run) = true /\
  files (world_of run) !! model_file_name loop_args 51
    = Some {| ck_epoch := 51; ck_model := model state51 |}.
Proof.
  cbv zeta.
  assert (H : result_of (epoch_body loop_args toy_loader tt tt 51
                           state_near_stop empty_world)
              = Ok (Break, state51)).
  { vm_compute. reflexivity. }
  split; [exact H|].
  destruct (early_stop_leaves_checkpoint (FW := toy) loop_args toy_loader tt tt
              51 state_near_stop empty_world _ _ state51 (run_ok _ _ _ H))
    as (Hdisk & Hfresh & _).
  split; [exact Hdisk|].
  apply Hfresh. right. vm_compute. reflexivity.
Defined.

(** The run of three epochs leaves [model_3.pth]. *)
Lemma final_model_witness :
  1 <= args_max_epochs short_loop_args /\
  result_of short_loop = Ok short_state /\
  stopped_early (trace_of short_loop) = false /\
  files (world_of short_loop)
    !! model_file_name short_loop_args (args_max_epochs short_loop_args)
  = Some {| ck_epoch := args_max_epochs short_loop_args;
            ck_model := model short_state |}.
Proof.
  assert (Hmax : 1 <= args_max_epochs short_loop_args).
  { vm_compute. discriminate. }
  assert (Hstop : stopped_early (trace_of short_loop) = false).
  { vm_compute. reflexivity. }
  split; [exact Hmax|]. split; [exact short_loop_ok|]. split; [exact Hstop|].
  exact (completed_run_saves_final_model (FW := toy) short_loop_args
           toy_loader tt tt 1 state0 empty_world _ _ short_state Hmax
           (run_ok _ _ _ short_loop_ok) Hstop).
Defined.

(** Three epochs advance the scheduler by three and leave the rate. *)
Lemma learning_rate_witness :
  result_of short_loop = Ok short_state /\
  0 <= lr_scheduler state0 /\
  lr_scheduler short_state
    = lr_scheduler state0 + Z.of_nat (length (trains (trace_of short_loop))) /\
  (opt_lr (optim short_state) ==
   opt_lr (optim state0)
   * (9 # 10) ^ decays (lr_scheduler state0) (lr_scheduler short_state))%Q.
Proof.
  assert (H0 : 0 <= lr_scheduler state0) by (vm_compute; discriminate).
  split; [exact short_loop_ok|]. split; [exact H0|].
  destruct (learning_rate_schedule (FW := toy) short_loop_args toy_loader tt
              tt _ 1 state0 empty_world _ _ short_state
              (run_ok _ _ _ short_loop_ok) H0) as (Hcount & _ & Hrate).
  split; [exact Hcount|exact Hrate].
Defined.

(** The resumed run returns and closes the log. *)
Lemma log_closed_witness :
  In EvCloseLog (trace_of resumed_main) <-> result_of resumed_main = Ok tt.
Proof.
  exact (proj1 (log_closed_iff_main_returns (FW := toy)
                  (set_dataset_attrs 3 (SizeTuple 512 512) resume_on_args)
                  255 resumed_world)).
Defined.

(** A run with [--cuda] off *)
Lemma without_cuda_witness :
  args_cuda cpu_args = false /\
  args_gpu_nums cpu_args = None /\
  In (args_dataset cpu_args) supported_datasets /\
  result_of (script cpu_args empty_world) = Err (AttributeError "gpu_nums").
Proof.
  assert (Hin : In (args_dataset cpu_args) supported_datasets).
  { vm_compute. tauto. }
  split; [reflexivity|]. split; [reflexivity|]. split; [exact Hin|].
  exact (proj1 (run_without_cuda_raises (FW := toy) cpu_args empty_world
                  eq_refl eq_refl Hin)).
Defined.

(** Resuming from the checkpoint of epoch 2 with [--max_epochs 2] *)
Lemma resume_after_last_epoch_witness :
  In (args_dataset resume_done_args) supported_datasets /\
  files resumed_world !! args_resume resume_done_args = Some old_checkpoint /\
  args_max_epochs resume_done_args <= ck_epoch old_checkpoint /\
  result_of (script resume_done_args resumed_world) = Ok tt /\
  files (world_of (script resume_done_args resumed_world))
    = files resumed_world.
Proof.
  assert (Hin : In (args_dataset resume_done_args) supported_datasets).
  { vm_compute. tauto. }
  assert (Hfile : files resumed_world !! args_resume resume_done_args
                  = Some old_checkpoint).
  { vm_compute. reflexivity. }
  assert (Hmax : args_max_epochs resume_done_args <= ck_epoch old_checkpoint).
  { vm_compute. discriminate. }
  assert (Hres : args_resume resume_done_args <> ""%string).
  { vm_compute. discriminate. }
  split; [exact Hin|]. split; [exact Hfile|]. split; [exact Hmax|].
  destruct (resume_after_last_epoch (FW := toy) resume_done_args resumed_world
              old_checkpoint ([], [], []) Hin eq_refl eq_refl Hres Hfile Hmax
              eq_refl) as (Hr & Hf & _).
  split; [exact Hr|exact Hf].
Defined.

(** Resumed after epoch 2, the run logs epoch 3 first, at the rate [--lr]. *)
Lemma first_logged_rate_witness :
  head (log_lines (trace_of resumed_main)) = Some resumed_first_line /\
  line_epoch resumed_first_line = 3 /\
  line_lr resumed_first_line
    = args_lr (set_dataset_attrs 3 (SizeTuple 512 512) resume_on_args).
Proof.
  assert (H : head (log_lines (trace_of resumed_main))
              = Some resumed_first_line).
  { vm_compute. reflexivity. }
  split; [exact H|]. split; [reflexivity|].
  exact (proj1 (first_logged_rate (FW := toy)
                  (set_dataset_attrs 3 (SizeTuple 512 512) resume_on_args)
                  255 resumed_world resumed_first_line H)).
Defined.

(** Two epochs on [steady], written by [show_line] and read back. *)
Lemma replay_rebuilds_witness :
  result_of steady_loop = Ok steady_state /\
  map show_line (log_lines (trace_of steady_loop))
    = ["1 0.001 0.5 1 0.5 0.25"; "2 0.001 0.5"]%string /\
  replay_log (FW := steady) (args_val_epochs short_loop_args) 0
    (map show_line (log_lines (trace_of steady_loop))) ([], [], [])
  = Ok (lossTr_list steady_state, lossVal_list steady_state,
        mIOU_val_list steady_state).
Proof.
  split; [exact steady_loop_ok|]. split; [vm_compute; reflexivity|].
  apply (replay_rebuilds_history (FW := steady) short_loop_args [(1 # 2)%Q]
           tt tt show_line 2 steady_state0
           steady_world _ _ steady_state
           (run_ok _ _ _ steady_loop_ok) eq_refl eq_refl eq_refl).
  - left. vm_compute. intuition discriminate.
  - assert (Hlines : log_lines (trace_of steady_loop)
                     = [LogTrainVal 1 (1 # 1000) (1 # 2) 1 (1 # 2) (1 # 4) []
                          (1 # 2) (1 # 2) [];
                        LogTrain 2 (1 # 1000) (1 # 2)]).
    { vm_compute. reflexivity. }
    rewrite Hlines.
    repeat constructor; try (vm_compute; reflexivity);
      intros q [= <-]; vm_compute; reflexivity.
Defined.
